(** * Finance tracker backend: ownership-scoped CRUD, validation and tokens

    A shallow embedding of the Django/DRF backend under [Backend/]:
    the models of [transactions/models.py] and [budgets/models.py], the
    serializers of [transactions/serializers.py] and
    [budgets/serializers.py], the viewsets of [transactions/views.py] and
    [budgets/views.py], and the token handling of [accounts/views.py].

    Conventions of the embedding.
    - A database table is a list of rows in insertion order; a primary key
      is a [Z] drawn from a per-table sequence.
    - A decimal amount with two decimal places is the integer number of
      cents.
    - A Python [str] is a [string] whose characters are code points below
      256.
    - An exception is a value of [error]; a function that may raise
      returns a [result].
    - The clock ([timezone.now()]) and the random source of token keys are
      explicit arguments.
    - [ORDER BY] is a stable sort: rows that tie keep the order of the
      table.
    - A list answers one page of the filtered, searched and ordered query
      set, as the filter backends and the pagination class of the
      viewsets prescribe. *)

From Stdlib Require Import ZArith List String Ascii Bool Lia.
From Stdlib Require Import Permutation Sorted.
Import ListNotations.

Local Open Scope string_scope.
Local Open Scope list_scope.
Local Open Scope Z_scope.

Set Implicit Arguments.

(** ** Python primitives *)

Module Py.

(** [str.isspace] on one code point below 256. *)
Definition isspace (c : ascii) : bool :=
  let n := Z.of_nat (nat_of_ascii c) in
  ((9 <=? n) && (n <=? 13)) || ((28 <=? n) && (n <=? 32))
  || (n =? 133) || (n =? 160).

Fixpoint lstrip (s : string) : string :=
  match s with
  | EmptyString => EmptyString
  | String c s' => if isspace c then lstrip s' else s
  end.

Fixpoint rstrip (s : string) : string :=
  match s with
  | EmptyString => EmptyString
  | String c s' =>
      match rstrip s' with
      | EmptyString => if isspace c then EmptyString else String c EmptyString
      | r => String c r
      end
  end.

(** [s.strip()] *)
Definition strip (s : string) : string := rstrip (lstrip s).

(** [len(s)] *)
Definition len (s : string) : Z := Z.of_nat (String.length s).

(** Truth value of an [int]. *)
Definition truthy (n : Z) : bool := negb (n =? 0).

End Py.

(** ** Exceptions and results *)

(** [detail] of a DRF [ValidationError] raised by a serializer: the keys
    of [serializer.errors] with their messages, in field order. *)
Definition error_detail := list (string * string).

Inductive error : Type :=
| ValidationError (detail : error_detail)  (* rest_framework: answered with 400 *)
| Http404                                  (* get_object_or_404: answered with 404 *)
| IntegrityError                           (* database constraint; not handled by DRF *)
| DoesNotExist                             (* Model.DoesNotExist *)
| MultipleObjectsReturned.                 (* Model.MultipleObjectsReturned *)

Inductive result (A : Type) : Type :=
| Ok (a : A)
| Raise (e : error).

Arguments Ok {A} a.
Arguments Raise {A} e.

Definition bind {A B : Type} (r : result A) (k : A -> result B) : result B :=
  match r with
  | Ok a => k a
  | Raise e => Raise e
  end.

Notation "x <- r ;; k" := (bind r (fun x => k))
  (at level 61, r at next level, right associativity).

Definition is_ok {A : Type} (r : result A) : bool :=
  match r with Ok _ => true | Raise _ => false end.

(** The key under which DRF reports errors that belong to no single field. *)
Definition non_field_errors : string := "non_field_errors".

(** A raised value is a validation error. *)
Definition is_validation_error {A : Type} (r : result A) : Prop :=
  exists detail, r = Raise (ValidationError detail).

(** A raised value is a validation error that reports under [key]. *)
Definition validation_error_on {A : Type} (key : string) (r : result A) : Prop :=
  exists detail, r = Raise (ValidationError detail) /\ In key (map fst detail).

(** ** DRF serializer fields *)

Module Drf.

(** One entry of the request body, as a field sees it. *)
Inductive input (A : Type) : Type :=
| Omitted             (* key absent: [empty] *)
| Null                (* JSON null: [None] *)
| Given (a : A).

Arguments Omitted {A}.
Arguments Null {A}.
Arguments Given {A} a.

(** Outcome of validating one field inside [Serializer.to_internal_value]. *)
Inductive field_result (A : Type) : Type :=
| SkipField                 (* the key is left out of [validated_data] *)
| Validated (a : A)
| Invalid (msg : string).   (* [ValidationError] collected under the field *)

Arguments SkipField {A}.
Arguments Validated {A} a.
Arguments Invalid {A} msg.

(** [Field.run_validation]: [validate_empty_values] first, then the
    field's own conversion and validators.  [allow_null] is [Some v]
    when the field accepts null and hands [v] on for it. *)
Definition run_validation {A B : Type} (partial required : bool)
    (allow_null : option B) (to_internal_value : A -> field_result B)
    (data : input A) : field_result B :=
  match data with
  | Omitted =>
      if partial then SkipField
      else if required then Invalid "This field is required."
      else SkipField
  | Null =>
      match allow_null with
      | Some none => Validated none
      | None => Invalid "This field may not be null."
      end
  | Given a => to_internal_value a
  end.

(** The serializer's [validate_<field>] hook, run on a value the field
    accepted. *)
Definition and_then {A B : Type} (r : field_result A)
    (validate_method : A -> field_result B) : field_result B :=
  match r with
  | SkipField => SkipField
  | Validated a => validate_method a
  | Invalid msg => Invalid msg
  end.

Definition errors_of {A : Type} (name : string) (r : field_result A)
  : error_detail :=
  match r with
  | Invalid msg => [(name, msg)]
  | _ => []
  end.

Definition value_of {A : Type} (r : field_result A) : option A :=
  match r with
  | Validated a => Some a
  | _ => None
  end.

(** [s] holds the code point 0. *)
Fixpoint has_null (s : string) : bool :=
  match s with
  | EmptyString => false
  | String c s' => (Nat.eqb (nat_of_ascii c) 0) || has_null s'
  end.

(** [CharField(max_length=n)]: blank strings are refused, surrounding
    whitespace is trimmed, then the length validator and
    [ProhibitNullCharactersValidator] run. *)
Definition char_field (max_length : Z) (s : string) : field_result string :=
  if String.eqb (Py.strip s) "" then Invalid "This field may not be blank."
  else if max_length <? Py.len (Py.strip s)
       then Invalid "Ensure this field has no more than max_length characters."
       else if has_null (Py.strip s)
            then Invalid "Null characters are not allowed."
            else Validated (Py.strip s).

(** [DecimalField(max_digits=10, decimal_places=2)] with
    [MinValueValidator(0.01)], on an amount the body gives with two
    decimal places at most, in cents.  At most eight digits before the
    point.  The limit is the float [0.01], which is
    slightly above 1/100, and the validator fails when
    [value < limit], so one cent is below the limit. *)
Definition decimal_field (cents : Z) : field_result Z :=
  if 10 ^ 10 <=? Z.abs cents
  then Invalid "Ensure that there are no more than 8 digits before the decimal point."
  else if cents <=? 1
       then Invalid "Ensure this value is greater than or equal to 0.01."
       else Validated cents.

(** [IntegerField] built from a [PositiveIntegerField] with
    [MinValueValidator(lo)] and [MaxValueValidator(hi)]. *)
Definition integer_field (lo hi : Z) (n : Z) : field_result Z :=
  if hi <? n then Invalid "Ensure this value is less than or equal to the maximum."
  else if n <? lo then Invalid "Ensure this value is greater than or equal to the minimum."
  else Validated n.

End Drf.

Import Drf.

(** ** Models ([transactions/models.py], [budgets/models.py]) *)

(** Primary key of a [django.contrib.auth] user. *)
Definition user_id := Z.

Module Category.
Record t : Type := Build {
  id : Z;
  name : string;          (* CharField(max_length=100) *)
  user : user_id;         (* ForeignKey(User, on_delete=CASCADE) *)
  created_at : Z          (* auto_now_add *)
}.
End Category.

Inductive TransactionType : Type := INCOME | EXPENSE | TRANSFER.

Module Transaction.
Record t : Type := Build {
  id : Z;
  user : user_id;                      (* ForeignKey(User, on_delete=CASCADE) *)
  category : option Z;                 (* ForeignKey(Category, on_delete=SET_NULL, null=True) *)
  amount : Z;                          (* cents *)
  description : string;
  date : Z;                            (* day number *)
  transaction_type : TransactionType;  (* default=TransactionType.EXPENSE *)
  created_at : Z
}.

(** [default=TransactionType.EXPENSE] *)
Definition default_transaction_type : TransactionType := EXPENSE.

Definition set_category (c : option Z) (r : t) : t :=
  Build (id r) (user r) c (amount r) (description r) (date r)
        (transaction_type r) (created_at r).
End Transaction.

Module Budget.
Record t : Type := Build {
  id : Z;
  user : user_id;      (* ForeignKey(User, on_delete=CASCADE) *)
  category : Z;        (* ForeignKey(Category, on_delete=CASCADE) *)
  amount : Z;          (* cents *)
  month : Z;
  year : Z;
  created_at : Z
}.
End Budget.

(** ** The relational store *)

Record DB : Type := Build_DB {
  categories : list Category.t;
  transactions : list Transaction.t;
  budgets : list Budget.t;
  category_seq : Z;       (* next primary key of each table *)
  transaction_seq : Z;
  budget_seq : Z
}.

Definition empty_db : DB := Build_DB [] [] [] 1 1 1.

Definition type_eqb (a b : TransactionType) : bool :=
  match a, b with
  | INCOME, INCOME | EXPENSE, EXPENSE | TRANSFER, TRANSFER => true
  | _, _ => false
  end.

Definition opt_eqb (a : option Z) (b : Z) : bool :=
  match a with
  | Some x => x =? b
  | None => false
  end.

(** *** Query sets *)

Section QuerySet.
Variable Row : Type.
Variable pk : Row -> Z.

(** [queryset.get(pk=k)], as [get_object_or_404] and
    [PrimaryKeyRelatedField] use it. *)
Definition get_pk (qs : list Row) (k : Z) : option Row :=
  find (fun r => pk r =? k) qs.

(** [instance.delete()] on a row without dependents. *)
Definition delete_pk (table : list Row) (k : Z) : list Row :=
  filter (fun r => negb (pk r =? k)) table.

(** [instance.save()] on an existing row: the row with the same primary
    key is overwritten in place. *)
Definition save_pk (table : list Row) (row : Row) : list Row :=
  map (fun r => if pk r =? pk row then row else r) table.

(** [ORDER BY] as a stable insertion sort: rows that compare equal keep
    the order of the table. *)
Variable leb : Row -> Row -> bool.

Fixpoint insert_sorted (x : Row) (l : list Row) : list Row :=
  match l with
  | [] => [x]
  | y :: l' => if leb x y then x :: l else y :: insert_sorted x l'
  end.

Fixpoint order_by (l : list Row) : list Row :=
  match l with
  | [] => []
  | x :: l' => insert_sorted x (order_by l')
  end.
End QuerySet.

(** *** Constraints and cascades of the schema *)

(** [Category.Meta.unique_together = ['name', 'user']], checked against
    every row other than the one with primary key [self]. *)
Definition category_conflict (table : list Category.t) (self : Z)
    (row : Category.t) : bool :=
  existsb (fun r => negb (Category.id r =? self)
                    && String.eqb (Category.name r) (Category.name row)
                    && (Category.user r =? Category.user row)) table.

(** [Budget.Meta.unique_together = ['user', 'category', 'month', 'year']]. *)
Definition budget_conflict (table : list Budget.t) (self : Z)
    (row : Budget.t) : bool :=
  existsb (fun r => negb (Budget.id r =? self)
                    && (Budget.user r =? Budget.user row)
                    && (Budget.category r =? Budget.category row)
                    && (Budget.month r =? Budget.month row)
                    && (Budget.year r =? Budget.year row)) table.

(** [category.delete()]: the collector deletes the budgets that point to
    the category ([on_delete=CASCADE]), nulls the reference of the
    transactions that point to it ([on_delete=SET_NULL]), and deletes the
    category row. *)
Definition delete_category (db : DB) (k : Z) : DB :=
  Build_DB
    (delete_pk Category.id (categories db) k)
    (map (fun t => if opt_eqb (Transaction.category t) k
                   then Transaction.set_category None t else t)
         (transactions db))
    (filter (fun b => negb (Budget.category b =? k)) (budgets db))
    (category_seq db) (transaction_seq db) (budget_seq db).

Definition delete_transaction (db : DB) (k : Z) : DB :=
  Build_DB (categories db) (delete_pk Transaction.id (transactions db) k)
           (budgets db) (category_seq db) (transaction_seq db) (budget_seq db).

Definition delete_budget (db : DB) (k : Z) : DB :=
  Build_DB (categories db) (transactions db)
           (delete_pk Budget.id (budgets db) k)
           (category_seq db) (transaction_seq db) (budget_seq db).

(** ** Serializers ([transactions/serializers.py]) *)

Definition or_else {A : Type} (o : option A) (d : A) : A :=
  match o with
  | Some a => a
  | None => d
  end.

(** [PrimaryKeyRelatedField(queryset=Category.objects.all())] *)
Definition category_pk_field (db : DB) (k : Z) : field_result Category.t :=
  match get_pk Category.id (categories db) k with
  | Some c => Validated c
  | None => Invalid "Invalid pk - object does not exist."
  end.

Module CategorySerializer.

(** The request body.  [user] is part of [Meta.fields] but read-only. *)
Record data : Type := Data {
  name : input string;
  user : input user_id
}.

Record validated_data : Type := ValidatedData {
  validated_name : option string;
  validated_user : option user_id
}.

Definition validate_name (value : string) : field_result string :=
  if Py.len (Py.strip value) <? 2
  then Invalid "Category name must be at least 2 characters long."
  else Validated (Py.strip value).

(** [Serializer.run_validation]: read-only fields are not looked at. *)
Definition run_validation (partial : bool) (d : data) : result validated_data :=
  let r_name :=
    and_then (Drf.run_validation partial true None (char_field 100) (name d))
             validate_name in
  match errors_of "name" r_name with
  | [] => Ok (ValidatedData (value_of r_name) None)
  | errs => Raise (ValidationError errs)
  end.

(** [Category.objects.create] with [validated_data] as keyword arguments. *)
Definition model_create (db : DB) (now : Z) (vd : validated_data)
  : result (DB * Category.t) :=
  match validated_user vd with
  | None => Raise IntegrityError          (* NOT NULL on user_id *)
  | Some u =>
      let row := Category.Build (category_seq db)
                   (or_else (validated_name vd) "") u now in
      if category_conflict (categories db) (Category.id row) row
      then Raise IntegrityError
      else Ok (Build_DB (categories db ++ [row]) (transactions db) (budgets db)
                        (category_seq db + 1) (transaction_seq db) (budget_seq db),
               row)
  end.

Definition create (db : DB) (request_user : user_id) (now : Z)
    (vd : validated_data) : result (DB * Category.t) :=
  let vd := ValidatedData (validated_name vd) (Some request_user) in
  model_create db now vd.

(** [ModelSerializer.update]: every key of [validated_data] is set on
    the instance, then the instance is saved. *)
Definition update (db : DB) (instance : Category.t) (vd : validated_data)
  : result (DB * Category.t) :=
  let row := Category.Build (Category.id instance)
               (or_else (validated_name vd) (Category.name instance))
               (or_else (validated_user vd) (Category.user instance))
               (Category.created_at instance) in
  if category_conflict (categories db) (Category.id row) row
  then Raise IntegrityError
  else Ok (Build_DB (save_pk Category.id (categories db) row)
                    (transactions db) (budgets db)
                    (category_seq db) (transaction_seq db) (budget_seq db),
           row).

End CategorySerializer.

Module TransactionSerializer.

Record data : Type := Data {
  user : input user_id;              (* read-only *)
  category : input Z;                (* primary key; required=False, allow_null=True *)
  amount : input Z;
  description : input string;
  date : input Z;
  transaction_type : input string    (* 'IN', 'EX' or 'TR' *)
}.

Record validated_data : Type := ValidatedData {
  validated_user : option user_id;
  validated_category : option (option Category.t);
  validated_amount : option Z;
  validated_description : option string;
  validated_date : option Z;
  validated_transaction_type : option TransactionType
}.

(** [ChoiceField(choices=TransactionType.choices)] *)
Definition choice_field (s : string) : field_result TransactionType :=
  if String.eqb s "IN" then Validated INCOME
  else if String.eqb s "EX" then Validated EXPENSE
  else if String.eqb s "TR" then Validated TRANSFER
  else Invalid "Not a valid choice.".

Definition validate_amount (value : Z) : field_result Z :=
  if value <=? 0 then Invalid "Amount must be greater than zero."
  else Validated value.

Definition validate_description (value : string) : field_result string :=
  if Py.len (Py.strip value) <? 2
  then Invalid "Description must be at least 2 characters long."
  else Validated (Py.strip value).

(** [self.context.get('request')] is always present under a viewset. *)
Definition validate_category (request_user : user_id)
    (value : option Category.t) : field_result (option Category.t) :=
  match value with
  | Some c =>
      if negb (Category.user c =? request_user)
      then Invalid "You can only use your own categories."
      else Validated value
  | None => Validated value
  end.

Definition category_field (db : DB) (k : Z) : field_result (option Category.t) :=
  and_then (category_pk_field db k) (fun c => Validated (Some c)).

(** The writable fields of [Meta.fields], in order. *)
Definition category_result (db : DB) (request_user : user_id)
    (partial : bool) (d : data) : field_result (option Category.t) :=
  and_then (Drf.run_validation partial false (Some None)
              (category_field db) (category d))
           (validate_category request_user).

Definition amount_result (partial : bool) (d : data) : field_result Z :=
  and_then (Drf.run_validation partial true None decimal_field (amount d))
           validate_amount.

Definition description_result (partial : bool) (d : data)
  : field_result string :=
  and_then (Drf.run_validation partial true None (char_field 255)
              (description d))
           validate_description.

Definition date_result (partial : bool) (d : data) : field_result Z :=
  Drf.run_validation partial true None (fun x => Validated x) (date d).

Definition type_result (partial : bool) (d : data)
  : field_result TransactionType :=
  Drf.run_validation partial false None choice_field (transaction_type d).

Definition field_errors (db : DB) (request_user : user_id) (partial : bool)
    (d : data) : error_detail :=
  errors_of "category" (category_result db request_user partial d)
  ++ errors_of "amount" (amount_result partial d)
  ++ errors_of "description" (description_result partial d)
  ++ errors_of "date" (date_result partial d)
  ++ errors_of "transaction_type" (type_result partial d).

(** [Serializer.run_validation]; the serializer has no [validate]. *)
Definition run_validation (db : DB) (request_user : user_id)
    (partial : bool) (d : data) : result validated_data :=
  match field_errors db request_user partial d with
  | [] => Ok (ValidatedData None
                (value_of (category_result db request_user partial d))
                (value_of (amount_result partial d))
                (value_of (description_result partial d))
                (value_of (date_result partial d))
                (value_of (type_result partial d)))
  | errs => Raise (ValidationError errs)
  end.

(** [Transaction.objects.create] with [validated_data] as keyword
    arguments: a missing key takes the model field's default. *)
Definition model_create (db : DB) (now : Z) (vd : validated_data)
  : result (DB * Transaction.t) :=
  match validated_user vd, validated_amount vd, validated_date vd with
  | Some u, Some a, Some d =>
      let row := Transaction.Build (transaction_seq db) u
                   (option_map Category.id (or_else (validated_category vd) None))
                   a (or_else (validated_description vd) "") d
                   (or_else (validated_transaction_type vd)
                            Transaction.default_transaction_type)
                   now in
      Ok (Build_DB (categories db) (transactions db ++ [row]) (budgets db)
                   (category_seq db) (transaction_seq db + 1) (budget_seq db),
          row)
  | _, _, _ => Raise IntegrityError       (* NOT NULL *)
  end.

Definition create (db : DB) (request_user : user_id) (now : Z)
    (vd : validated_data) : result (DB * Transaction.t) :=
  let vd := ValidatedData (Some request_user) (validated_category vd)
              (validated_amount vd) (validated_description vd)
              (validated_date vd) (validated_transaction_type vd) in
  model_create db now vd.

(** [ModelSerializer.update] *)
Definition model_update (db : DB) (instance : Transaction.t)
    (vd : validated_data) : result (DB * Transaction.t) :=
  let row := Transaction.Build (Transaction.id instance)
               (or_else (validated_user vd) (Transaction.user instance))
               (match validated_category vd with
                | Some c => option_map Category.id c
                | None => Transaction.category instance
                end)
               (or_else (validated_amount vd) (Transaction.amount instance))
               (or_else (validated_description vd) (Transaction.description instance))
               (or_else (validated_date vd) (Transaction.date instance))
               (or_else (validated_transaction_type vd)
                        (Transaction.transaction_type instance))
               (Transaction.created_at instance) in
  Ok (Build_DB (categories db) (save_pk Transaction.id (transactions db) row)
               (budgets db)
               (category_seq db) (transaction_seq db) (budget_seq db),
      row).

Definition update (db : DB) (instance : Transaction.t) (vd : validated_data)
  : result (DB * Transaction.t) :=
  (* validated_data.pop('user', None) *)
  let vd := ValidatedData None (validated_category vd)
              (validated_amount vd) (validated_description vd)
              (validated_date vd) (validated_transaction_type vd) in
  model_update db instance vd.

End TransactionSerializer.

(** ** Serializers ([budgets/serializers.py]) *)

Module BudgetSerializer.

Record data : Type := Data {
  user : input user_id;      (* read-only *)
  category : input Z;        (* primary key; required=True *)
  amount : input Z;
  month : input Z;
  year : input Z
}.

Record validated_data : Type := ValidatedData {
  validated_user : option user_id;
  validated_category : option Category.t;
  validated_amount : option Z;
  validated_month : option Z;
  validated_year : option Z
}.

Definition validate_amount (value : Z) : field_result Z :=
  if value <=? 0 then Invalid "Budget amount must be greater than zero."
  else Validated value.

Definition validate_month (value : Z) : field_result Z :=
  if (value <? 1) || (12 <? value) then Invalid "Month must be between 1 and 12."
  else Validated value.

(** [current_year] is [timezone.now().year]. *)
Definition validate_year (current_year : Z) (value : Z) : field_result Z :=
  if (value <? current_year - 5) || (current_year + 5 <? value)
  then Invalid "Year must be within 5 years of the current year."
  else Validated value.

Definition validate_category (request_user : user_id) (value : Category.t)
  : field_result Category.t :=
  if negb (Category.user value =? request_user)
  then Invalid "You can only use your own categories."
  else Validated value.

(** The writable fields of [Meta.fields], in order. *)
Definition category_result (db : DB) (request_user : user_id)
    (partial : bool) (d : data) : field_result Category.t :=
  and_then (Drf.run_validation partial true None (category_pk_field db)
              (category d))
           (validate_category request_user).

Definition amount_result (partial : bool) (d : data) : field_result Z :=
  and_then (Drf.run_validation partial true None decimal_field (amount d))
           validate_amount.

Definition month_result (partial : bool) (d : data) : field_result Z :=
  and_then (Drf.run_validation partial true None (integer_field 1 12) (month d))
           validate_month.

Definition year_result (current_year : Z) (partial : bool) (d : data)
  : field_result Z :=
  and_then (Drf.run_validation partial true None (integer_field 2000 2100)
              (year d))
           (validate_year current_year).

Definition field_errors (db : DB) (request_user : user_id)
    (current_year : Z) (partial : bool) (d : data) : error_detail :=
  errors_of "category" (category_result db request_user partial d)
  ++ errors_of "amount" (amount_result partial d)
  ++ errors_of "month" (month_result partial d)
  ++ errors_of "year" (year_result current_year partial d).

Definition to_internal_value (db : DB) (request_user : user_id)
    (current_year : Z) (partial : bool) (d : data) : result validated_data :=
  match field_errors db request_user current_year partial d with
  | [] => Ok (ValidatedData None
                (value_of (category_result db request_user partial d))
                (value_of (amount_result partial d))
                (value_of (month_result partial d))
                (value_of (year_result current_year partial d)))
  | errs => Raise (ValidationError errs)
  end.

(** The rows of
    [Budget.objects.filter(user=user, category=category, month=month, year=year)],
    without the instance under update. *)
Definition duplicates (db : DB) (request_user : user_id)
    (instance : option Budget.t) (c : Category.t) (m y : Z) : list Budget.t :=
  let query :=
    filter (fun b => (Budget.user b =? request_user)
                     && (Budget.category b =? Category.id c)
                     && (Budget.month b =? m) && (Budget.year b =? y))
           (budgets db) in
  match instance with
  | Some i => filter (fun b => negb (Budget.id b =? Budget.id i)) query
  | None => query
  end.

(** [validate(self, data)]: the check runs only when [month], [year]
    and [category] are all present in [data] and truthy. *)
Definition validate (db : DB) (request_user : user_id)
    (instance : option Budget.t) (vd : validated_data) : result validated_data :=
  match validated_month vd, validated_year vd, validated_category vd with
  | Some m, Some y, Some c =>
      if Py.truthy m && Py.truthy y then
        match duplicates db request_user instance c m y with
        | [] => Ok vd
        | _ :: _ =>
            Raise (ValidationError
                     [(non_field_errors,
                       "A budget for this category in this month and year already exists.")])
        end
      else Ok vd
  | _, _, _ => Ok vd
  end.

(** [Serializer.run_validation]: the fields, then [validate]. *)
Definition run_validation (db : DB) (request_user : user_id)
    (current_year : Z) (instance : option Budget.t) (partial : bool)
    (d : data) : result validated_data :=
  vd <- to_internal_value db request_user current_year partial d ;;
  validate db request_user instance vd.

(** [Budget.objects.create] with [validated_data] as keyword arguments. *)
Definition model_create (db : DB) (now : Z) (vd : validated_data)
  : result (DB * Budget.t) :=
  match validated_user vd, validated_category vd, validated_amount vd,
        validated_month vd, validated_year vd with
  | Some u, Some c, Some a, Some m, Some y =>
      let row := Budget.Build (budget_seq db) u (Category.id c) a m y now in
      if budget_conflict (budgets db) (Budget.id row) row
      then Raise IntegrityError
      else Ok (Build_DB (categories db) (transactions db) (budgets db ++ [row])
                        (category_seq db) (transaction_seq db) (budget_seq db + 1),
               row)
  | _, _, _, _, _ => Raise IntegrityError     (* NOT NULL *)
  end.

Definition create (db : DB) (request_user : user_id) (now : Z)
    (vd : validated_data) : result (DB * Budget.t) :=
  let vd := ValidatedData (Some request_user) (validated_category vd)
              (validated_amount vd) (validated_month vd) (validated_year vd) in
  model_create db now vd.

(** [ModelSerializer.update] *)
Definition model_update (db : DB) (instance : Budget.t) (vd : validated_data)
  : result (DB * Budget.t) :=
  let row := Budget.Build (Budget.id instance)
               (or_else (validated_user vd) (Budget.user instance))
               (or_else (option_map Category.id (validated_category vd))
                        (Budget.category instance))
               (or_else (validated_amount vd) (Budget.amount instance))
               (or_else (validated_month vd) (Budget.month instance))
               (or_else (validated_year vd) (Budget.year instance))
               (Budget.created_at instance) in
  if budget_conflict (budgets db) (Budget.id row) row
  then Raise IntegrityError
  else Ok (Build_DB (categories db) (transactions db)
                    (save_pk Budget.id (budgets db) row)
                    (category_seq db) (transaction_seq db) (budget_seq db),
           row).

Definition update (db : DB) (instance : Budget.t) (vd : validated_data)
  : result (DB * Budget.t) :=
  (* validated_data.pop('user', None) *)
  let vd := ValidatedData None (validated_category vd) (validated_amount vd)
              (validated_month vd) (validated_year vd) in
  model_update db instance vd.

Definition month_names (m : Z) : option string :=
  match m with
  | 1 => Some "January" | 2 => Some "February" | 3 => Some "March"
  | 4 => Some "April" | 5 => Some "May" | 6 => Some "June"
  | 7 => Some "July" | 8 => Some "August" | 9 => Some "September"
  | 10 => Some "October" | 11 => Some "November" | 12 => Some "December"
  | _ => None
  end.

End BudgetSerializer.

(** ** Representations *)

(** [CategoryDisplaySerializer(source='category', read_only=True)]: the
    related category is fetched through the foreign key. *)
Definition category_detail (db : DB) (k : option Z) : option (Z * string) :=
  match k with
  | Some k =>
      option_map (fun c => (Category.id c, Category.name c))
                 (get_pk Category.id (categories db) k)
  | None => None
  end.

Record TransactionRepr : Type := Build_TransactionRepr {
  tr_row : Transaction.t;
  tr_category_detail : option (Z * string)
}.

Record BudgetRepr : Type := Build_BudgetRepr {
  br_row : Budget.t;
  br_category_detail : option (Z * string);
  br_month_name : option string
}.

Definition transaction_to_representation (db : DB) (t : Transaction.t)
  : TransactionRepr :=
  Build_TransactionRepr t (category_detail db (Transaction.category t)).

Definition budget_to_representation (db : DB) (b : Budget.t) : BudgetRepr :=
  Build_BudgetRepr b (category_detail db (Some (Budget.category b)))
                   (BudgetSerializer.month_names (Budget.month b)).

(** ** Views ([transactions/views.py], [budgets/views.py])

    The query parameters of a request are modelled as typed values: the
    parameters of the filter set, the terms of [search], the terms of
    [ordering] and, for a list, [page_size] and [page].  The database
    compares text by code point, sorts NULL before every value and folds
    the letters A to Z in [icontains]; none of the properties proved
    below depends on that choice. *)

Module Lookup.

Definition lower (c : ascii) : ascii :=
  let n := nat_of_ascii c in
  if (Nat.leb 65 n && Nat.leb n 90)%bool then ascii_of_nat (n + 32) else c.

Fixpoint lower_string (s : string) : string :=
  match s with
  | EmptyString => EmptyString
  | String c s' => String (lower c) (lower_string s')
  end.

Fixpoint contains (needle hay : string) : bool :=
  String.prefix needle hay
  || match hay with
     | EmptyString => false
     | String _ hay' => contains needle hay'
     end.

(** [name__icontains=needle] *)
Definition icontains (needle hay : string) : bool :=
  contains (lower_string needle) (lower_string hay).

(** A filter whose parameter is absent keeps every row. *)
Definition when {A : Type} (param : option A) (test : A -> bool) : bool :=
  match param with
  | Some v => test v
  | None => true
  end.

End Lookup.

(** [rest_framework.filters.SearchFilter] *)
Module SearchFilter.

(** A row is kept when every term of the [search] parameter is contained,
    whatever the case, in one of its search fields.  A field reached
    through a null foreign key holds no term.  No term keeps every row. *)
Definition matches (fields : list (option string)) (terms : list string)
  : bool :=
  forallb (fun term =>
             existsb (fun field =>
                        match field with
                        | Some s => Lookup.icontains term s
                        | None => false
                        end) fields)
          terms.

End SearchFilter.

(** [rest_framework.filters.OrderingFilter] *)
Module OrderingFilter.

(** One term of an ordering: [field], or [-field] for descending. *)
Record term : Type := Term { descending : bool; field : string }.

(** What a row is sorted by under one field. *)
Inductive key : Type :=
| Null
| Number (z : Z)
| Text (s : string).

Definition compare_keys (a b : key) : comparison :=
  match a, b with
  | Null, Null => Eq
  | Null, _ => Lt
  | _, Null => Gt
  | Number x, Number y => Z.compare x y
  | Number _, Text _ => Lt
  | Text _, Number _ => Gt
  | Text s, Text t => String.compare s t
  end.

(** [remove_invalid_fields]: the terms whose field is one of the view's
    [ordering_fields]. *)
Definition remove_invalid_fields (ordering_fields : list string)
    (terms : list term) : list term :=
  filter (fun t => existsb (String.eqb (field t)) ordering_fields) terms.

(** [get_ordering]: the valid terms of the [ordering] parameter, or the
    view's default ordering when there is none. *)
Definition get_ordering (ordering_fields : list string) (default : list term)
    (param : list term) : list term :=
  match remove_invalid_fields ordering_fields param with
  | [] => default
  | t :: ts => t :: ts
  end.

(** [queryset.order_by] over several terms: the first term that tells two
    rows apart decides. *)
Fixpoint compare_rows {Row : Type} (sort_key : string -> Row -> key)
    (ordering : list term) (a b : Row) : comparison :=
  match ordering with
  | [] => Eq
  | t :: rest =>
      match (if descending t
             then compare_keys (sort_key (field t) b) (sort_key (field t) a)
             else compare_keys (sort_key (field t) a) (sort_key (field t) b))
      with
      | Eq => compare_rows sort_key rest a b
      | Lt => Lt
      | Gt => Gt
      end
  end.

Definition leb {Row : Type} (sort_key : string -> Row -> key)
    (ordering : list term) (a b : Row) : bool :=
  match compare_rows sort_key ordering a b with
  | Gt => false
  | _ => true
  end.

End OrderingFilter.

(** ** Pagination ([StandardResultsSetPagination] in [transactions/views.py]) *)

Module StandardResultsSetPagination.

Definition page_size : Z := 10.
Definition max_page_size : Z := 100.

(** [get_page_size]: the [page_size] query parameter when it is a
    positive integer, cut off at [max_page_size]; the default otherwise.
    [None] stands for a parameter that is absent or not an integer. *)
Definition get_page_size (page_size_param : option Z) : Z :=
  match page_size_param with
  | Some n => if n <=? 0 then page_size else Z.min n max_page_size
  | None => page_size
  end.

(** The [page] query parameter. *)
Inductive page_param : Type :=
| PageAbsent              (* the first page *)
| PageLast                (* 'last' *)
| PageNumber (n : Z)
| PageNotAnInteger.

(** [Paginator.num_pages], with no orphans and an empty first page
    allowed. *)
Definition num_pages (count per_page : Z) : Z :=
  (Z.max 1 count + per_page - 1) / per_page.

(** [object_list[bottom:top]] *)
Definition slice {A : Type} (l : list A) (bottom top : Z) : list A :=
  firstn (Z.to_nat (top - bottom)) (skipn (Z.to_nat bottom) l).

(** [paginate_queryset]: the rows of the page asked for; a page that is
    not an integer, below 1 or beyond the last one is [NotFound]. *)
Definition paginate_queryset {A : Type} (page_size_param : option Z)
    (page : page_param) (queryset : list A) : result (list A) :=
  let per_page := get_page_size page_size_param in
  let count := Z.of_nat (List.length queryset) in
  let last := num_pages count per_page in
  let number :=
    match page with
    | PageAbsent => Some 1
    | PageLast => Some last
    | PageNumber n => Some n
    | PageNotAnInteger => None
    end in
  match number with
  | None => Raise Http404
  | Some n =>
      if (n <? 1) || (last <? n) then Raise Http404
      else
        let bottom := (n - 1) * per_page in
        let top := if count <=? bottom + per_page then count
                   else bottom + per_page in
        Ok (slice queryset bottom top)
  end.

(** The body of a paginated response: the size of the whole query set,
    the numbers of the pages the [next] and [previous] links lead to, and
    the rows of this page. *)
Record Page (A : Type) : Type := Build_Page {
  count : Z;
  next : option Z;
  previous : option Z;
  results : list A
}.

(** The number of the page that [paginate_queryset] has cut. *)
Definition page_number (page_size_param : option Z) (page : page_param)
    (count : Z) : Z :=
  match page with
  | PageAbsent => 1
  | PageLast => num_pages count (get_page_size page_size_param)
  | PageNumber n => n
  | PageNotAnInteger => 1
  end.

(** [get_paginated_response] for the serialized rows [data] of the page. *)
Definition get_paginated_response {A B : Type} (page_size_param : option Z)
    (page : page_param) (queryset : list A) (data : list B) : Page B :=
  let count := Z.of_nat (List.length queryset) in
  let number := page_number page_size_param page count in
  let last := num_pages count (get_page_size page_size_param) in
  Build_Page count
             (if number <? last then Some (number + 1) else None)
             (if 1 <? number then Some (number - 1) else None)
             data.

End StandardResultsSetPagination.

(** [rest_framework.mixins.ListModelMixin] *)
Module ListModelMixin.

(** [list], once [filter_queryset(get_queryset())] is known: the page
    asked for is cut from the query set and serialized. *)
Definition list {A B : Type} (serialize : A -> B) (page_size : option Z)
    (page : StandardResultsSetPagination.page_param) (queryset : list A)
  : result (StandardResultsSetPagination.Page B) :=
  rows <- StandardResultsSetPagination.paginate_queryset page_size page
            queryset ;;
  Ok (StandardResultsSetPagination.get_paginated_response page_size page
        queryset (map serialize rows)).

End ListModelMixin.

(** [get_object_or_404] *)
Definition get_object_or_404 {Row : Type} (pk : Row -> Z) (qs : list Row)
    (k : Z) : result Row :=
  match get_pk pk qs k with
  | Some r => Ok r
  | None => Raise Http404
  end.

Module CategoryViewSet.

(** The query parameters: [CategoryFilter], [search] and [ordering]. *)
Record query : Type := Query {
  name : option string;
  search : list string;
  ordering_param : list OrderingFilter.term
}.

Definition no_filter : query := Query None [] [].

(** [CategoryFilter] *)
Definition matches (q : query) (c : Category.t) : bool :=
  Lookup.when (name q) (fun s => Lookup.icontains s (Category.name c)).

(** [search_fields = ['name']] *)
Definition search_fields (c : Category.t) : list (option string) :=
  [Some (Category.name c)].

(** [ordering_fields = ['name', 'created_at']] *)
Definition ordering_fields : list string := ["name"; "created_at"].

(** [ordering = ['name']] *)
Definition ordering : list OrderingFilter.term :=
  [OrderingFilter.Term false "name"].

(** The column a field of an ordering names.  Only the fields of
    [ordering_fields] and of [ordering] reach here. *)
Definition sort_key (field : string) (c : Category.t) : OrderingFilter.key :=
  if String.eqb field "name" then OrderingFilter.Text (Category.name c)
  else if String.eqb field "created_at"
       then OrderingFilter.Number (Category.created_at c)
       else OrderingFilter.Null.

(** [Category.objects.filter(user=self.request.user)] *)
Definition get_queryset (db : DB) (request_user : user_id) : list Category.t :=
  filter (fun c => Category.user c =? request_user) (categories db).

(** A row passes the filter set and the search. *)
Definition passes (q : query) (c : Category.t) : bool :=
  matches q c && SearchFilter.matches (search_fields c) (search q).

(** [filter_queryset]: the filter backends [DjangoFilterBackend],
    [SearchFilter] and [OrderingFilter] in turn. *)
Definition filter_queryset (q : query) (qs : list Category.t) : list Category.t :=
  order_by (OrderingFilter.leb sort_key
              (OrderingFilter.get_ordering ordering_fields ordering
                 (ordering_param q)))
           (filter (passes q) qs).

Definition get_object (db : DB) (request_user : user_id) (q : query) (k : Z)
  : result Category.t :=
  get_object_or_404 Category.id (filter_queryset q (get_queryset db request_user)) k.

(** The serialized query set that the pages of [list] are cut from. *)
Definition listed (db : DB) (request_user : user_id) (q : query)
  : list Category.t :=
  filter_queryset q (get_queryset db request_user).

Definition list (db : DB) (request_user : user_id) (q : query)
    (page_size : option Z) (page : StandardResultsSetPagination.page_param)
  : result (StandardResultsSetPagination.Page Category.t) :=
  ListModelMixin.list (fun c => c) page_size page
    (filter_queryset q (get_queryset db request_user)).

Definition retrieve (db : DB) (request_user : user_id) (q : query) (k : Z)
  : result Category.t :=
  get_object db request_user q k.

Definition create (db : DB) (request_user : user_id) (now : Z)
    (d : CategorySerializer.data) : result (DB * Category.t) :=
  vd <- CategorySerializer.run_validation false d ;;
  CategorySerializer.create db request_user now vd.

(** [PUT] is [partial = false], [PATCH] is [partial = true]. *)
Definition update (db : DB) (request_user : user_id) (q : query) (k : Z)
    (partial : bool) (d : CategorySerializer.data) : result (DB * Category.t) :=
  instance <- get_object db request_user q k ;;
  vd <- CategorySerializer.run_validation partial d ;;
  CategorySerializer.update db instance vd.

Definition destroy (db : DB) (request_user : user_id) (q : query) (k : Z)
  : result DB :=
  instance <- get_object db request_user q k ;;
  Ok (delete_category db (Category.id instance)).

End CategoryViewSet.

Module TransactionViewSet.

(** The query parameters: [TransactionFilter], [search] and [ordering]. *)
Record query : Type := Query {
  category : option Z;
  transaction_type : option TransactionType;
  min_amount : option Z;
  max_amount : option Z;
  start_date : option Z;
  end_date : option Z;
  search : list string;
  ordering_param : list OrderingFilter.term
}.

Definition no_filter : query := Query None None None None None None [] [].

(** [TransactionFilter] *)
Definition matches (q : query) (t : Transaction.t) : bool :=
  Lookup.when (category q) (fun k => opt_eqb (Transaction.category t) k)
  && Lookup.when (transaction_type q)
       (fun ty => type_eqb (Transaction.transaction_type t) ty)
  && Lookup.when (min_amount q) (fun a => a <=? Transaction.amount t)
  && Lookup.when (max_amount q) (fun a => Transaction.amount t <=? a)
  && Lookup.when (start_date q) (fun d => d <=? Transaction.date t)
  && Lookup.when (end_date q) (fun d => Transaction.date t <=? d).

(** [category__name]: the name of the category the row points to, NULL
    when it points to none. *)
Definition category_name (db : DB) (t : Transaction.t) : option string :=
  option_map snd (category_detail db (Transaction.category t)).

(** [search_fields = ['description', 'category__name']] *)
Definition search_fields (db : DB) (t : Transaction.t) : list (option string) :=
  [Some (Transaction.description t); category_name db t].

(** [ordering_fields = ['date', 'amount', 'created_at', 'category__name']] *)
Definition ordering_fields : list string :=
  ["date"; "amount"; "created_at"; "category__name"].

(** [ordering = ['-date']] *)
Definition ordering : list OrderingFilter.term :=
  [OrderingFilter.Term true "date"].

(** The column a field of an ordering names.  Only the fields of
    [ordering_fields] and of [ordering] reach here. *)
Definition sort_key (db : DB) (field : string) (t : Transaction.t)
  : OrderingFilter.key :=
  if String.eqb field "date" then OrderingFilter.Number (Transaction.date t)
  else if String.eqb field "amount"
  then OrderingFilter.Number (Transaction.amount t)
  else if String.eqb field "created_at"
  then OrderingFilter.Number (Transaction.created_at t)
  else if String.eqb field "category__name"
  then match category_name db t with
       | Some s => OrderingFilter.Text s
       | None => OrderingFilter.Null
       end
  else OrderingFilter.Null.

(** [Transaction.objects.filter(user=self.request.user)] *)
Definition get_queryset (db : DB) (request_user : user_id)
  : list Transaction.t :=
  filter (fun t => Transaction.user t =? request_user) (transactions db).

(** A row passes the filter set and the search. *)
Definition passes (db : DB) (q : query) (t : Transaction.t) : bool :=
  matches q t && SearchFilter.matches (search_fields db t) (search q).

(** [filter_queryset]: the filter backends [DjangoFilterBackend],
    [SearchFilter] and [OrderingFilter] in turn. *)
Definition filter_queryset (db : DB) (q : query) (qs : list Transaction.t)
  : list Transaction.t :=
  order_by (OrderingFilter.leb (sort_key db)
              (OrderingFilter.get_ordering ordering_fields ordering
                 (ordering_param q)))
           (filter (passes db q) qs).

Definition get_object (db : DB) (request_user : user_id) (q : query) (k : Z)
  : result Transaction.t :=
  get_object_or_404 Transaction.id
    (filter_queryset db q (get_queryset db request_user)) k.

(** The serialized query set that the pages of [list] are cut from. *)
Definition listed (db : DB) (request_user : user_id) (q : query)
  : list TransactionRepr :=
  map (transaction_to_representation db)
      (filter_queryset db q (get_queryset db request_user)).

Definition list (db : DB) (request_user : user_id) (q : query)
    (page_size : option Z) (page : StandardResultsSetPagination.page_param)
  : result (StandardResultsSetPagination.Page TransactionRepr) :=
  ListModelMixin.list (transaction_to_representation db) page_size page
    (filter_queryset db q (get_queryset db request_user)).

Definition retrieve (db : DB) (request_user : user_id) (q : query) (k : Z)
  : result TransactionRepr :=
  instance <- get_object db request_user q k ;;
  Ok (transaction_to_representation db instance).

Definition create (db : DB) (request_user : user_id) (now : Z)
    (d : TransactionSerializer.data) : result (DB * Transaction.t) :=
  vd <- TransactionSerializer.run_validation db request_user false d ;;
  TransactionSerializer.create db request_user now vd.

Definition update (db : DB) (request_user : user_id) (q : query) (k : Z)
    (partial : bool) (d : TransactionSerializer.data)
  : result (DB * Transaction.t) :=
  instance <- get_object db request_user q k ;;
  vd <- TransactionSerializer.run_validation db request_user partial d ;;
  TransactionSerializer.update db instance vd.

Definition destroy (db : DB) (request_user : user_id) (q : query) (k : Z)
  : result DB :=
  instance <- get_object db request_user q k ;;
  Ok (delete_transaction db (Transaction.id instance)).

End TransactionViewSet.

Module BudgetViewSet.

(** The query parameters: [BudgetFilter], [search] and [ordering]. *)
Record query : Type := Query {
  category : option Z;
  month : option Z;
  year : option Z;
  min_amount : option Z;
  max_amount : option Z;
  search : list string;
  ordering_param : list OrderingFilter.term
}.

Definition no_filter : query := Query None None None None None [] [].

(** [BudgetFilter] *)
Definition matches (q : query) (b : Budget.t) : bool :=
  Lookup.when (category q) (fun k => Budget.category b =? k)
  && Lookup.when (month q) (fun m => Budget.month b =? m)
  && Lookup.when (year q) (fun y => Budget.year b =? y)
  && Lookup.when (min_amount q) (fun a => a <=? Budget.amount b)
  && Lookup.when (max_amount q) (fun a => Budget.amount b <=? a).

(** [category__name]: the name of the category of the budget. *)
Definition category_name (db : DB) (b : Budget.t) : option string :=
  option_map snd (category_detail db (Some (Budget.category b))).

(** [search_fields = ['category__name']] *)
Definition search_fields (db : DB) (b : Budget.t) : list (option string) :=
  [category_name db b].

(** [ordering_fields = ['year', 'month', 'amount', 'category__name']] *)
Definition ordering_fields : list string :=
  ["year"; "month"; "amount"; "category__name"].

(** [ordering = ['-year', '-month']] *)
Definition ordering : list OrderingFilter.term :=
  [OrderingFilter.Term true "year"; OrderingFilter.Term true "month"].

(** The column a field of an ordering names.  Only the fields of
    [ordering_fields] and of [ordering] reach here. *)
Definition sort_key (db : DB) (field : string) (b : Budget.t)
  : OrderingFilter.key :=
  if String.eqb field "year" then OrderingFilter.Number (Budget.year b)
  else if String.eqb field "month" then OrderingFilter.Number (Budget.month b)
  else if String.eqb field "amount"
  then OrderingFilter.Number (Budget.amount b)
  else if String.eqb field "category__name"
  then match category_name db b with
       | Some s => OrderingFilter.Text s
       | None => OrderingFilter.Null
       end
  else OrderingFilter.Null.

(** [Budget.objects.filter(user=self.request.user)] *)
Definition get_queryset (db : DB) (request_user : user_id) : list Budget.t :=
  filter (fun b => Budget.user b =? request_user) (budgets db).

(** A row passes the filter set and the search. *)
Definition passes (db : DB) (q : query) (b : Budget.t) : bool :=
  matches q b && SearchFilter.matches (search_fields db b) (search q).

(** [filter_queryset]: the filter backends [DjangoFilterBackend],
    [SearchFilter] and [OrderingFilter] in turn. *)
Definition filter_queryset (db : DB) (q : query) (qs : list Budget.t)
  : list Budget.t :=
  order_by (OrderingFilter.leb (sort_key db)
              (OrderingFilter.get_ordering ordering_fields ordering
                 (ordering_param q)))
           (filter (passes db q) qs).

Definition get_object (db : DB) (request_user : user_id) (q : query) (k : Z)
  : result Budget.t :=
  get_object_or_404 Budget.id
    (filter_queryset db q (get_queryset db request_user)) k.

(** The serialized query set that the pages of [list] are cut from. *)
Definition listed (db : DB) (request_user : user_id) (q : query)
  : list BudgetRepr :=
  map (budget_to_representation db)
      (filter_queryset db q (get_queryset db request_user)).

Definition list (db : DB) (request_user : user_id) (q : query)
    (page_size : option Z) (page : StandardResultsSetPagination.page_param)
  : result (StandardResultsSetPagination.Page BudgetRepr) :=
  ListModelMixin.list (budget_to_representation db) page_size page
    (filter_queryset db q (get_queryset db request_user)).

Definition retrieve (db : DB) (request_user : user_id) (q : query) (k : Z)
  : result BudgetRepr :=
  instance <- get_object db request_user q k ;;
  Ok (budget_to_representation db instance).

Definition create (db : DB) (request_user : user_id) (current_year now : Z)
    (d : BudgetSerializer.data) : result (DB * Budget.t) :=
  vd <- BudgetSerializer.run_validation db request_user current_year None false d ;;
  BudgetSerializer.create db request_user now vd.

Definition update (db : DB) (request_user : user_id) (current_year : Z)
    (q : query) (k : Z) (partial : bool) (d : BudgetSerializer.data)
  : result (DB * Budget.t) :=
  instance <- get_object db request_user q k ;;
  vd <- BudgetSerializer.run_validation db request_user current_year
          (Some instance) partial d ;;
  BudgetSerializer.update db instance vd.

Definition destroy (db : DB) (request_user : user_id) (q : query) (k : Z)
  : result DB :=
  instance <- get_object db request_user q k ;;
  Ok (delete_budget db (Budget.id instance)).

End BudgetViewSet.

(** ** Identity store ([accounts/views.py]) *)

Module User.
Record t : Type := Build {
  id : user_id;
  username : string;
  email : string;
  password : string;      (* the stored, hashed credential *)
  first_name : string;
  last_name : string;
  is_active : bool
}.

Definition set_password (hashed : string) (u : t) : t :=
  Build (id u) (username u) (email u) hashed (first_name u) (last_name u)
        (is_active u).
End User.

(** [rest_framework.authtoken.models.Token]: [key] is the primary key and
    [user] a one-to-one field. *)
Module Token.
Record t : Type := Build {
  key : string;
  user : user_id;
  created : Z
}.
End Token.

Record AuthDB : Type := Build_AuthDB {
  users : list User.t;
  tokens : list Token.t;
  user_seq : Z
}.

Definition empty_auth_db : AuthDB := Build_AuthDB [] [] 1.

(** The settings the accounts app relies on: the password hasher, the
    password validators and the e-mail validator. *)
Class AuthSettings : Type := {
  make_password : string -> string;
  validate_password : string -> bool;
  validate_email : string -> bool
}.

Definition check_password `{AuthSettings} (raw stored : string) : bool :=
  String.eqb (make_password raw) stored.

Module TokenManager.

Definition of_user (db : AuthDB) (u : user_id) : list Token.t :=
  filter (fun t => Token.user t =? u) (tokens db).

(** [Token.objects.get(user=u)] *)
Definition get (db : AuthDB) (u : user_id) : result Token.t :=
  match of_user db u with
  | [] => Raise DoesNotExist
  | [t] => Ok t
  | _ :: _ :: _ => Raise MultipleObjectsReturned
  end.

(** [Token.objects.create(user=u)]: [key] is what [generate_key] drew.
    The insert fails on a used primary key or a user that already has a
    token. *)
Definition create (db : AuthDB) (u : user_id) (key : string) (now : Z)
  : result (AuthDB * Token.t) :=
  if existsb (fun t => String.eqb (Token.key t) key || (Token.user t =? u))
             (tokens db)
  then Raise IntegrityError
  else let t := Token.Build key u now in
       Ok (Build_AuthDB (users db) (tokens db ++ [t]) (user_seq db), t).

(** [Token.objects.get_or_create(user=u)] *)
Definition get_or_create (db : AuthDB) (u : user_id) (key : string) (now : Z)
  : result (AuthDB * Token.t) :=
  match get db u with
  | Ok t => Ok (db, t)
  | Raise DoesNotExist => create db u key now
  | Raise e => Raise e
  end.

(** [token.delete()] *)
Definition delete (db : AuthDB) (t : Token.t) : AuthDB :=
  Build_AuthDB (users db)
    (filter (fun r => negb (String.eqb (Token.key r) (Token.key t))) (tokens db))
    (user_seq db).

(** [TokenAuthentication.authenticate_credentials]: the user a bearer
    key stands for. *)
Definition authenticate (db : AuthDB) (key : string) : option user_id :=
  match find (fun t => String.eqb (Token.key t) key) (tokens db) with
  | Some t =>
      match find (fun u => User.id u =? Token.user t) (users db) with
      | Some u => if User.is_active u then Some (User.id u) else None
      | None => None
      end
  | None => None
  end.

End TokenManager.

(** Modelled from the spec: [accounts/serializers.py] is not among the
    sources.  Registration "creates User with validated-unique
    username/email and a hashed password" and "fails with ValidationError
    (field-level messages) on duplicate username/email, weak password, or
    malformed email". *)
Module UserRegistrationSerializer.

Record data : Type := Data {
  username : string;
  email : string;
  password : string;
  first_name : string;
  last_name : string
}.

Definition errors `{AuthSettings} (db : AuthDB) (d : data) : error_detail :=
  (if existsb (fun u => String.eqb (User.username u) (username d)) (users db)
   then [("username", "A user with that username already exists.")] else [])
  ++ (if negb (validate_email (email d))
      then [("email", "Enter a valid email address.")]
      else if existsb (fun u => String.eqb (User.email u) (email d)) (users db)
           then [("email", "A user with that email already exists.")] else [])
  ++ (if negb (validate_password (password d))
      then [("password", "This password does not meet the policy.")] else []).

Definition is_valid `{AuthSettings} (db : AuthDB) (d : data) : result data :=
  match errors db d with
  | [] => Ok d
  | errs => Raise (ValidationError errs)
  end.

Definition save `{AuthSettings} (db : AuthDB) (d : data) : AuthDB * User.t :=
  let u := User.Build (user_seq db) (username d) (email d)
             (make_password (password d)) (first_name d) (last_name d) true in
  (Build_AuthDB (users db ++ [u]) (tokens db) (user_seq db + 1), u).

End UserRegistrationSerializer.

(** Modelled from the spec: [accounts/serializers.py] is not among the
    sources.  Login "verifies credential" for a user name or an e-mail
    address and fails on bad credentials. *)
Module UserLoginSerializer.

Record data : Type := Data {
  username_or_email : string;
  password : string
}.

Definition is_valid `{AuthSettings} (db : AuthDB) (d : data) : result User.t :=
  match find (fun u => String.eqb (User.username u) (username_or_email d)
                       || String.eqb (User.email u) (username_or_email d))
             (users db) with
  | Some u =>
      if check_password (password d) (User.password u) && User.is_active u
      then Ok u
      else Raise (ValidationError [(non_field_errors, "Invalid credentials.")])
  | None => Raise (ValidationError [(non_field_errors, "Invalid credentials.")])
  end.

End UserLoginSerializer.

(** Modelled from the spec: [accounts/serializers.py] is not among the
    sources.  Password change "verifies old password, sets new one" and
    "fails with ValidationError if old password wrong or new password
    fails policy". *)
Module PasswordChangeSerializer.

Record data : Type := Data {
  old_password : string;
  new_password : string
}.

Definition errors `{AuthSettings} (request_user : User.t) (d : data)
  : error_detail :=
  (if negb (check_password (old_password d) (User.password request_user))
   then [("old_password", "Old password is not correct.")] else [])
  ++ (if negb (validate_password (new_password d))
      then [("new_password", "This password does not meet the policy.")] else []).

Definition is_valid `{AuthSettings} (request_user : User.t) (d : data)
  : result data :=
  match errors request_user d with
  | [] => Ok d
  | errs => Raise (ValidationError errs)
  end.

(** [user.set_password(new_password); user.save()] *)
Definition save `{AuthSettings} (db : AuthDB) (request_user : User.t) (d : data)
  : AuthDB :=
  Build_AuthDB
    (save_pk User.id (users db)
             (User.set_password (make_password (new_password d)) request_user))
    (tokens db) (user_seq db).

End PasswordChangeSerializer.

(** What a view answers.  [Unhandled] is an exception that leaves the
    view. *)
Inductive response : Type :=
| Response (status : Z) (message : string) (token : option string)
           (errors : error_detail)
| Unhandled (e : error).

Definition detail_of (e : error) : error_detail :=
  match e with
  | ValidationError detail => detail
  | _ => []
  end.

(** A view returns the states of the database after each of its writes,
    oldest first, with its response.  [ATOMIC_REQUESTS] is not set, so
    a write stays when a later statement raises. *)
Definition outcome : Type := list AuthDB * response.

Definition final (db : AuthDB) (o : outcome) : AuthDB := last (fst o) db.

Module UserRegistrationView.

Definition post `{AuthSettings} (db : AuthDB)
    (d : UserRegistrationSerializer.data) (key : string) (now : Z) : outcome :=
  match UserRegistrationSerializer.is_valid db d with
  | Ok vd =>
      let (db1, user) := UserRegistrationSerializer.save db vd in
      match TokenManager.get_or_create db1 (User.id user) key now with
      | Ok (db2, token) =>
          ([db1; db2],
           Response 201 "User created successfully" (Some (Token.key token)) [])
      | Raise _ => ([db1], Response 400 "Failed to create user" None [])
      end
  | Raise e => ([], Response 400 "Validation failed" None (detail_of e))
  end.

End UserRegistrationView.

Module UserLoginView.

Definition post `{AuthSettings} (db : AuthDB) (d : UserLoginSerializer.data)
    (key : string) (now : Z) : outcome :=
  match UserLoginSerializer.is_valid db d with
  | Ok user =>
      match TokenManager.get_or_create db (User.id user) key now with
      | Ok (db1, token) =>
          ([db1], Response 200 "Login successful" (Some (Token.key token)) [])
      | Raise e => ([], Unhandled e)
      end
  | Raise e => ([], Response 400 "Login failed" None (detail_of e))
  end.

End UserLoginView.

Module UserLogoutView.

Definition post (db : AuthDB) (request_user : User.t) : outcome :=
  match TokenManager.get db (User.id request_user) with
  | Ok token =>
      ([TokenManager.delete db token], Response 200 "Logout successful" None [])
  | Raise DoesNotExist => ([], Response 400 "Token not found" None [])
  | Raise _ => ([], Response 400 "Logout failed" None [])
  end.

End UserLogoutView.

Module PasswordChangeView.

Definition post `{AuthSettings} (db : AuthDB) (request_user : User.t)
    (d : PasswordChangeSerializer.data) (key : string) (now : Z) : outcome :=
  match PasswordChangeSerializer.is_valid request_user d with
  | Ok vd =>
      let db1 := PasswordChangeSerializer.save db request_user vd in
      match TokenManager.get db1 (User.id request_user) with
      | Ok old_token =>
          let db2 := TokenManager.delete db1 old_token in
          match TokenManager.create db2 (User.id request_user) key now with
          | Ok (db3, new_token) =>
              ([db1; db2; db3],
               Response 200 "Password changed successfully"
                        (Some (Token.key new_token)) [])
          | Raise _ =>
              ([db1; db2], Response 400 "Failed to change password" None [])
          end
      | Raise _ => ([db1], Response 400 "Failed to change password" None [])
      end
  | Raise e => ([], Response 400 "Validation failed" None (detail_of e))
  end.

End PasswordChangeView.

(** One request to the identity store, with what the environment
    supplies to it: the key [generate_key] would draw and the time. *)
Inductive request : Type :=
| Register (d : UserRegistrationSerializer.data) (key : string) (now : Z)
| Login (d : UserLoginSerializer.data) (key : string) (now : Z)
| Logout (request_user : User.t)
| ChangePassword (request_user : User.t) (d : PasswordChangeSerializer.data)
                 (key : string) (now : Z).

Definition handle `{AuthSettings} (db : AuthDB) (r : request) : outcome :=
  match r with
  | Register d key now => UserRegistrationView.post db d key now
  | Login d key now => UserLoginView.post db d key now
  | Logout u => UserLogoutView.post db u
  | ChangePassword u d key now => PasswordChangeView.post db u d key now
  end.

(** The states the database is written to while the requests are served
    in turn, oldest first. *)
Fixpoint visited `{AuthSettings} (db : AuthDB) (rs : list request) : list AuthDB :=
  match rs with
  | [] => []
  | r :: rs' =>
      let o := handle db r in
      fst o ++ visited (final db o) rs'
  end.

(** The state after the requests. *)
Definition serve `{AuthSettings} (db : AuthDB) (rs : list request) : AuthDB :=
  last (visited db rs) db.

(** ** A small database used in examples *)

Module Sample.

Definition alice : user_id := 1.
Definition bob : user_id := 2.

Definition groceries : Category.t := Category.Build 1 "Groceries" alice 100.
Definition rent : Category.t := Category.Build 2 "Rent" bob 101.
Definition travel : Category.t := Category.Build 3 "Travel" alice 102.

Definition weekly_shop : Transaction.t :=
  Transaction.Build 1 alice (Some 1) 4550 "Weekly shop" 19844 EXPENSE 110.
Definition salary : Transaction.t :=
  Transaction.Build 2 bob None 250000 "Salary" 19845 INCOME 111.
Definition flat : Transaction.t :=
  Transaction.Build 3 bob (Some 2) 90000 "Flat" 19846 EXPENSE 112.

Definition food_march : Budget.t := Budget.Build 1 alice 1 30000 3 2025 120.
Definition food_april : Budget.t := Budget.Build 2 alice 1 32000 4 2025 121.
Definition rent_march : Budget.t := Budget.Build 3 bob 2 90000 3 2025 122.

Definition db : DB :=
  Build_DB [groceries; rent; travel] [weekly_shop; salary; flat]
           [food_march; food_april; rent_march] 4 4 4.

End Sample.

(** ** Predicates used in the statements *)

(** [year] is accepted by a budget write made in [current_year]: no
    error is reported under the key ["year"], on create and on update. *)
Definition year_accepted (current_year y : Z) : Prop :=
  forall db request_user now q k partial d,
    BudgetSerializer.year d = Given y ->
    ~ validation_error_on "year"
        (BudgetViewSet.create db request_user current_year now d)
    /\ ~ validation_error_on "year"
           (BudgetViewSet.update db request_user current_year q k partial d).

(** A budget write with body [d] is refused with a validation error
    under [key]: on create, and on update of any budget the caller can
    reach. *)
Definition budget_write_rejected (key : string) (db : DB)
    (request_user : user_id) (current_year : Z) (d : BudgetSerializer.data)
  : Prop :=
  (forall now,
      validation_error_on key
        (BudgetViewSet.create db request_user current_year now d))
  /\ (forall q k partial instance,
         BudgetViewSet.get_object db request_user q k = Ok instance ->
         validation_error_on key
           (BudgetViewSet.update db request_user current_year q k partial d)).

(** A transaction write with body [d] is refused with a validation error
    under [key]: on create, and on update of any transaction the caller
    can reach. *)
Definition transaction_write_rejected (key : string) (db : DB)
    (request_user : user_id) (d : TransactionSerializer.data) : Prop :=
  (forall now,
      validation_error_on key (TransactionViewSet.create db request_user now d))
  /\ (forall q k partial instance,
         TransactionViewSet.get_object db request_user q k = Ok instance ->
         validation_error_on key
           (TransactionViewSet.update db request_user q k partial d)).

(** The body [d] with its [transaction_type] entry replaced. *)
Definition with_transaction_type (v : input string)
    (d : TransactionSerializer.data) : TransactionSerializer.data :=
  TransactionSerializer.Data
    (TransactionSerializer.user d) (TransactionSerializer.category d)
    (TransactionSerializer.amount d) (TransactionSerializer.description d)
    (TransactionSerializer.date d) v.

(** [t'] is the row [t] up to its category reference. *)
Definition transaction_kept (t t' : Transaction.t) : Prop :=
  Transaction.id t' = Transaction.id t
  /\ Transaction.user t' = Transaction.user t
  /\ Transaction.amount t' = Transaction.amount t
  /\ Transaction.description t' = Transaction.description t
  /\ Transaction.date t' = Transaction.date t
  /\ Transaction.transaction_type t' = Transaction.transaction_type t
  /\ Transaction.created_at t' = Transaction.created_at t.

(** The default order of the budget list: year descending, then month
    descending. *)
Definition budget_default_order (a b : Budget.t) : Prop :=
  Budget.year b < Budget.year a
  \/ (Budget.year b = Budget.year a /\ Budget.month b <= Budget.month a).

(** [budget.category.name] *)
Definition budget_category_name (db : DB) (b : Budget.t) : string :=
  match get_pk Category.id (categories db) (Budget.category b) with
  | Some c => Category.name c
  | None => ""
  end.

(** Year descending, then month descending, then category name
    (ascending or descending) to break ties. *)
Definition budget_order_with_name (ascending : bool) (db : DB)
    (a b : Budget.t) : Prop :=
  Budget.year b < Budget.year a
  \/ (Budget.year b = Budget.year a
      /\ (Budget.month b < Budget.month a
          \/ (Budget.month b = Budget.month a
              /\ (if ascending
                  then String.leb (budget_category_name db a)
                                  (budget_category_name db b)
                  else String.leb (budget_category_name db b)
                                  (budget_category_name db a)) = true))).

(** Two budgets of one user for the same month and year, entered in the
    given order, in categories named "Zoo" (1) and "Apple" (2). *)
Definition tied_budgets (first second : Z) : DB :=
  Build_DB [Category.Build 1 "Zoo" 1 100; Category.Build 2 "Apple" 1 101] []
           [Budget.Build 1 1 first 30000 5 2024 120;
            Budget.Build 2 1 second 20000 5 2024 121] 3 1 3.

(** The rows a list response shows; none when the request is refused. *)
Definition shown_rows {A : Type}
    (r : result (StandardResultsSetPagination.Page A)) : list A :=
  match r with
  | Ok p => StandardResultsSetPagination.results p
  | Raise _ => []
  end.

(** *** Isolation of users *)

(** What the schema and the serializers maintain: primary keys are unique
    and below the sequence of their table, and a transaction or budget
    that points to a category points to an existing category of its own
    owner. *)
Record well_formed (db : DB) : Prop := {
  wf_category_pk : NoDup (map Category.id (categories db));
  wf_transaction_pk : NoDup (map Transaction.id (transactions db));
  wf_budget_pk : NoDup (map Budget.id (budgets db));
  wf_category_seq :
    forall c, In c (categories db) -> Category.id c < category_seq db;
  wf_transaction_seq :
    forall t, In t (transactions db) -> Transaction.id t < transaction_seq db;
  wf_budget_seq :
    forall b, In b (budgets db) -> Budget.id b < budget_seq db;
  wf_transaction_category :
    forall t k,
      In t (transactions db) -> Transaction.category t = Some k ->
      exists c, In c (categories db) /\ Category.id c = k
                /\ Category.user c = Transaction.user t;
  wf_budget_category :
    forall b,
      In b (budgets db) ->
      exists c, In c (categories db) /\ Category.id c = Budget.category b
                /\ Category.user c = Budget.user b
}.

(** The rows a user owns, table by table. *)
Definition rows_of (u : user_id) (db : DB)
  : list Category.t * list Transaction.t * list Budget.t :=
  (CategoryViewSet.get_queryset db u,
   TransactionViewSet.get_queryset db u,
   BudgetViewSet.get_queryset db u).

(** The list, retrieve, update and delete operations of one viewset;
    [listed_op] is the serialized query set the pages of the list are cut
    from. *)
Record Endpoint : Type := {
  Row : Type;
  Repr : Type;
  Query : Type;
  Body : Type;
  table : DB -> list Row;
  owner : Row -> user_id;
  pk : Row -> Z;
  shown : Repr -> Row;     (* the row a representation shows *)
  listed_op : DB -> user_id -> Query -> list Repr;
  list_op : DB -> user_id -> Query -> option Z ->
            StandardResultsSetPagination.page_param ->
            result (StandardResultsSetPagination.Page Repr);
  retrieve_op : DB -> user_id -> Query -> Z -> result Repr;
  update_op : DB -> user_id -> Query -> Z -> bool -> Body -> result (DB * Row);
  destroy_op : DB -> user_id -> Query -> Z -> result DB
}.

Definition category_endpoint : Endpoint := {|
  table := categories;
  owner := Category.user;
  pk := Category.id;
  shown := fun c => c;
  listed_op := CategoryViewSet.listed;
  list_op := CategoryViewSet.list;
  retrieve_op := CategoryViewSet.retrieve;
  update_op := CategoryViewSet.update;
  destroy_op := CategoryViewSet.destroy
|}.

Definition transaction_endpoint : Endpoint := {|
  table := transactions;
  owner := Transaction.user;
  pk := Transaction.id;
  shown := tr_row;
  listed_op := TransactionViewSet.listed;
  list_op := TransactionViewSet.list;
  retrieve_op := TransactionViewSet.retrieve;
  update_op := TransactionViewSet.update;
  destroy_op := TransactionViewSet.destroy
|}.

Definition budget_endpoint (current_year : Z) : Endpoint := {|
  table := budgets;
  owner := Budget.user;
  pk := Budget.id;
  shown := br_row;
  listed_op := BudgetViewSet.listed;
  list_op := BudgetViewSet.list;
  retrieve_op := BudgetViewSet.retrieve;
  update_op := fun db u => BudgetViewSet.update db u current_year;
  destroy_op := BudgetViewSet.destroy
|}.

(** The endpoint keeps the users [a] and [b] apart on the database [db]. *)
Definition isolates (E : Endpoint) (db : DB) (a b : user_id) : Prop :=
  (* what [a] reads is owned by [a] *)
  (forall q r, In r (listed_op E db a q) -> owner E (shown E r) = a)
  /\ (forall q page_size page p r,
         list_op E db a q page_size page = Ok p ->
         In r (StandardResultsSetPagination.results p) ->
         owner E (shown E r) = a)
  /\ (forall q k r, retrieve_op E db a q k = Ok r -> owner E (shown E r) = a)
  (* the id of a row of [b] is not found by [a], and nothing changes *)
  /\ (forall row,
         In row (table E db) -> owner E row = b ->
         forall q partial body,
           retrieve_op E db a q (pk E row) = Raise Http404
           /\ update_op E db a q (pk E row) partial body = Raise Http404
           /\ destroy_op E db a q (pk E row) = Raise Http404)
  (* an update or delete by [a] leaves every row of [b] as it was *)
  /\ (forall q k partial body db' row,
         update_op E db a q k partial body = Ok (db', row) ->
         rows_of b db' = rows_of b db)
  /\ (forall q k db',
         destroy_op E db a q k = Ok db' -> rows_of b db' = rows_of b db)
  (* what [a] reads is the same on every database with the same rows of [a] *)
  /\ (forall db2,
         well_formed db2 -> rows_of a db2 = rows_of a db ->
         forall q k,
           listed_op E db2 a q = listed_op E db a q
           /\ (forall page_size page,
                  list_op E db2 a q page_size page
                  = list_op E db a q page_size page)
           /\ retrieve_op E db2 a q k = retrieve_op E db a q k).

(** One successful write through the category, transaction or budget
    endpoints. *)
Inductive write_step (db db' : DB) : Prop :=
| category_created u now d row :
    CategoryViewSet.create db u now d = Ok (db', row) -> write_step db db'
| category_updated u q k partial d row :
    CategoryViewSet.update db u q k partial d = Ok (db', row) -> write_step db db'
| category_destroyed u q k :
    CategoryViewSet.destroy db u q k = Ok db' -> write_step db db'
| transaction_created u now d row :
    TransactionViewSet.create db u now d = Ok (db', row) -> write_step db db'
| transaction_updated u q k partial d row :
    TransactionViewSet.update db u q k partial d = Ok (db', row) ->
    write_step db db'
| transaction_destroyed u q k :
    TransactionViewSet.destroy db u q k = Ok db' -> write_step db db'
| budget_created u cy now d row :
    BudgetViewSet.create db u cy now d = Ok (db', row) -> write_step db db'
| budget_updated u cy q k partial d row :
    BudgetViewSet.update db u cy q k partial d = Ok (db', row) ->
    write_step db db'
| budget_destroyed u q k :
    BudgetViewSet.destroy db u q k = Ok db' -> write_step db db'.

(** The databases the endpoints can produce from the empty one. *)
Inductive reachable : DB -> Prop :=
| reachable_empty : reachable empty_db
| reachable_step db db' : reachable db -> write_step db db' -> reachable db'.

(** *** Tokens *)

(** Each user has at most one live token. *)
Definition one_token_per_user (db : AuthDB) : Prop :=
  forall u, (List.length (TokenManager.of_user db u) <= 1)%nat.

(** [key] is not the key of a token in the database. *)
Definition unused_key (db : AuthDB) (key : string) : Prop :=
  ~ In key (map Token.key (tokens db)).

(** The stored credential of the user with primary key [u]. *)
Definition stored_password (db : AuthDB) (u : user_id) : option string :=
  option_map User.password (get_pk User.id (users db) u).

Module AuthSample.

Definition settings : AuthSettings := {|
  make_password := fun raw => String.append "sha:" raw;
  validate_password := fun raw => Nat.leb 8 (String.length raw);
  validate_email := fun _ => true
|}.

Definition alice : User.t :=
  User.Build 1 "alice" "alice@example.org" "sha:correct horse" "Alice" "A" true.

Definition db : AuthDB :=
  Build_AuthDB [alice] [Token.Build "key-1" 1 50] 2.

End AuthSample.

(** *** What the stored rows look like *)

(** [s.strip() == s] *)
Definition trimmed (s : string) : Prop := Py.strip s = s.

Definition valid_category (c : Category.t) : Prop :=
  trimmed (Category.name c) /\ 2 <= Py.len (Category.name c) <= 100.

Definition valid_transaction (t : Transaction.t) : Prop :=
  0 < Transaction.amount t
  /\ trimmed (Transaction.description t)
  /\ 2 <= Py.len (Transaction.description t) <= 255.

Definition valid_budget (b : Budget.t) : Prop :=
  0 < Budget.amount b
  /\ 1 <= Budget.month b <= 12
  /\ 2000 <= Budget.year b <= 2100.

Definition valid_rows (db : DB) : Prop :=
  (forall c, In c (categories db) -> valid_category c)
  /\ (forall t, In t (transactions db) -> valid_transaction t)
  /\ (forall b, In b (budgets db) -> valid_budget b).

(** [unique_together = ['name', 'user']] holds of the table. *)
Definition categories_unique (db : DB) : Prop :=
  forall c1 c2,
    In c1 (categories db) -> In c2 (categories db) ->
    Category.name c1 = Category.name c2 ->
    Category.user c1 = Category.user c2 ->
    Category.id c1 = Category.id c2.

(** [unique_together = ['user', 'category', 'month', 'year']] holds of the
    table. *)
Definition budgets_unique (db : DB) : Prop :=
  forall b1 b2,
    In b1 (budgets db) -> In b2 (budgets db) ->
    Budget.user b1 = Budget.user b2 ->
    Budget.category b1 = Budget.category b2 ->
    Budget.month b1 = Budget.month b2 ->
    Budget.year b1 = Budget.year b2 ->
    Budget.id b1 = Budget.id b2.

(** The [name] field of [CategorySerializer] with its [validate_name]. *)
Definition category_name_result (partial : bool) (d : CategorySerializer.data)
  : field_result string :=
  and_then (Drf.run_validation partial true None (char_field 100)
              (CategorySerializer.name d))
           CategorySerializer.validate_name.

(** ** The management command ([accounts/management/commands/create_tokens.py]) *)

Module CreateTokensCommand.

(** What the command writes to standard output. *)
Inductive message : Type :=
| CreatedTokenFor (username : string)   (* Created token for user: ... *)
| AllUsersHaveTokens                    (* All users already have tokens *)
| CreatedTokens (created_count : nat).  (* Created N tokens *)

(** [User.objects.filter(auth_token__isnull=True)] *)
Definition users_without_tokens (db : AuthDB) : list User.t :=
  filter (fun u => match TokenManager.of_user db (User.id u) with
                   | [] => true
                   | _ :: _ => false
                   end)
         (users db).

(** The loop over the users.  The i-th token the run creates has the key
    [draw i] and the time [clock i].  An exception ends the run and
    leaves the tokens created so far. *)
Fixpoint create_for (db : AuthDB) (us : list User.t) (draw : nat -> string)
    (clock : nat -> Z) (created_count : nat) (out : list message)
  : AuthDB * result (nat * list message) :=
  match us with
  | [] => (db, Ok (created_count, out))
  | u :: us' =>
      match TokenManager.create db (User.id u) (draw created_count)
                                (clock created_count) with
      | Ok (db', _) =>
          create_for db' us' draw clock (S created_count)
                     (out ++ [CreatedTokenFor (User.username u)])
      | Raise e => (db, Raise e)
      end
  end.

Definition handle (db : AuthDB) (draw : nat -> string) (clock : nat -> Z)
  : AuthDB * result (list message) :=
  match create_for db (users_without_tokens db) draw clock 0 [] with
  | (db', Ok (created_count, out)) =>
      (db', Ok (out ++ [if Nat.eqb created_count 0 then AllUsersHaveTokens
                        else CreatedTokens created_count]))
  | (db', Raise e) => (db', Raise e)
  end.

End CreateTokensCommand.

(** ** The budget admin ([budgets/admin.py]) *)

Module BudgetAdmin.

Definition month_names (m : Z) : option string :=
  match m with
  | 1 => Some "January" | 2 => Some "February" | 3 => Some "March"
  | 4 => Some "April" | 5 => Some "May" | 6 => Some "June"
  | 7 => Some "July" | 8 => Some "August" | 9 => Some "September"
  | 10 => Some "October" | 11 => Some "November" | 12 => Some "December"
  | _ => None
  end.

(** [month_names.get(obj.month, obj.month)]: the name, or the number
    itself. *)
Definition get_month_display (obj : Budget.t) : string + Z :=
  match month_names (Budget.month obj) with
  | Some name => inl name
  | None => inr (Budget.month obj)
  end.

End BudgetAdmin.

(** A user table where two of three users have no token yet. *)
Module CommandSample.

Definition bob : User.t :=
  User.Build 2 "bob" "bob@example.org" "sha:battery staple" "Bob" "B" true.

Definition carol : User.t :=
  User.Build 3 "carol" "carol@example.org" "sha:tr0ub4dor and 3" "Carol" "C" true.

Definition db : AuthDB :=
  Build_AuthDB [AuthSample.alice; bob; carol] [Token.Build "key-1" 1 50] 4.

Definition draw (i : nat) : string :=
  match i with
  | O => "key-2"
  | S _ => "key-3"
  end.

Definition clock (i : nat) : Z := 60 + Z.of_nat i.

End CommandSample.

(** * Verification *)

Unset Implicit Arguments.

(** ** Fields and errors *)

Lemma errors_of_key {A : Type} (name key : string) (r : field_result A) :
  In key (map fst (errors_of name r)) -> key = name.
Proof.
  destruct r; simpl; intros H; try contradiction.
  destruct H as [H | []]. now symmetry.
Qed.

Lemma errors_of_invalid {A : Type} (name msg : string) (r : field_result A) :
  r = Invalid msg -> errors_of name r = [(name, msg)].
Proof. intros ->. reflexivity. Qed.

Lemma errors_of_nil {A : Type} (name : string) (r : field_result A) :
  errors_of name r = [] <-> forall msg, r <> Invalid msg.
Proof.
  destruct r; simpl; split; intros H; try reflexivity; try discriminate.
  exfalso. apply (H msg). reflexivity.
Qed.

Lemma bind_ok {A B : Type} (r : result A) (k : A -> result B) (b : B) :
  bind r k = Ok b -> exists a, r = Ok a /\ k a = Ok b.
Proof. destruct r; simpl; intros H; [eauto | discriminate]. Qed.

Lemma bind_raise {A B : Type} (r : result A) (k : A -> result B) (e : error) :
  r = Raise e -> bind r k = Raise e.
Proof. intros ->. reflexivity. Qed.

Lemma validation_error_on_bind {A B : Type} (key : string) (r : result A)
    (k : A -> result B) :
  validation_error_on key r -> validation_error_on key (bind r k).
Proof.
  intros (detail & -> & Hin). exists detail. split; [reflexivity | assumption].
Qed.

(** ** Budget serializer: field validation *)

Lemma budget_to_internal_value_errors db u cy partial d :
  BudgetSerializer.field_errors db u cy partial d <> [] ->
  BudgetSerializer.to_internal_value db u cy partial d
  = Raise (ValidationError (BudgetSerializer.field_errors db u cy partial d)).
Proof.
  unfold BudgetSerializer.to_internal_value.
  destruct (BudgetSerializer.field_errors db u cy partial d); congruence.
Qed.

Lemma budget_to_internal_value_ok db u cy partial d vd :
  BudgetSerializer.to_internal_value db u cy partial d = Ok vd ->
  BudgetSerializer.field_errors db u cy partial d = []
  /\ vd = BudgetSerializer.ValidatedData None
            (value_of (BudgetSerializer.category_result db u partial d))
            (value_of (BudgetSerializer.amount_result partial d))
            (value_of (BudgetSerializer.month_result partial d))
            (value_of (BudgetSerializer.year_result cy partial d)).
Proof.
  unfold BudgetSerializer.to_internal_value.
  destruct (BudgetSerializer.field_errors db u cy partial d); intros H.
  - split; [reflexivity | congruence].
  - discriminate.
Qed.

Lemma budget_field_error_reported db u cy instance partial d key :
  In key (map fst (BudgetSerializer.field_errors db u cy partial d)) ->
  validation_error_on key
    (BudgetSerializer.run_validation db u cy instance partial d).
Proof.
  intros Hin. unfold BudgetSerializer.run_validation.
  apply validation_error_on_bind.
  exists (BudgetSerializer.field_errors db u cy partial d). split; [| exact Hin].
  apply budget_to_internal_value_errors.
  intros E. rewrite E in Hin. contradiction.
Qed.

Lemma budget_validate_keys db u instance vd detail :
  BudgetSerializer.validate db u instance vd = Raise (ValidationError detail) ->
  map fst detail = [non_field_errors].
Proof.
  unfold BudgetSerializer.validate.
  destruct (BudgetSerializer.validated_month vd); try discriminate.
  destruct (BudgetSerializer.validated_year vd); try discriminate.
  destruct (BudgetSerializer.validated_category vd); try discriminate.
  destruct (Py.truthy z && Py.truthy z0); try discriminate.
  destruct (BudgetSerializer.duplicates db u instance t z z0); try discriminate.
  intros H. injection H as <-. reflexivity.
Qed.

Lemma budget_validate_raises db u instance vd e :
  BudgetSerializer.validate db u instance vd = Raise e ->
  exists detail, e = ValidationError detail.
Proof.
  unfold BudgetSerializer.validate.
  destruct (BudgetSerializer.validated_month vd); try discriminate.
  destruct (BudgetSerializer.validated_year vd); try discriminate.
  destruct (BudgetSerializer.validated_category vd); try discriminate.
  destruct (Py.truthy z && Py.truthy z0); try discriminate.
  destruct (BudgetSerializer.duplicates db u instance t z z0); try discriminate.
  intros H. injection H as <-. eauto.
Qed.

(** The keys a budget validation error can carry. *)
Lemma budget_run_validation_keys db u cy instance partial d key :
  validation_error_on key
    (BudgetSerializer.run_validation db u cy instance partial d) ->
  In key (map fst (BudgetSerializer.field_errors db u cy partial d))
  \/ key = non_field_errors.
Proof.
  intros (detail & H & Hin). unfold BudgetSerializer.run_validation in H.
  destruct (BudgetSerializer.to_internal_value db u cy partial d) as [vd | e] eqn:E.
  - simpl in H. apply budget_validate_keys in H. rewrite H in Hin.
    right. destruct Hin as [<- | []]. reflexivity.
  - simpl in H. injection H as ->. left.
    unfold BudgetSerializer.to_internal_value in E.
    destruct (BudgetSerializer.field_errors db u cy partial d) eqn:F;
      [discriminate |].
    injection E as <-. exact Hin.
Qed.

Lemma budget_year_key db u cy partial d :
  In "year" (map fst (BudgetSerializer.field_errors db u cy partial d)) <->
  exists msg, BudgetSerializer.year_result cy partial d = Invalid msg.
Proof.
  unfold BudgetSerializer.field_errors. rewrite !map_app, !in_app_iff. split.
  - intros [H | [H | [H | H]]];
      try (apply errors_of_key in H; discriminate).
    destruct (BudgetSerializer.year_result cy partial d); simpl in H;
      try contradiction. eauto.
  - intros (msg & ->). right. right. right. simpl. now left.
Qed.

Lemma budget_month_key db u cy partial d :
  (exists msg, BudgetSerializer.month_result partial d = Invalid msg) ->
  In "month" (map fst (BudgetSerializer.field_errors db u cy partial d)).
Proof.
  intros (msg & H). unfold BudgetSerializer.field_errors.
  rewrite !map_app, !in_app_iff. right. right. left. rewrite H. simpl. now left.
Qed.

(** ** Budget views: how validation errors surface *)

Lemma budget_create_rejects db u cy now d key :
  validation_error_on key (BudgetSerializer.run_validation db u cy None false d) ->
  validation_error_on key (BudgetViewSet.create db u cy now d).
Proof. apply validation_error_on_bind. Qed.

Lemma budget_update_rejects db u cy q k partial d key instance :
  BudgetViewSet.get_object db u q k = Ok instance ->
  validation_error_on key
    (BudgetSerializer.run_validation db u cy (Some instance) partial d) ->
  validation_error_on key (BudgetViewSet.update db u cy q k partial d).
Proof.
  intros Hget H. unfold BudgetViewSet.update. rewrite Hget. simpl.
  now apply validation_error_on_bind.
Qed.

Lemma budget_model_create_raises db now vd e :
  BudgetSerializer.model_create db now vd = Raise e -> e = IntegrityError.
Proof.
  unfold BudgetSerializer.model_create.
  repeat match goal with
         | |- context [match ?x with _ => _ end] => destruct x
         end; congruence.
Qed.

Lemma budget_model_update_raises db instance vd e :
  BudgetSerializer.model_update db instance vd = Raise e -> e = IntegrityError.
Proof.
  unfold BudgetSerializer.model_update.
  match goal with
  | |- context [if ?x then _ else _] => destruct x
  end; congruence.
Qed.

Lemma budget_create_rejected_by_validation db u cy now d key :
  validation_error_on key (BudgetViewSet.create db u cy now d) ->
  validation_error_on key (BudgetSerializer.run_validation db u cy None false d).
Proof.
  intros (detail & H & Hin). unfold BudgetViewSet.create in H.
  destruct (BudgetSerializer.run_validation db u cy None false d) as [vd | e];
    simpl in H.
  - apply budget_model_create_raises in H. discriminate.
  - exists detail. split; [congruence | assumption].
Qed.

Lemma get_object_or_404_raises {Row : Type} (pk : Row -> Z) qs k e :
  get_object_or_404 pk qs k = Raise e -> e = Http404.
Proof.
  unfold get_object_or_404. destruct (get_pk pk qs k); congruence.
Qed.

Lemma budget_update_rejected_by_validation db u cy q k partial d key :
  validation_error_on key (BudgetViewSet.update db u cy q k partial d) ->
  exists instance,
    BudgetViewSet.get_object db u q k = Ok instance
    /\ validation_error_on key
         (BudgetSerializer.run_validation db u cy (Some instance) partial d).
Proof.
  intros (detail & H & Hin). unfold BudgetViewSet.update in H.
  destruct (BudgetViewSet.get_object db u q k) as [instance | e] eqn:G;
    simpl in H.
  - exists instance. split; [reflexivity |].
    destruct (BudgetSerializer.run_validation db u cy (Some instance) partial d)
      as [vd | e]; simpl in H.
    + apply budget_model_update_raises in H. discriminate.
    + exists detail. split; [congruence | assumption].
  - apply get_object_or_404_raises in G. congruence.
Qed.

Lemma budget_field_error_rejects key db u cy d :
  (forall partial,
      In key (map fst (BudgetSerializer.field_errors db u cy partial d))) ->
  budget_write_rejected key db u cy d.
Proof.
  intros H. split.
  - intros now. apply budget_create_rejects, budget_field_error_reported, H.
  - intros q k partial instance Hget.
    eapply budget_update_rejects; [exact Hget |].
    apply budget_field_error_reported, H.
Qed.

Lemma year_result_given cy partial d y :
  BudgetSerializer.year d = Given y ->
  BudgetSerializer.year_result cy partial d
  = if 2100 <? y then Invalid "Ensure this value is less than or equal to the maximum."
    else if y <? 2000
         then Invalid "Ensure this value is greater than or equal to the minimum."
         else if (y <? cy - 5) || (cy + 5 <? y)
              then Invalid "Year must be within 5 years of the current year."
              else Validated y.
Proof.
  intros E. unfold BudgetSerializer.year_result, Drf.run_validation.
  rewrite E. unfold integer_field, BudgetSerializer.validate_year.
  destruct (2100 <? y); [reflexivity |].
  destruct (y <? 2000); reflexivity.
Qed.

Lemma month_result_given partial d m :
  BudgetSerializer.month d = Given m ->
  m < 1 \/ 12 < m ->
  exists msg, BudgetSerializer.month_result partial d = Invalid msg.
Proof.
  intros E Hm. unfold BudgetSerializer.month_result, Drf.run_validation.
  rewrite E. unfold integer_field.
  destruct (12 <? m) eqn:H1; [simpl; eauto |].
  destruct (m <? 1) eqn:H2; [simpl; eauto |].
  apply Z.ltb_ge in H1, H2. lia.
Qed.

(** The years a budget write accepts are those inside both windows. *)
Lemma year_result_validated cy partial d y :
  BudgetSerializer.year d = Given y ->
  (BudgetSerializer.year_result cy partial d = Validated y
   <-> (cy - 5 <= y <= cy + 5 /\ 2000 <= y <= 2100)).
Proof.
  intros E. rewrite (year_result_given cy partial d y E).
  destruct (2100 <? y) eqn:H1; [apply Z.ltb_lt in H1 | apply Z.ltb_ge in H1].
  { split; [discriminate | lia]. }
  destruct (y <? 2000) eqn:H2; [apply Z.ltb_lt in H2 | apply Z.ltb_ge in H2].
  { split; [discriminate | lia]. }
  destruct (y <? cy - 5) eqn:H3; [apply Z.ltb_lt in H3 | apply Z.ltb_ge in H3];
    simpl.
  { split; [discriminate | lia]. }
  destruct (cy + 5 <? y) eqn:H4; [apply Z.ltb_lt in H4 | apply Z.ltb_ge in H4].
  { split; [discriminate | lia]. }
  split; [lia | reflexivity].
Qed.

Lemma year_accepted_in_both_windows cy y :
  cy - 5 <= y <= cy + 5 -> 2000 <= y <= 2100 -> year_accepted cy y.
Proof.
  intros Hw Hr db u now q k partial d E.
  assert (Hno : forall instance p,
             ~ validation_error_on "year"
                 (BudgetSerializer.run_validation db u cy instance p d)).
  { intros instance p H. apply budget_run_validation_keys in H.
    destruct H as [H | H]; [| discriminate].
    apply budget_year_key in H. destruct H as (msg & H).
    assert (V : BudgetSerializer.year_result cy p d = Validated y)
      by (apply year_result_validated; [exact E | lia]).
    congruence. }
  split.
  - intros H. apply budget_create_rejected_by_validation in H.
    exact (Hno _ _ H).
  - intros H. apply budget_update_rejected_by_validation in H.
    destruct H as (instance & _ & H). exact (Hno _ _ H).
Qed.

(** C5, as stated, fails: in 2098 the year 2103 is within five years of
    the current year, and the budget write is refused under ["year"]
    (the field allows 2100 at most). *)
Lemma budget_year_window_counterexample :
  2098 - 5 <= 2103 <= 2098 + 5 /\ ~ year_accepted 2098 2103.
Proof.
  split; [lia |]. intros H.
  destruct (H Sample.db Sample.alice 200 BudgetViewSet.no_filter 1 false
              (BudgetSerializer.Data Omitted (Given 1) (Given 5000)
                                     (Given 5) (Given 2103))
              eq_refl) as [Hc _].
  apply Hc. eexists. split; [vm_compute; reflexivity |]. simpl. now left.
Qed.

(** C5 (amended): a budget create or update is refused with a validation
    error under ["year"] for the years 1999 and 2106 and under ["month"]
    for the months 0 and 13, whatever the current year; a year from
    [current_year - 5] to [current_year + 5] is accepted when it also lies
    in the range 2000 to 2100 of the model field. *)
Theorem budget_year_month_bounds :
  forall (db : DB) (u : user_id) (cy : Z) (d : BudgetSerializer.data),
    (BudgetSerializer.year d = Given 1999 \/ BudgetSerializer.year d = Given 2106 ->
     budget_write_rejected "year" db u cy d)
    /\ (BudgetSerializer.month d = Given 0 \/ BudgetSerializer.month d = Given 13 ->
        budget_write_rejected "month" db u cy d)
    /\ (forall y, cy - 5 <= y <= cy + 5 -> 2000 <= y <= 2100 ->
                  year_accepted cy y).
Proof.
  intros db u cy d. split; [| split].
  - intros H. apply budget_field_error_rejects. intros partial.
    apply budget_year_key.
    destruct H as [H | H]; rewrite (year_result_given cy partial d _ H);
      simpl; eauto.
  - intros H. apply budget_field_error_rejects. intros partial.
    apply budget_month_key.
    destruct H as [H | H]; eapply month_result_given; try exact H; lia.
  - intros y Hw Hr. now apply year_accepted_in_both_windows.
Qed.

Lemma budget_year_month_bounds_witness :
  budget_write_rejected "year" Sample.db Sample.alice 2025
    (BudgetSerializer.Data Omitted (Given 1) (Given 5000) (Given 5) (Given 1999))
  /\ budget_write_rejected "month" Sample.db Sample.alice 2025
       (BudgetSerializer.Data Omitted (Given 1) (Given 5000) (Given 13) (Given 2025))
  /\ year_accepted 2025 2030.
Proof.
  split; [| split].
  - apply (budget_year_month_bounds Sample.db Sample.alice 2025
             (BudgetSerializer.Data Omitted (Given 1) (Given 5000) (Given 5)
                                    (Given 1999))).
    left. reflexivity.
  - apply (budget_year_month_bounds Sample.db Sample.alice 2025
             (BudgetSerializer.Data Omitted (Given 1) (Given 5000) (Given 13)
                                    (Given 2025))).
    right. reflexivity.
  - apply (budget_year_month_bounds Sample.db Sample.alice 2025
             (BudgetSerializer.Data Omitted (Given 1) (Given 5000) (Given 13)
                                    (Given 2025)));
      lia.
Defined.

(** ** Transaction serializer and views *)

Lemma transaction_run_validation_errors db u partial d :
  TransactionSerializer.field_errors db u partial d <> [] ->
  TransactionSerializer.run_validation db u partial d
  = Raise (ValidationError (TransactionSerializer.field_errors db u partial d)).
Proof.
  unfold TransactionSerializer.run_validation.
  destruct (TransactionSerializer.field_errors db u partial d); congruence.
Qed.

Lemma transaction_run_validation_ok db u partial d vd :
  TransactionSerializer.run_validation db u partial d = Ok vd ->
  TransactionSerializer.field_errors db u partial d = []
  /\ vd = TransactionSerializer.ValidatedData None
            (value_of (TransactionSerializer.category_result db u partial d))
            (value_of (TransactionSerializer.amount_result partial d))
            (value_of (TransactionSerializer.description_result partial d))
            (value_of (TransactionSerializer.date_result partial d))
            (value_of (TransactionSerializer.type_result partial d)).
Proof.
  unfold TransactionSerializer.run_validation.
  destruct (TransactionSerializer.field_errors db u partial d); intros H.
  - split; [reflexivity | congruence].
  - discriminate.
Qed.

Lemma transaction_run_validation_raises db u partial d e :
  TransactionSerializer.run_validation db u partial d = Raise e ->
  e = ValidationError (TransactionSerializer.field_errors db u partial d).
Proof.
  unfold TransactionSerializer.run_validation.
  destruct (TransactionSerializer.field_errors db u partial d); congruence.
Qed.

Lemma transaction_field_error_reported db u partial d key :
  In key (map fst (TransactionSerializer.field_errors db u partial d)) ->
  validation_error_on key (TransactionSerializer.run_validation db u partial d).
Proof.
  intros Hin.
  exists (TransactionSerializer.field_errors db u partial d). split; [| exact Hin].
  apply transaction_run_validation_errors.
  intros E. rewrite E in Hin. contradiction.
Qed.

Lemma transaction_run_validation_keys db u partial d key :
  validation_error_on key (TransactionSerializer.run_validation db u partial d) ->
  In key (map fst (TransactionSerializer.field_errors db u partial d)).
Proof.
  intros (detail & H & Hin). apply transaction_run_validation_raises in H.
  congruence.
Qed.

Lemma transaction_model_create_raises db now vd e :
  TransactionSerializer.model_create db now vd = Raise e -> e = IntegrityError.
Proof.
  unfold TransactionSerializer.model_create.
  repeat match goal with
         | |- context [match ?x with _ => _ end] => destruct x
         end; congruence.
Qed.

Lemma transaction_create_rejects db u now d key :
  validation_error_on key (TransactionSerializer.run_validation db u false d) ->
  validation_error_on key (TransactionViewSet.create db u now d).
Proof. apply validation_error_on_bind. Qed.

Lemma transaction_update_rejects db u q k partial d key instance :
  TransactionViewSet.get_object db u q k = Ok instance ->
  validation_error_on key (TransactionSerializer.run_validation db u partial d) ->
  validation_error_on key (TransactionViewSet.update db u q k partial d).
Proof.
  intros Hget H. unfold TransactionViewSet.update. rewrite Hget. simpl.
  now apply validation_error_on_bind.
Qed.

Lemma transaction_create_rejected_by_validation db u now d key :
  validation_error_on key (TransactionViewSet.create db u now d) ->
  validation_error_on key (TransactionSerializer.run_validation db u false d).
Proof.
  intros (detail & H & Hin). unfold TransactionViewSet.create in H.
  destruct (TransactionSerializer.run_validation db u false d) as [vd | e];
    simpl in H.
  - apply transaction_model_create_raises in H. discriminate.
  - exists detail. split; [congruence | assumption].
Qed.

Lemma transaction_update_rejected_by_validation db u q k partial d key :
  validation_error_on key (TransactionViewSet.update db u q k partial d) ->
  validation_error_on key (TransactionSerializer.run_validation db u partial d).
Proof.
  intros (detail & H & Hin). unfold TransactionViewSet.update in H.
  destruct (TransactionViewSet.get_object db u q k) as [instance | e] eqn:G;
    simpl in H.
  - destruct (TransactionSerializer.run_validation db u partial d) as [vd | e];
      simpl in H.
    + discriminate.
    + exists detail. split; [congruence | assumption].
  - apply get_object_or_404_raises in G. congruence.
Qed.

Lemma transaction_field_error_rejects key db u d :
  (forall partial,
      In key (map fst (TransactionSerializer.field_errors db u partial d))) ->
  transaction_write_rejected key db u d.
Proof.
  intros H. split.
  - intros now. apply transaction_create_rejects, transaction_field_error_reported, H.
  - intros q k partial instance Hget.
    eapply transaction_update_rejects; [exact Hget |].
    apply transaction_field_error_reported, H.
Qed.

Lemma transaction_key_cases db u partial d key :
  In key (map fst (TransactionSerializer.field_errors db u partial d)) ->
  (key = "category"
   /\ exists msg, TransactionSerializer.category_result db u partial d = Invalid msg)
  \/ (key = "amount"
      /\ exists msg, TransactionSerializer.amount_result partial d = Invalid msg)
  \/ (key = "description"
      /\ exists msg, TransactionSerializer.description_result partial d = Invalid msg)
  \/ (key = "date"
      /\ exists msg, TransactionSerializer.date_result partial d = Invalid msg)
  \/ (key = "transaction_type"
      /\ exists msg, TransactionSerializer.type_result partial d = Invalid msg).
Proof.
  unfold TransactionSerializer.field_errors. rewrite !map_app, !in_app_iff.
  assert (K : forall (A : Type) name (r : field_result A),
             In key (map fst (errors_of name r)) ->
             key = name /\ exists msg, r = Invalid msg).
  { intros A name r H. split; [now apply errors_of_key in H |].
    destruct r; simpl in H; try contradiction. eauto. }
  intros [H | [H | [H | [H | H]]]]; apply K in H; tauto.
Qed.

Lemma type_result_omitted d :
  TransactionSerializer.transaction_type d = Omitted ->
  TransactionSerializer.type_result false d = SkipField.
Proof.
  intros E. unfold TransactionSerializer.type_result, Drf.run_validation.
  now rewrite E.
Qed.

Lemma transaction_create_stores db u now d db' row :
  TransactionViewSet.create db u now d = Ok (db', row) ->
  In row (transactions db')
  /\ Transaction.user row = u
  /\ Transaction.transaction_type row
     = or_else (value_of (TransactionSerializer.type_result false d))
               Transaction.default_transaction_type
  /\ Transaction.category row
     = option_map Category.id
         (or_else (value_of (TransactionSerializer.category_result db u false d))
                  None).
Proof.
  unfold TransactionViewSet.create. intros H.
  apply bind_ok in H. destruct H as (vd & Hv & H).
  apply transaction_run_validation_ok in Hv. destruct Hv as [_ ->].
  unfold TransactionSerializer.create, TransactionSerializer.model_create in H.
  simpl in H.
  destruct (value_of (TransactionSerializer.amount_result false d));
    [| discriminate].
  destruct (value_of (TransactionSerializer.date_result false d));
    [| discriminate].
  injection H as <- <-. simpl. repeat split.
  apply in_or_app. right. now left.
Qed.

Lemma transaction_create_appends db u now d db' row :
  TransactionViewSet.create db u now d = Ok (db', row) ->
  transactions db' = transactions db ++ [row]
  /\ categories db' = categories db
  /\ budgets db' = budgets db
  /\ Transaction.id row = transaction_seq db.
Proof.
  unfold TransactionViewSet.create. intros H.
  apply bind_ok in H. destruct H as (vd & Hv & H).
  apply transaction_run_validation_ok in Hv. destruct Hv as [_ ->].
  unfold TransactionSerializer.create, TransactionSerializer.model_create in H.
  simpl in H.
  destruct (value_of (TransactionSerializer.amount_result false d));
    [| discriminate].
  destruct (value_of (TransactionSerializer.date_result false d));
    [| discriminate].
  injection H as <- <-. simpl. repeat split.
Qed.

(** C10: a transaction create whose body has no [transaction_type] is not
    refused for it and behaves as the same create with ['EX'] supplied;
    when it succeeds, the transaction table grows by exactly the returned
    row, stored last under the next primary key, the other tables stay,
    and that row has type EXPENSE. *)
Theorem transaction_type_defaults_to_expense :
  forall (db : DB) (u : user_id) (now : Z) (d : TransactionSerializer.data),
    TransactionSerializer.transaction_type d = Omitted ->
    ~ validation_error_on "transaction_type"
        (TransactionViewSet.create db u now d)
    /\ TransactionViewSet.create db u now d
       = TransactionViewSet.create db u now (with_transaction_type (Given "EX") d)
    /\ (forall db' row,
           TransactionViewSet.create db u now d = Ok (db', row) ->
           Transaction.transaction_type row = EXPENSE
           /\ In row (transactions db')
           /\ transactions db' = transactions db ++ [row]
           /\ categories db' = categories db
           /\ budgets db' = budgets db
           /\ Transaction.id row = transaction_seq db).
Proof.
  intros db u now d E. split; [| split].
  - intros H. apply transaction_create_rejected_by_validation in H.
    apply transaction_run_validation_keys, transaction_key_cases in H.
    destruct H as [[H _] | [[H _] | [[H _] | [[H _] | [_ (msg & H)]]]]];
      try discriminate.
    rewrite (type_result_omitted d E) in H. discriminate.
  - unfold TransactionViewSet.create, TransactionSerializer.run_validation,
      TransactionSerializer.field_errors.
    change (TransactionSerializer.category_result db u false
              (with_transaction_type (Given "EX") d))
      with (TransactionSerializer.category_result db u false d).
    change (TransactionSerializer.amount_result false
              (with_transaction_type (Given "EX") d))
      with (TransactionSerializer.amount_result false d).
    change (TransactionSerializer.description_result false
              (with_transaction_type (Given "EX") d))
      with (TransactionSerializer.description_result false d).
    change (TransactionSerializer.date_result false
              (with_transaction_type (Given "EX") d))
      with (TransactionSerializer.date_result false d).
    change (TransactionSerializer.type_result false
              (with_transaction_type (Given "EX") d))
      with (@Validated TransactionType EXPENSE).
    rewrite (type_result_omitted d E). simpl errors_of.
    match goal with
    | |- context [match ?l with _ => _ end] => destruct l
    end; reflexivity.
  - intros db' row H. pose proof (transaction_create_appends _ _ _ _ _ _ H) as Ha.
    apply transaction_create_stores in H.
    destruct H as (Hin & _ & Hty & _).
    split; [| split; [exact Hin | exact Ha]].
    rewrite Hty, (type_result_omitted d E). reflexivity.
Qed.

Lemma transaction_type_defaults_to_expense_witness :
  match TransactionViewSet.create Sample.db Sample.alice 200
          (TransactionSerializer.Data Omitted (Given 1) (Given 1250)
             (Given "Coffee") (Given 19850) Omitted) with
  | Ok (db', row) =>
      Transaction.transaction_type row = EXPENSE
      /\ transactions db' = transactions Sample.db ++ [row]
  | Raise _ => False
  end.
Proof.
  destruct (TransactionViewSet.create Sample.db Sample.alice 200
              (TransactionSerializer.Data Omitted (Given 1) (Given 1250)
                 (Given "Coffee") (Given 19850) Omitted))
    as [[db' row] | e] eqn:E.
  - destruct (transaction_type_defaults_to_expense Sample.db Sample.alice 200
                (TransactionSerializer.Data Omitted (Given 1) (Given 1250)
                   (Given "Coffee") (Given 19850) Omitted) eq_refl)
      as (_ & _ & H).
    destruct (H db' row E) as (Hty & _ & Happ & _).
    split; [exact Hty | exact Happ].
  - vm_compute in E. discriminate.
Defined.

(** ** Query sets *)

Section QuerySetFacts.
Context {Row : Type} (pk : Row -> Z).

Lemma get_pk_some qs k r :
  get_pk pk qs k = Some r -> In r qs /\ pk r = k.
Proof.
  unfold get_pk. intros H. apply find_some in H. destruct H as [Hin H].
  split; [exact Hin | now apply Z.eqb_eq].
Qed.

Lemma get_pk_none qs k :
  get_pk pk qs k = None -> forall r, In r qs -> pk r <> k.
Proof.
  unfold get_pk. intros H r Hin E.
  apply (find_none _ _ H) in Hin. apply Z.eqb_neq in Hin. contradiction.
Qed.

Lemma get_object_or_404_ok qs k r :
  get_object_or_404 pk qs k = Ok r -> In r qs /\ pk r = k.
Proof.
  unfold get_object_or_404. destruct (get_pk pk qs k) eqn:E; [| discriminate].
  intros H. injection H as <-. now apply get_pk_some.
Qed.

Lemma get_object_or_404_missing qs k :
  (forall r, In r qs -> pk r <> k) -> get_object_or_404 pk qs k = Raise Http404.
Proof.
  intros H. unfold get_object_or_404.
  destruct (get_pk pk qs k) eqn:E; [| reflexivity].
  apply get_pk_some in E. destruct E as [Hin E]. now apply H in Hin.
Qed.

Lemma save_pk_In table row r :
  In r table -> pk r = pk row -> In row (save_pk pk table row).
Proof.
  intros Hin E. unfold save_pk. apply in_map_iff. exists r.
  split; [| exact Hin]. rewrite E, Z.eqb_refl. reflexivity.
Qed.

Lemma save_pk_other table row r :
  In r table -> pk r <> pk row -> In r (save_pk pk table row).
Proof.
  intros Hin E. unfold save_pk. apply in_map_iff. exists r.
  split; [| exact Hin]. apply Z.eqb_neq in E. now rewrite E.
Qed.

Lemma save_pk_inv table row r :
  In r (save_pk pk table row) -> r = row \/ (In r table /\ pk r <> pk row).
Proof.
  unfold save_pk. intros H. apply in_map_iff in H.
  destruct H as (x & H & Hin).
  destruct (pk x =? pk row) eqn:E.
  - left. now symmetry.
  - right. subst x. split; [exact Hin | now apply Z.eqb_neq].
Qed.

Lemma delete_pk_In table k r :
  In r (delete_pk pk table k) <-> In r table /\ pk r <> k.
Proof.
  unfold delete_pk. rewrite filter_In, negb_true_iff, Z.eqb_neq. tauto.
Qed.

Variable leb : Row -> Row -> bool.

Lemma insert_sorted_perm x l : Permutation (x :: l) (insert_sorted leb x l).
Proof.
  induction l as [| y l IH]; simpl.
  - apply Permutation_refl.
  - destruct (leb x y).
    + apply Permutation_refl.
    + eapply perm_trans; [apply perm_swap |]. now apply perm_skip.
Qed.

Lemma order_by_perm l : Permutation l (order_by leb l).
Proof.
  induction l as [| x l IH]; simpl.
  - apply perm_nil.
  - eapply perm_trans; [apply perm_skip, IH | apply insert_sorted_perm].
Qed.

Lemma order_by_In l r : In r (order_by leb l) <-> In r l.
Proof.
  split; intros H.
  - eapply Permutation_in; [apply Permutation_sym, order_by_perm | exact H].
  - eapply Permutation_in; [apply order_by_perm | exact H].
Qed.
End QuerySetFacts.

(** ** Python strings *)

Lemma lstrip_length s : (String.length (Py.lstrip s) <= String.length s)%nat.
Proof.
  induction s as [| c s IH]; simpl; [lia |].
  destruct (Py.isspace c); simpl; lia.
Qed.

Lemma rstrip_length s : (String.length (Py.rstrip s) <= String.length s)%nat.
Proof.
  induction s as [| c s IH]; simpl; [lia |].
  destruct (Py.rstrip s); simpl in *.
  - destruct (Py.isspace c); simpl; lia.
  - lia.
Qed.

Lemma strip_len s : Py.len (Py.strip s) <= Py.len s.
Proof.
  unfold Py.len, Py.strip.
  pose proof (rstrip_length (Py.lstrip s)). pose proof (lstrip_length s). lia.
Qed.

(** ** Category ownership and the transaction fields *)

Lemma transaction_category_foreign db u partial d k c :
  TransactionSerializer.category d = Given k ->
  get_pk Category.id (categories db) k = Some c ->
  Category.user c <> u ->
  TransactionSerializer.category_result db u partial d
  = Invalid "You can only use your own categories.".
Proof.
  intros E Hc Hu.
  unfold TransactionSerializer.category_result, Drf.run_validation.
  rewrite E. unfold TransactionSerializer.category_field, category_pk_field.
  rewrite Hc. simpl. apply Z.eqb_neq in Hu. now rewrite Hu.
Qed.

Lemma budget_category_foreign db u partial d k c :
  BudgetSerializer.category d = Given k ->
  get_pk Category.id (categories db) k = Some c ->
  Category.user c <> u ->
  BudgetSerializer.category_result db u partial d
  = Invalid "You can only use your own categories.".
Proof.
  intros E Hc Hu.
  unfold BudgetSerializer.category_result, Drf.run_validation.
  rewrite E. unfold category_pk_field. rewrite Hc. simpl.
  unfold BudgetSerializer.validate_category.
  apply Z.eqb_neq in Hu. now rewrite Hu.
Qed.

Lemma transaction_category_absent db u partial d :
  TransactionSerializer.category d = Omitted ->
  TransactionSerializer.category_result db u partial d = SkipField.
Proof.
  intros E. unfold TransactionSerializer.category_result, Drf.run_validation.
  rewrite E. now destruct partial.
Qed.

Lemma transaction_category_null db u partial d :
  TransactionSerializer.category d = Null ->
  TransactionSerializer.category_result db u partial d = Validated None.
Proof.
  intros E. unfold TransactionSerializer.category_result, Drf.run_validation.
  now rewrite E.
Qed.

Lemma transaction_amount_not_positive partial d a :
  TransactionSerializer.amount d = Given a ->
  a <= 0 ->
  exists msg, TransactionSerializer.amount_result partial d = Invalid msg.
Proof.
  intros E Ha. unfold TransactionSerializer.amount_result, Drf.run_validation.
  rewrite E. unfold decimal_field.
  destruct (10 ^ 10 <=? Z.abs a); [simpl; eauto |].
  destruct (a <=? 1) eqn:H1; [simpl; eauto |].
  apply Z.leb_gt in H1. lia.
Qed.

Lemma transaction_description_short partial d s :
  TransactionSerializer.description d = Given s ->
  Py.len (Py.strip s) < 2 ->
  exists msg, TransactionSerializer.description_result partial d = Invalid msg.
Proof.
  intros E Hs. unfold TransactionSerializer.description_result, Drf.run_validation.
  rewrite E. unfold char_field.
  destruct (String.eqb (Py.strip s) ""); [simpl; eauto |].
  destruct (255 <? Py.len (Py.strip s)); [simpl; eauto |].
  destruct (has_null (Py.strip s)); [simpl; eauto |].
  simpl. unfold TransactionSerializer.validate_description.
  pose proof (strip_len (Py.strip s)) as Hl.
  destruct (Py.len (Py.strip (Py.strip s)) <? 2) eqn:H2; [eauto |].
  apply Z.ltb_ge in H2. lia.
Qed.

Lemma transaction_key_in db u partial d key :
  (key = "category"
   /\ exists msg, TransactionSerializer.category_result db u partial d = Invalid msg)
  \/ (key = "amount"
      /\ exists msg, TransactionSerializer.amount_result partial d = Invalid msg)
  \/ (key = "description"
      /\ exists msg, TransactionSerializer.description_result partial d = Invalid msg) ->
  In key (map fst (TransactionSerializer.field_errors db u partial d)).
Proof.
  unfold TransactionSerializer.field_errors. rewrite !map_app, !in_app_iff.
  intros [[-> (msg & H)] | [[-> (msg & H)] | [-> (msg & H)]]]; rewrite H; simpl;
    tauto.
Qed.

Lemma budget_category_key db u cy partial d :
  (exists msg, BudgetSerializer.category_result db u partial d = Invalid msg) ->
  In "category" (map fst (BudgetSerializer.field_errors db u cy partial d)).
Proof.
  intros (msg & H). unfold BudgetSerializer.field_errors.
  rewrite !map_app, !in_app_iff. left. rewrite H. simpl. now left.
Qed.

Lemma transaction_get_object_In db u q k instance :
  TransactionViewSet.get_object db u q k = Ok instance ->
  In instance (transactions db)
  /\ Transaction.id instance = k
  /\ Transaction.user instance = u.
Proof.
  unfold TransactionViewSet.get_object. intros H.
  apply get_object_or_404_ok in H. destruct H as [Hin Hk].
  unfold TransactionViewSet.filter_queryset in Hin.
  apply order_by_In in Hin. apply filter_In in Hin. destruct Hin as [Hin _].
  unfold TransactionViewSet.get_queryset in Hin. apply filter_In in Hin.
  destruct Hin as [Hin Hu]. apply Z.eqb_eq in Hu. auto.
Qed.

Lemma transaction_update_stores db u q k partial d db' row :
  TransactionViewSet.update db u q k partial d = Ok (db', row) ->
  exists instance,
    TransactionViewSet.get_object db u q k = Ok instance
    /\ In row (transactions db')
    /\ Transaction.id row = Transaction.id instance
    /\ Transaction.user row = Transaction.user instance
    /\ Transaction.category row
       = match value_of (TransactionSerializer.category_result db u partial d) with
         | Some c => option_map Category.id c
         | None => Transaction.category instance
         end.
Proof.
  unfold TransactionViewSet.update. intros H.
  apply bind_ok in H. destruct H as (instance & Hget & H).
  apply bind_ok in H. destruct H as (vd & Hv & H).
  apply transaction_run_validation_ok in Hv. destruct Hv as [_ ->].
  unfold TransactionSerializer.update, TransactionSerializer.model_update in H.
  simpl in H. injection H as <- <-. exists instance. simpl.
  repeat split; try reflexivity; [exact Hget |].
  apply transaction_get_object_In in Hget. destruct Hget as (Hin & _ & _).
  eapply save_pk_In; [exact Hin | reflexivity].
Qed.

(** C4, as stated, fails: a full update that leaves the category key out
    is accepted, and the transaction keeps the category it had. *)
Lemma transaction_update_omitted_category_counterexample :
  exists db' row,
    TransactionViewSet.update Sample.db Sample.alice
      TransactionViewSet.no_filter 1 false
      (TransactionSerializer.Data Omitted Omitted (Given 4600)
         (Given "Weekly shop") (Given 19844) (Given "EX")) = Ok (db', row)
    /\ In row (transactions db')
    /\ Transaction.category row = Some 1
    /\ Transaction.category row <> None.
Proof.
  eexists. eexists. split; [vm_compute; reflexivity |].
  split; [simpl; tauto |]. split; [reflexivity | discriminate].
Qed.

(** C4 (amended): a transaction or budget write by [u] that names a
    category owned by another user is refused with a validation error
    under ["category"].  A transaction create whose body leaves the
    category out or gives null is not refused for it and stores a null
    category.  A transaction update is not refused for it either: null
    stores a null category, and a body without the key keeps the category
    the transaction had.  An amount of zero or less and a description
    whose trimmed length is below 2 are refused with a validation error
    under ["amount"] and ["description"]. *)
Theorem category_ownership_and_transaction_fields :
  forall (db : DB) (u : user_id) (d : TransactionSerializer.data),
    (* a category of another owner *)
    (forall k c,
        TransactionSerializer.category d = Given k ->
        get_pk Category.id (categories db) k = Some c ->
        Category.user c <> u ->
        transaction_write_rejected "category" db u d)
    /\ (forall cy bd k c,
           BudgetSerializer.category bd = Given k ->
           get_pk Category.id (categories db) k = Some c ->
           Category.user c <> u ->
           budget_write_rejected "category" db u cy bd)
    (* no category *)
    /\ (TransactionSerializer.category d = Omitted
        \/ TransactionSerializer.category d = Null ->
        (forall now,
            ~ validation_error_on "category"
                (TransactionViewSet.create db u now d))
        /\ (forall q k partial,
               ~ validation_error_on "category"
                   (TransactionViewSet.update db u q k partial d))
        /\ (forall now db' row,
               TransactionViewSet.create db u now d = Ok (db', row) ->
               In row (transactions db') /\ Transaction.category row = None)
        /\ (forall q k partial db' row,
               TransactionViewSet.update db u q k partial d = Ok (db', row) ->
               exists instance,
                 TransactionViewSet.get_object db u q k = Ok instance
                 /\ In row (transactions db')
                 /\ (TransactionSerializer.category d = Null ->
                     Transaction.category row = None)
                 /\ (TransactionSerializer.category d = Omitted ->
                     Transaction.category row = Transaction.category instance)))
    (* amount and description *)
    /\ (forall a,
           TransactionSerializer.amount d = Given a -> a <= 0 ->
           transaction_write_rejected "amount" db u d)
    /\ (forall s,
           TransactionSerializer.description d = Given s ->
           Py.len (Py.strip s) < 2 ->
           transaction_write_rejected "description" db u d).
Proof.
  intros db u d. repeat apply conj.
  - intros k c E Hc Hu. apply transaction_field_error_rejects. intros partial.
    apply transaction_key_in. left. split; [reflexivity |].
    eexists. eapply transaction_category_foreign; eassumption.
  - intros cy bd k c E Hc Hu. apply budget_field_error_rejects. intros partial.
    apply budget_category_key.
    eexists. eapply budget_category_foreign; eassumption.
  - intros Hno.
    assert (Hres : forall partial msg,
               TransactionSerializer.category_result db u partial d
               <> Invalid msg).
    { intros partial msg. destruct Hno as [E | E].
      - rewrite (transaction_category_absent db u partial d E). discriminate.
      - rewrite (transaction_category_null db u partial d E). discriminate. }
    assert (Hkey : forall partial,
               ~ validation_error_on "category"
                   (TransactionSerializer.run_validation db u partial d)).
    { intros partial H.
      apply transaction_run_validation_keys, transaction_key_cases in H.
      destruct H as [[_ (msg & H)] | [[H _] | [[H _] | [[H _] | [H _]]]]];
        try discriminate.
      exact (Hres _ _ H). }
    repeat apply conj.
    + intros now H. apply transaction_create_rejected_by_validation in H.
      exact (Hkey _ H).
    + intros q k partial H.
      apply transaction_update_rejected_by_validation in H. exact (Hkey _ H).
    + intros now db' row H. apply transaction_create_stores in H.
      destruct H as (Hin & _ & _ & Hc). split; [exact Hin |].
      rewrite Hc. destruct Hno as [E | E].
      * now rewrite (transaction_category_absent db u false d E).
      * now rewrite (transaction_category_null db u false d E).
    + intros q k partial db' row H. apply transaction_update_stores in H.
      destruct H as (instance & Hget & Hin & _ & _ & Hc).
      exists instance. repeat split; try assumption.
      * intros E. rewrite Hc.
        now rewrite (transaction_category_null db u partial d E).
      * intros E. rewrite Hc.
        now rewrite (transaction_category_absent db u partial d E).
  - intros a E Ha. apply transaction_field_error_rejects. intros partial.
    apply transaction_key_in. right. left. split; [reflexivity |].
    eapply transaction_amount_not_positive; eassumption.
  - intros s E Hs. apply transaction_field_error_rejects. intros partial.
    apply transaction_key_in. right. right. split; [reflexivity |].
    eapply transaction_description_short; eassumption.
Qed.

Lemma category_ownership_and_transaction_fields_witness :
  transaction_write_rejected "category" Sample.db Sample.alice
    (TransactionSerializer.Data Omitted (Given 2) (Given 1250)
       (Given "Coffee") (Given 19850) Omitted)
  /\ budget_write_rejected "category" Sample.db Sample.alice 2025
       (BudgetSerializer.Data Omitted (Given 2) (Given 5000) (Given 5) (Given 2025))
  /\ transaction_write_rejected "amount" Sample.db Sample.alice
       (TransactionSerializer.Data Omitted (Given 2) (Given 0)
          (Given "Coffee") (Given 19850) Omitted)
  /\ transaction_write_rejected "description" Sample.db Sample.alice
       (TransactionSerializer.Data Omitted (Given 2) (Given 1250)
          (Given " c ") (Given 19850) Omitted)
  /\ (forall db' row,
         TransactionViewSet.create Sample.db Sample.alice 200
           (TransactionSerializer.Data Omitted Null (Given 1250)
              (Given "Coffee") (Given 19850) Omitted) = Ok (db', row) ->
         In row (transactions db') /\ Transaction.category row = None).
Proof.
  split; [| split; [| split; [| split]]].
  - destruct (category_ownership_and_transaction_fields Sample.db Sample.alice
                (TransactionSerializer.Data Omitted (Given 2) (Given 1250)
                   (Given "Coffee") (Given 19850) Omitted))
      as (H & _).
    apply (H 2 Sample.rent); [reflexivity | reflexivity | discriminate].
  - destruct (category_ownership_and_transaction_fields Sample.db Sample.alice
                (TransactionSerializer.Data Omitted (Given 2) (Given 1250)
                   (Given "Coffee") (Given 19850) Omitted))
      as (_ & H & _).
    apply (H 2025
             (BudgetSerializer.Data Omitted (Given 2) (Given 5000) (Given 5)
                                    (Given 2025))
             2 Sample.rent);
      [reflexivity | reflexivity | discriminate].
  - destruct (category_ownership_and_transaction_fields Sample.db Sample.alice
                (TransactionSerializer.Data Omitted (Given 2) (Given 0)
                   (Given "Coffee") (Given 19850) Omitted))
      as (_ & _ & _ & H & _).
    apply (H 0); [reflexivity | lia].
  - destruct (category_ownership_and_transaction_fields Sample.db Sample.alice
                (TransactionSerializer.Data Omitted (Given 2) (Given 1250)
                   (Given " c ") (Given 19850) Omitted))
      as (_ & _ & _ & _ & H).
    apply (H " c "); [reflexivity | vm_compute; reflexivity].
  - destruct (category_ownership_and_transaction_fields Sample.db Sample.alice
                (TransactionSerializer.Data Omitted Null (Given 1250)
                   (Given "Coffee") (Given 19850) Omitted))
      as (_ & _ & H & _).
    destruct (H (or_intror eq_refl)) as (_ & _ & Hc & _). exact (Hc 200).
Defined.

(** ** Deleting a category *)

(** C6: deleting the category [k] deletes exactly the budgets that point
    to it, keeps every transaction (same rows, same order, same fields)
    with the category reference set to null where it pointed to [k] and
    left alone elsewhere, and removes the category row; the destroy
    operation of the view does exactly this. *)
Theorem category_delete_cascades :
  forall (db : DB) (k : Z),
    (forall b, In b (budgets (delete_category db k))
               <-> In b (budgets db) /\ Budget.category b <> k)
    /\ Forall2 (fun t t' =>
                  transaction_kept t t'
                  /\ Transaction.category t'
                     = (if opt_eqb (Transaction.category t) k then None
                        else Transaction.category t))
               (transactions db) (transactions (delete_category db k))
    /\ (forall t', In t' (transactions (delete_category db k)) ->
                   Transaction.category t' <> Some k)
    /\ (forall c, In c (categories (delete_category db k))
                  <-> In c (categories db) /\ Category.id c <> k)
    /\ (forall u q db',
           CategoryViewSet.destroy db u q k = Ok db' ->
           db' = delete_category db k).
Proof.
  intros db k. repeat apply conj.
  - intros b. unfold delete_category. simpl.
    rewrite filter_In, negb_true_iff, Z.eqb_neq. tauto.
  - unfold delete_category. simpl.
    induction (transactions db) as [| t l IH]; simpl; constructor; [| exact IH].
    unfold transaction_kept.
    destruct (opt_eqb (Transaction.category t) k); simpl; tauto.
  - intros t' H. unfold delete_category in H. simpl in H.
    apply in_map_iff in H. destruct H as (t & <- & _).
    destruct (opt_eqb (Transaction.category t) k) eqn:E; simpl; [discriminate |].
    intros E'. rewrite E' in E. simpl in E. now rewrite Z.eqb_refl in E.
  - intros c. unfold delete_category. simpl. apply delete_pk_In.
  - intros u q db' H. unfold CategoryViewSet.destroy in H.
    apply bind_ok in H. destruct H as (instance & Hget & H).
    unfold CategoryViewSet.get_object in Hget.
    apply get_object_or_404_ok in Hget. destruct Hget as [_ Hk].
    injection H as <-. now rewrite Hk.
Qed.

Lemma category_delete_cascades_witness :
  In Sample.rent_march (budgets (delete_category Sample.db 1))
  /\ ~ In Sample.food_march (budgets (delete_category Sample.db 1))
  /\ ~ In Sample.food_april (budgets (delete_category Sample.db 1))
  /\ transactions (delete_category Sample.db 1)
     = [Transaction.set_category None Sample.weekly_shop; Sample.salary;
        Sample.flat].
Proof.
  destruct (category_delete_cascades Sample.db 1) as (H & _).
  split; [| split; [| split]].
  - apply H. split; [simpl; tauto | discriminate].
  - intros Hin. apply H in Hin. destruct Hin as [_ Hne]. now apply Hne.
  - intros Hin. apply H in Hin. destruct Hin as [_ Hne]. now apply Hne.
  - reflexivity.
Defined.

(** ** Owners of created and updated rows *)

Lemma category_get_object_In db u q k instance :
  CategoryViewSet.get_object db u q k = Ok instance ->
  In instance (categories db)
  /\ Category.id instance = k
  /\ Category.user instance = u.
Proof.
  unfold CategoryViewSet.get_object. intros H.
  apply get_object_or_404_ok in H. destruct H as [Hin Hk].
  unfold CategoryViewSet.filter_queryset in Hin.
  apply order_by_In in Hin. apply filter_In in Hin. destruct Hin as [Hin _].
  unfold CategoryViewSet.get_queryset in Hin. apply filter_In in Hin.
  destruct Hin as [Hin Hu]. apply Z.eqb_eq in Hu. auto.
Qed.

Lemma budget_get_object_In db u q k instance :
  BudgetViewSet.get_object db u q k = Ok instance ->
  In instance (budgets db)
  /\ Budget.id instance = k
  /\ Budget.user instance = u.
Proof.
  unfold BudgetViewSet.get_object. intros H.
  apply get_object_or_404_ok in H. destruct H as [Hin Hk].
  unfold BudgetViewSet.filter_queryset in Hin.
  apply order_by_In in Hin. apply filter_In in Hin. destruct Hin as [Hin _].
  unfold BudgetViewSet.get_queryset in Hin. apply filter_In in Hin.
  destruct Hin as [Hin Hu]. apply Z.eqb_eq in Hu. auto.
Qed.

Lemma category_run_validation_ok partial d vd :
  CategorySerializer.run_validation partial d = Ok vd ->
  CategorySerializer.validated_user vd = None.
Proof.
  unfold CategorySerializer.run_validation.
  match goal with
  | |- context [match ?l with _ => _ end] => destruct l
  end; intros H; [injection H as <-; reflexivity | discriminate].
Qed.



Lemma budget_run_validation_ok db u cy instance partial d vd :
  BudgetSerializer.run_validation db u cy instance partial d = Ok vd ->
  vd = BudgetSerializer.ValidatedData None
         (value_of (BudgetSerializer.category_result db u partial d))
         (value_of (BudgetSerializer.amount_result partial d))
         (value_of (BudgetSerializer.month_result partial d))
         (value_of (BudgetSerializer.year_result cy partial d))
  /\ BudgetSerializer.validate db u instance vd = Ok vd.
Proof.
  unfold BudgetSerializer.run_validation. intros H.
  apply bind_ok in H. destruct H as (vd0 & H0 & H).
  apply budget_to_internal_value_ok in H0. destruct H0 as [_ ->].
  assert (E : vd = BudgetSerializer.ValidatedData None
                     (value_of (BudgetSerializer.category_result db u partial d))
                     (value_of (BudgetSerializer.amount_result partial d))
                     (value_of (BudgetSerializer.month_result partial d))
                     (value_of (BudgetSerializer.year_result cy partial d))).
  { unfold BudgetSerializer.validate in H.
    repeat match type of H with
           | match ?x with _ => _ end = _ => destruct x; try discriminate
           end; congruence. }
  split; [exact E | now rewrite E at 1].
Qed.













(** ** Budget uniqueness *)

(** What the uniqueness check of [validate] does when [month], [year] and
    [category] are all supplied and valid: on create, and on update with
    the instance left out. *)
Lemma budget_uniqueness_check db u instance c a m y :
  m <> 0 -> y <> 0 ->
  let vd := BudgetSerializer.ValidatedData None (Some c) a (Some m) (Some y) in
  (BudgetSerializer.duplicates db u instance c m y = [] ->
   BudgetSerializer.validate db u instance vd = Ok vd)
  /\ (BudgetSerializer.duplicates db u instance c m y <> [] ->
      exists msg,
        BudgetSerializer.validate db u instance vd
        = Raise (ValidationError [(non_field_errors, msg)])).
Proof.
  intros Hm Hy vd. unfold BudgetSerializer.validate. simpl.
  apply Z.eqb_neq in Hm, Hy. unfold Py.truthy. rewrite Hm, Hy. simpl.
  destruct (BudgetSerializer.duplicates db u instance c m y); split;
    intros H; try congruence. eauto.
Qed.

Lemma budget_duplicates_spec db u instance c m y b :
  In b (BudgetSerializer.duplicates db u instance c m y) <->
  In b (budgets db)
  /\ Budget.user b = u /\ Budget.category b = Category.id c
  /\ Budget.month b = m /\ Budget.year b = y
  /\ match instance with
     | Some i => Budget.id b <> Budget.id i
     | None => True
     end.
Proof.
  unfold BudgetSerializer.duplicates.
  destruct instance as [i |]; rewrite ?filter_In, ?andb_true_iff,
    ?negb_true_iff, ?Z.eqb_eq, ?Z.eqb_neq; tauto.
Qed.

(** A create whose fields are all valid is refused with a non-field
    validation error when the caller already has a budget for the same
    category, month and year. *)
Lemma budget_create_duplicate_rejected db u cy now d c m y other :
  BudgetSerializer.field_errors db u cy false d = [] ->
  BudgetSerializer.category_result db u false d = Validated c ->
  BudgetSerializer.month_result false d = Validated m ->
  BudgetSerializer.year_result cy false d = Validated y ->
  m <> 0 -> y <> 0 ->
  In other (budgets db) ->
  Budget.user other = u -> Budget.category other = Category.id c ->
  Budget.month other = m -> Budget.year other = y ->
  exists msg,
    BudgetViewSet.create db u cy now d
    = Raise (ValidationError [(non_field_errors, msg)]).
Proof.
  intros Herr Hc Hmr Hyr Hm Hy Hin H1 H2 H3 H4.
  unfold BudgetViewSet.create, BudgetSerializer.run_validation,
    BudgetSerializer.to_internal_value.
  rewrite Herr, Hc, Hmr, Hyr. simpl bind.
  destruct (budget_uniqueness_check db u None c
              (value_of (BudgetSerializer.amount_result false d)) m y Hm Hy)
    as [_ Hdup].
  destruct Hdup as (msg & ->).
  - intros E.
    assert (Hd : In other (BudgetSerializer.duplicates db u None c m y))
      by (apply budget_duplicates_spec; tauto).
    rewrite E in Hd. contradiction.
  - exists msg. reflexivity.
Qed.

Example budget_second_create_rejected :
  exists msg,
    BudgetViewSet.create Sample.db Sample.alice 2025 200
      (BudgetSerializer.Data Omitted (Given 1) (Given 5000) (Given 3) (Given 2025))
    = Raise (ValidationError [(non_field_errors, msg)]).
Proof. eexists. vm_compute. reflexivity. Qed.

Example budget_amount_update_accepted :
  BudgetViewSet.update Sample.db Sample.alice 2025 BudgetViewSet.no_filter 1 false
    (BudgetSerializer.Data Omitted (Given 1) (Given 77700) (Given 3) (Given 2025))
  = Ok (Build_DB (categories Sample.db) (transactions Sample.db)
                 [Budget.Build 1 Sample.alice 1 77700 3 2025 120;
                  Sample.food_april; Sample.rent_march] 4 4 4,
        Budget.Build 1 Sample.alice 1 77700 3 2025 120)
  /\ is_ok (BudgetViewSet.update Sample.db Sample.alice 2025
              BudgetViewSet.no_filter 1 true
              (BudgetSerializer.Data Omitted Omitted (Given 77700) Omitted Omitted))
     = true.
Proof. split; vm_compute; reflexivity. Qed.

(** C2, where the code departs from it: a partial update that moves the
    budget 1 of the sample (category 1, March 2025) to April, where the
    same user already has budget 2 for category 1, passes validation, as
    [validate] sees no [year] and no [category] in the body; the save
    then breaks the unique constraint, so the update ends in an
    [IntegrityError] and not in a validation error. *)
Theorem budget_partial_update_conflict_not_validated :
  let d := BudgetSerializer.Data Omitted Omitted Omitted (Given 4) Omitted in
  BudgetViewSet.get_object Sample.db Sample.alice BudgetViewSet.no_filter 1
  = Ok Sample.food_march
  /\ (In Sample.food_april (budgets Sample.db)
      /\ Budget.id Sample.food_april <> Budget.id Sample.food_march
      /\ Budget.user Sample.food_april = Budget.user Sample.food_march
      /\ Budget.category Sample.food_april = Budget.category Sample.food_march
      /\ Budget.month Sample.food_april = 4
      /\ Budget.year Sample.food_april = Budget.year Sample.food_march)
  /\ is_ok (BudgetSerializer.run_validation Sample.db Sample.alice 2025
              (Some Sample.food_march) true d) = true
  /\ BudgetViewSet.update Sample.db Sample.alice 2025 BudgetViewSet.no_filter
       1 true d = Raise IntegrityError
  /\ ~ is_validation_error
         (BudgetViewSet.update Sample.db Sample.alice 2025
            BudgetViewSet.no_filter 1 true d).
Proof.
  simpl. repeat apply conj; try (vm_compute; reflexivity).
  - simpl. tauto.
  - discriminate.
  - intros (detail & H). vm_compute in H. discriminate.
Qed.

(** ** Cutting pages *)

Lemma get_page_size_bounds param :
  1 <= StandardResultsSetPagination.get_page_size param <= 100.
Proof.
  unfold StandardResultsSetPagination.get_page_size,
    StandardResultsSetPagination.page_size,
    StandardResultsSetPagination.max_page_size.
  destruct param as [n |]; [| lia].
  destruct (n <=? 0) eqn:E; [lia |]. apply Z.leb_gt in E. lia.
Qed.

Lemma num_pages_bounds count per :
  0 <= count -> 1 <= per ->
  1 <= StandardResultsSetPagination.num_pages count per
  /\ count <= StandardResultsSetPagination.num_pages count per * per
  /\ (1 <= count ->
      (StandardResultsSetPagination.num_pages count per - 1) * per < count).
Proof.
  intros Hc Hp. unfold StandardResultsSetPagination.num_pages.
  assert (Hx : 1 <= Z.max 1 count /\ count <= Z.max 1 count
               /\ (1 <= count -> Z.max 1 count = count)) by lia.
  revert Hx. generalize (Z.max 1 count). intros x (Hx1 & Hx2 & Hx3).
  pose proof (Z.div_mod (x + per - 1) per ltac:(lia)) as Hdm.
  pose proof (Z.mod_pos_bound (x + per - 1) per ltac:(lia)) as Hmod.
  revert Hdm Hmod.
  generalize ((x + per - 1) / per). generalize ((x + per - 1) mod per).
  intros r q Hdm Hmod.
  split; [nia |]. split; [nia |].
  intros H1. specialize (Hx3 H1). nia.
Qed.

Lemma paginate_page {A : Type} param (l : list A) (n : nat) :
  (1 <= n)%nat ->
  Z.of_nat n <= StandardResultsSetPagination.num_pages
                  (Z.of_nat (List.length l))
                  (StandardResultsSetPagination.get_page_size param) ->
  StandardResultsSetPagination.paginate_queryset param
    (StandardResultsSetPagination.PageNumber (Z.of_nat n)) l
  = Ok (firstn (Z.to_nat (StandardResultsSetPagination.get_page_size param))
               (skipn ((n - 1)
                       * Z.to_nat (StandardResultsSetPagination.get_page_size param))
                      l)).
Proof.
  intros Hn HN. pose proof (get_page_size_bounds param) as Hper.
  unfold StandardResultsSetPagination.paginate_queryset.
  cbv beta iota zeta.
  destruct ((Z.of_nat n <? 1)
            || (StandardResultsSetPagination.num_pages
                  (Z.of_nat (List.length l))
                  (StandardResultsSetPagination.get_page_size param)
                <? Z.of_nat n)) eqn:E.
  { apply orb_true_iff in E. destruct E as [E | E]; apply Z.ltb_lt in E; lia. }
  f_equal. unfold StandardResultsSetPagination.slice.
  revert Hper. generalize (StandardResultsSetPagination.get_page_size param).
  intros per Hper.
  assert (Hb : Z.to_nat ((Z.of_nat n - 1) * per) = ((n - 1) * Z.to_nat per)%nat).
  { rewrite Z2Nat.inj_mul by lia. f_equal. lia. }
  assert (Hb' : Z.of_nat ((n - 1) * Z.to_nat per) = (Z.of_nat n - 1) * per).
  { rewrite <- Hb. apply Z2Nat.id. nia. }
  rewrite Hb. revert Hb'.
  generalize ((Z.of_nat n - 1) * per). generalize ((n - 1) * Z.to_nat per)%nat.
  intros b bottom Hb'.
  destruct (Z.of_nat (List.length l) <=? bottom + per) eqn:T.
  - apply Z.leb_le in T.
    rewrite !firstn_all2; [reflexivity | |]; rewrite length_skipn; lia.
  - replace (bottom + per - bottom) with per by lia. reflexivity.
Qed.

Lemma paginate_number_ok {A : Type} param (l : list A) z rows :
  StandardResultsSetPagination.paginate_queryset param
    (StandardResultsSetPagination.PageNumber z) l = Ok rows ->
  1 <= z <= StandardResultsSetPagination.num_pages
              (Z.of_nat (List.length l))
              (StandardResultsSetPagination.get_page_size param)
  /\ rows = firstn (Z.to_nat (StandardResultsSetPagination.get_page_size param))
                   (skipn ((Z.to_nat z - 1)
                           * Z.to_nat (StandardResultsSetPagination.get_page_size
                                         param))
                          l).
Proof.
  intros H.
  assert (Hz : 1 <= z <= StandardResultsSetPagination.num_pages
                           (Z.of_nat (List.length l))
                           (StandardResultsSetPagination.get_page_size param)).
  { unfold StandardResultsSetPagination.paginate_queryset in H.
    cbv beta iota zeta in H.
    destruct ((z <? 1)
              || (StandardResultsSetPagination.num_pages
                    (Z.of_nat (List.length l))
                    (StandardResultsSetPagination.get_page_size param)
                  <? z)) eqn:E; [discriminate |].
    apply orb_false_iff in E. destruct E as [E1 E2].
    apply Z.ltb_ge in E1, E2. lia. }
  split; [exact Hz |].
  rewrite <- (Z2Nat.id z) in H by lia.
  rewrite paginate_page in H by lia.
  now injection H as <-.
Qed.

Lemma paginate_as_number {A : Type} param page (l : list A) rows :
  StandardResultsSetPagination.paginate_queryset param page l = Ok rows ->
  exists z,
    StandardResultsSetPagination.paginate_queryset param
      (StandardResultsSetPagination.PageNumber z) l = Ok rows.
Proof.
  destruct page as [| | n |]; intros H.
  - exists 1. exact H.
  - exists (StandardResultsSetPagination.num_pages
              (Z.of_nat (List.length l))
              (StandardResultsSetPagination.get_page_size param)).
    exact H.
  - exists n. exact H.
  - discriminate.
Qed.

Lemma chunks_concat {A : Type} (p : nat) :
  forall (N : nat) (l : list A),
    (List.length l <= N * p)%nat ->
    List.concat (map (fun i => firstn p (skipn (i * p) l)) (seq 0 N)) = l.
Proof.
  induction N as [| N IH]; intros l Hl.
  - simpl in *. destruct l; [reflexivity | simpl in Hl; lia].
  - cbn [seq map List.concat]. rewrite <- seq_shift, map_map.
    rewrite (map_ext _ (fun i => firstn p (skipn (i * p) (skipn p l)))).
    + rewrite IH; [apply firstn_skipn |].
      rewrite length_skipn. simpl in Hl. lia.
    + intros i. rewrite skipn_skipn. do 2 f_equal. simpl. lia.
Qed.


Lemma paginate_window {A : Type} param page (l : list A) rows :
  StandardResultsSetPagination.paginate_queryset param page l = Ok rows ->
  exists before after, l = before ++ rows ++ after.
Proof.
  intros H. apply paginate_as_number in H. destruct H as (z & H).
  apply paginate_number_ok in H. destruct H as (_ & ->).
  exists (firstn ((Z.to_nat z - 1)
                  * Z.to_nat (StandardResultsSetPagination.get_page_size param))
                 l).
  exists (skipn (Z.to_nat (StandardResultsSetPagination.get_page_size param))
            (skipn ((Z.to_nat z - 1)
                    * Z.to_nat (StandardResultsSetPagination.get_page_size param))
                   l)).
  now rewrite !firstn_skipn.
Qed.

Lemma paginate_pages {A : Type} param (l : list A) :
  exists pages,
    map (fun n =>
           StandardResultsSetPagination.paginate_queryset param
             (StandardResultsSetPagination.PageNumber (Z.of_nat n)) l)
        (seq 1 (Z.to_nat (StandardResultsSetPagination.num_pages
                            (Z.of_nat (List.length l))
                            (StandardResultsSetPagination.get_page_size param))))
    = map Ok pages
    /\ List.concat pages = l.
Proof.
  pose proof (get_page_size_bounds param) as Hper.
  pose proof (num_pages_bounds (Z.of_nat (List.length l))
                (StandardResultsSetPagination.get_page_size param)
                ltac:(lia) ltac:(lia)) as (HN1 & HN2 & _).
  exists (map (fun n =>
                 firstn (Z.to_nat (StandardResultsSetPagination.get_page_size param))
                        (skipn ((n - 1)
                                * Z.to_nat
                                    (StandardResultsSetPagination.get_page_size
                                       param)) l))
              (seq 1 (Z.to_nat (StandardResultsSetPagination.num_pages
                                  (Z.of_nat (List.length l))
                                  (StandardResultsSetPagination.get_page_size
                                     param))))).
  split.
  - rewrite map_map. apply map_ext_in. intros n Hn. apply in_seq in Hn.
    apply paginate_page; lia.
  - rewrite <- seq_shift, map_map.
    rewrite (map_ext _ (fun i =>
               firstn (Z.to_nat (StandardResultsSetPagination.get_page_size param))
                      (skipn (i * Z.to_nat
                                    (StandardResultsSetPagination.get_page_size
                                       param)) l))).
    + apply chunks_concat.
      apply Nat2Z.inj_le. rewrite Nat2Z.inj_mul, !Z2Nat.id by lia. exact HN2.
    + intros i. do 3 f_equal. lia.
Qed.

(** *** The list operation *)

Lemma list_ok {A B : Type} (f : A -> B) param page (l : list A) p :
  ListModelMixin.list f param page l = Ok p ->
  StandardResultsSetPagination.count p = Z.of_nat (List.length l)
  /\ exists rows,
       StandardResultsSetPagination.paginate_queryset param page l = Ok rows
       /\ StandardResultsSetPagination.results p = map f rows.
Proof.
  unfold ListModelMixin.list. intros H.
  apply bind_ok in H. destruct H as (rows & Hrows & H).
  injection H as <-. simpl. eauto.
Qed.

Lemma list_window {A B : Type} (f : A -> B) param page (l : list A) p :
  ListModelMixin.list f param page l = Ok p ->
  exists before after,
    map f l = before ++ StandardResultsSetPagination.results p ++ after.
Proof.
  intros H. apply list_ok in H. destruct H as (_ & rows & Hrows & ->).
  apply paginate_window in Hrows. destruct Hrows as (before & after & ->).
  exists (map f before), (map f after). now rewrite !map_app.
Qed.

Lemma list_In {A B : Type} (f : A -> B) param page (l : list A) p r :
  ListModelMixin.list f param page l = Ok p ->
  In r (StandardResultsSetPagination.results p) -> In r (map f l).
Proof.
  intros H Hr. apply list_window in H. destruct H as (before & after & ->).
  apply in_or_app. right. apply in_or_app. now left.
Qed.

Lemma list_ext {A B : Type} (f g : A -> B) param page (l : list A) :
  (forall x, In x l -> f x = g x) ->
  ListModelMixin.list f param page l = ListModelMixin.list g param page l.
Proof.
  intros H. unfold ListModelMixin.list.
  destruct (StandardResultsSetPagination.paginate_queryset param page l)
    as [rows | e] eqn:E; [| reflexivity].
  simpl. do 2 f_equal. apply map_ext_in. intros x Hx. apply H.
  apply paginate_window in E. destruct E as (before & after & ->).
  apply in_or_app. right. apply in_or_app. now left.
Qed.

Lemma list_pages {A B : Type} (f : A -> B) param (l : list A) :
  exists pages,
    map (fun n =>
           ListModelMixin.list f param
             (StandardResultsSetPagination.PageNumber (Z.of_nat n)) l)
        (seq 1 (Z.to_nat (StandardResultsSetPagination.num_pages
                            (Z.of_nat (List.length l))
                            (StandardResultsSetPagination.get_page_size param))))
    = map Ok pages
    /\ List.concat (map (@StandardResultsSetPagination.results B) pages)
       = map f l.
Proof.
  assert (G : forall ns pages,
             map (fun n =>
                    StandardResultsSetPagination.paginate_queryset param
                      (StandardResultsSetPagination.PageNumber (Z.of_nat n)) l)
                 ns = map Ok pages ->
             exists ps,
               map (fun n =>
                      ListModelMixin.list f param
                        (StandardResultsSetPagination.PageNumber (Z.of_nat n)) l)
                   ns = map Ok ps
               /\ List.concat
                    (map (@StandardResultsSetPagination.results B) ps)
                  = map f (List.concat pages)).
  { induction ns as [| n ns IH]; intros pages Hpages.
    - destruct pages; [| discriminate]. exists []. split; reflexivity.
    - destruct pages as [| rows pages]; [discriminate |].
      simpl in Hpages. injection Hpages as Hrows Hrest.
      destruct (IH pages Hrest) as (ps & Hps & Hcat).
      exists (StandardResultsSetPagination.get_paginated_response param
                (StandardResultsSetPagination.PageNumber (Z.of_nat n)) l
                (map f rows) :: ps).
      split.
      + simpl. rewrite Hps. f_equal.
        unfold ListModelMixin.list. now rewrite Hrows.
      + simpl. rewrite Hcat, map_app. reflexivity. }
  destruct (paginate_pages param l) as (pages & Hpages & Hcat).
  destruct (G _ _ Hpages) as (ps & Hps & Hc).
  exists ps. split; [exact Hps |]. now rewrite Hc, Hcat.
Qed.

Lemma StronglySorted_window {A : Type} (R : A -> A -> Prop) before l after :
  StronglySorted R (before ++ l ++ after) -> StronglySorted R l.
Proof.
  induction before as [| x before IH]; simpl.
  - induction l as [| y l IHl]; simpl; intros H; [constructor |].
    inversion H as [| ? ? Hs Hf]; subst.
    constructor; [now apply IHl |].
    apply Forall_app in Hf. tauto.
  - intros H. inversion H; subst. now apply IH.
Qed.

(** ** Ordering of list results *)

Section OrderBy.
Context {Row : Type} (leb : Row -> Row -> bool).
Hypothesis leb_total : forall a b, leb a b = true \/ leb b a = true.
Hypothesis leb_trans :
  forall a b c, leb a b = true -> leb b c = true -> leb a c = true.

Lemma insert_sorted_sorted x l :
  StronglySorted (fun a b => leb a b = true) l ->
  StronglySorted (fun a b => leb a b = true) (insert_sorted leb x l).
Proof.
  induction l as [| y l IH]; simpl; intros Hs.
  - constructor; [constructor | constructor].
  - inversion Hs as [| ? ? Hl Hy]; subst.
    destruct (leb x y) eqn:E.
    + constructor; [exact Hs |].
      constructor; [exact E |].
      eapply Forall_impl; [| exact Hy].
      intros z Hz. simpl in *. eapply leb_trans; eassumption.
    + constructor; [now apply IH |].
      assert (Hyx : leb y x = true).
      { destruct (leb_total x y) as [H | H]; [congruence | exact H]. }
      eapply Permutation_Forall; [apply insert_sorted_perm |].
      constructor; assumption.
Qed.

Lemma order_by_sorted l :
  StronglySorted (fun a b => leb a b = true) (order_by leb l).
Proof.
  induction l as [| x l IH]; simpl.
  - constructor.
  - now apply insert_sorted_sorted.
Qed.
End OrderBy.

Lemma budget_ordering_spec db a b :
  OrderingFilter.leb (BudgetViewSet.sort_key db) BudgetViewSet.ordering a b = true
  <-> budget_default_order a b.
Proof.
  unfold OrderingFilter.leb, budget_default_order. simpl.
  destruct (Z.compare_spec (Budget.year b) (Budget.year a));
    destruct (Z.compare_spec (Budget.month b) (Budget.month a));
    split; intros; try lia; try reflexivity; discriminate.
Qed.

Lemma budget_ordering_total db a b :
  OrderingFilter.leb (BudgetViewSet.sort_key db) BudgetViewSet.ordering a b = true
  \/ OrderingFilter.leb (BudgetViewSet.sort_key db) BudgetViewSet.ordering b a
     = true.
Proof. rewrite !budget_ordering_spec. unfold budget_default_order. lia. Qed.

Lemma budget_ordering_trans db a b c :
  OrderingFilter.leb (BudgetViewSet.sort_key db) BudgetViewSet.ordering a b = true ->
  OrderingFilter.leb (BudgetViewSet.sort_key db) BudgetViewSet.ordering b c = true ->
  OrderingFilter.leb (BudgetViewSet.sort_key db) BudgetViewSet.ordering a c = true.
Proof. rewrite !budget_ordering_spec. unfold budget_default_order. lia. Qed.

Lemma StronglySorted_impl {A : Type} (P Q : A -> A -> Prop) l :
  (forall a b, P a b -> Q a b) -> StronglySorted P l -> StronglySorted Q l.
Proof.
  intros H. induction 1 as [| x l Hs IH Hf]; constructor; [exact IH |].
  eapply Forall_impl; [| exact Hf]. intros b. apply H.
Qed.

(** C9, as stated, fails: two budgets of one user for May 2024 come back
    in the order of the table, whichever way their category names
    compare, so neither an ascending nor a descending name order breaks
    the tie. *)
Lemma budget_list_name_tiebreak_counterexample :
  map br_row
      (shown_rows
         (BudgetViewSet.list (tied_budgets 1 2) 1 BudgetViewSet.no_filter None
            StandardResultsSetPagination.PageAbsent))
  = budgets (tied_budgets 1 2)
  /\ ~ Sorted (budget_order_with_name true (tied_budgets 1 2))
        (map br_row
           (shown_rows
              (BudgetViewSet.list (tied_budgets 1 2) 1 BudgetViewSet.no_filter
                 None StandardResultsSetPagination.PageAbsent)))
  /\ ~ Sorted (budget_order_with_name false (tied_budgets 2 1))
        (map br_row
           (shown_rows
              (BudgetViewSet.list (tied_budgets 2 1) 1 BudgetViewSet.no_filter
                 None StandardResultsSetPagination.PageAbsent))).
Proof.
  split; [reflexivity |].
  split; intros H; vm_compute in H;
    inversion H as [| ? ? _ Hd]; subst;
    inversion Hd as [| ? ? Hr]; subst;
    unfold budget_order_with_name in Hr; vm_compute in Hr;
    destruct Hr as [Hr | [_ [Hr | [_ Hr]]]]; discriminate.
Qed.

(** C9 (amended): for every user, filter combination and search, when
    the request names no valid ordering field, the query set that the
    budget list pages through holds exactly the user's budgets that pass
    the filter and the search, ordered by year descending and then month
    descending.  Every page the list answers is a run of consecutive rows
    of it, in that order, with the size of the whole as [count], and the
    pages 1 to the last, one after the other, are the whole of it.  The
    order of two budgets depends on their year and month only, so the
    category name breaks no tie. *)
Theorem budget_list_default_order :
  forall (db : DB) (u : user_id) (q : BudgetViewSet.query),
    OrderingFilter.remove_invalid_fields BudgetViewSet.ordering_fields
      (BudgetViewSet.ordering_param q) = [] ->
    StronglySorted budget_default_order
      (map br_row (BudgetViewSet.listed db u q))
    /\ Permutation
         (filter (fun b => (Budget.user b =? u) && BudgetViewSet.passes db q b)
                 (budgets db))
         (map br_row (BudgetViewSet.listed db u q))
    /\ (forall page_size page p,
           BudgetViewSet.list db u q page_size page = Ok p ->
           StandardResultsSetPagination.count p
           = Z.of_nat (List.length (BudgetViewSet.listed db u q))
           /\ (exists before after,
                  BudgetViewSet.listed db u q
                  = before ++ StandardResultsSetPagination.results p ++ after)
           /\ StronglySorted budget_default_order
                (map br_row (StandardResultsSetPagination.results p)))
    /\ (forall page_size,
           exists pages,
             map (fun n =>
                    BudgetViewSet.list db u q page_size
                      (StandardResultsSetPagination.PageNumber (Z.of_nat n)))
                 (seq 1 (Z.to_nat
                           (StandardResultsSetPagination.num_pages
                              (Z.of_nat
                                 (List.length (BudgetViewSet.listed db u q)))
                              (StandardResultsSetPagination.get_page_size
                                 page_size))))
             = map Ok pages
             /\ List.concat
                  (map (@StandardResultsSetPagination.results BudgetRepr) pages)
                = BudgetViewSet.listed db u q)
    /\ (forall db2 a b a' b',
           Budget.year a = Budget.year a' -> Budget.month a = Budget.month a' ->
           Budget.year b = Budget.year b' -> Budget.month b = Budget.month b' ->
           OrderingFilter.leb (BudgetViewSet.sort_key db) BudgetViewSet.ordering
             a b
           = OrderingFilter.leb (BudgetViewSet.sort_key db2)
               BudgetViewSet.ordering a' b').
Proof.
  intros db u q Hord.
  assert (E : map br_row (BudgetViewSet.listed db u q)
              = BudgetViewSet.filter_queryset db q
                  (BudgetViewSet.get_queryset db u)).
  { unfold BudgetViewSet.listed. rewrite map_map. simpl. apply map_id. }
  assert (Hsorted : StronglySorted budget_default_order
                      (BudgetViewSet.filter_queryset db q
                         (BudgetViewSet.get_queryset db u))).
  { unfold BudgetViewSet.filter_queryset, OrderingFilter.get_ordering.
    rewrite Hord.
    eapply StronglySorted_impl;
      [| apply (order_by_sorted _ (budget_ordering_total db)
                  (budget_ordering_trans db))].
    intros a b. apply budget_ordering_spec. }
  split; [rewrite E; exact Hsorted |].
  split; [| split; [| split]].
  - rewrite E.
    unfold BudgetViewSet.filter_queryset, BudgetViewSet.get_queryset.
    eapply perm_trans; [| apply order_by_perm].
    induction (budgets db) as [| b l IH]; simpl; [constructor |].
    destruct (Budget.user b =? u); simpl; [| exact IH].
    destruct (BudgetViewSet.passes db q b); [now constructor | exact IH].
  - intros page_size page p H. unfold BudgetViewSet.list in H.
    split; [| split].
    + destruct (list_ok _ _ _ _ _ H) as [Hc _]. rewrite Hc.
      unfold BudgetViewSet.listed. now rewrite length_map.
    + exact (list_window _ _ _ _ _ H).
    + destruct (list_window _ _ _ _ _ H) as (before & after & Hw).
      apply (f_equal (map br_row)) in Hw.
      fold (BudgetViewSet.listed db u q) in Hw.
      rewrite E, !map_app in Hw. rewrite Hw in Hsorted.
      now apply StronglySorted_window in Hsorted.
  - intros page_size. unfold BudgetViewSet.list, BudgetViewSet.listed.
    rewrite length_map. apply list_pages.
  - intros db2 a b a' b' H1 H2 H3 H4. unfold OrderingFilter.leb. simpl.
    now rewrite H1, H2, H3, H4.
Qed.

Lemma budget_list_default_order_witness :
  map br_row
      (shown_rows
         (BudgetViewSet.list Sample.db Sample.alice BudgetViewSet.no_filter None
            StandardResultsSetPagination.PageAbsent))
  = [Sample.food_april; Sample.food_march]
  /\ StronglySorted budget_default_order
       (map br_row
          (BudgetViewSet.listed Sample.db Sample.alice BudgetViewSet.no_filter)).
Proof.
  split; [reflexivity |].
  exact (proj1 (budget_list_default_order Sample.db Sample.alice
                  BudgetViewSet.no_filter eq_refl)).
Defined.

(** ** Isolation of users *)

Section PrimaryKeys.
Context {T : Type} (key : T -> Z).

Lemma pk_unique l r r' :
  NoDup (map key l) -> In r l -> In r' l -> key r = key r' -> r = r'.
Proof.
  induction l as [| x l IH]; simpl; intros Hnd Hr Hr' E; [contradiction |].
  inversion Hnd as [| ? ? Hx Hl]; subst.
  destruct Hr as [-> | Hr], Hr' as [-> | Hr'].
  - reflexivity.
  - exfalso. apply Hx. rewrite E. now apply in_map.
  - exfalso. apply Hx. rewrite <- E. now apply in_map.
  - now apply IH.
Qed.

Lemma get_pk_In l r :
  NoDup (map key l) -> In r l -> get_pk key l (key r) = Some r.
Proof.
  intros Hnd Hin. destruct (get_pk key l (key r)) as [r' |] eqn:E.
  - apply get_pk_some in E. destruct E as [Hin' E].
    f_equal. now apply (pk_unique l).
  - exfalso. exact (get_pk_none key l (key r) E r Hin eq_refl).
Qed.

Lemma NoDup_map_filter (f : T -> bool) l :
  NoDup (map key l) -> NoDup (map key (filter f l)).
Proof.
  induction l as [| x l IH]; simpl; intros Hnd; [constructor |].
  inversion Hnd as [| ? ? Hx Hl]; subst.
  destruct (f x); simpl; [| now apply IH].
  constructor; [| now apply IH].
  intros H. apply Hx. apply in_map_iff in H. destruct H as (y & E & Hy).
  apply filter_In in Hy. apply in_map_iff. exists y. tauto.
Qed.

Lemma NoDup_map_app_fresh l x :
  NoDup (map key l) -> (forall r, In r l -> key r <> key x) ->
  NoDup (map key (l ++ [x])).
Proof.
  intros Hnd Hfresh. rewrite map_app. simpl.
  apply NoDup_app.
  - exact Hnd.
  - constructor; [intros [] | constructor].
  - intros a H [<- | []]. apply in_map_iff in H.
    destruct H as (r & E & Hr). exact (Hfresh r Hr E).
Qed.

Lemma save_pk_keys l row : map key (save_pk key l row) = map key l.
Proof.
  unfold save_pk. rewrite map_map. apply map_ext_in. intros r _.
  destruct (key r =? key row) eqn:E; [| reflexivity].
  apply Z.eqb_eq in E. now symmetry.
Qed.
End PrimaryKeys.

Lemma filter_map_unchanged {T : Type} (p : T -> bool) (f : T -> T) l :
  (forall r, In r l -> p r = true -> f r = r) ->
  (forall r, In r l -> p r = false -> p (f r) = false) ->
  filter p (map f l) = filter p l.
Proof.
  induction l as [| x l IH]; simpl; intros H1 H2; [reflexivity |].
  destruct (p x) eqn:E.
  - rewrite (H1 x (or_introl eq_refl) E), E. f_equal.
    apply IH; intros; [apply H1 | apply H2]; auto.
  - rewrite (H2 x (or_introl eq_refl) E).
    apply IH; intros; [apply H1 | apply H2]; auto.
Qed.

Lemma filter_filter_unchanged {T : Type} (p keep : T -> bool) l :
  (forall r, In r l -> p r = true -> keep r = true) ->
  filter p (filter keep l) = filter p l.
Proof.
  induction l as [| x l IH]; simpl; intros H; [reflexivity |].
  destruct (keep x) eqn:K; simpl.
  - destruct (p x); [f_equal |]; apply IH; auto.
  - destruct (p x) eqn:E.
    + rewrite (H x (or_introl eq_refl) E) in K. discriminate.
    + apply IH; auto.
Qed.

Section OwnedRows.
Context {T : Type} (own : T -> user_id).
Variables (flt : T -> bool) (leb : T -> T -> bool).

(** The rows a viewset works on: [filter_queryset(get_queryset())]. *)
Lemma visible_In l a r :
  In r (order_by leb (filter flt (filter (fun r => own r =? a) l)))
  <-> In r l /\ own r = a /\ flt r = true.
Proof.
  rewrite order_by_In, !filter_In, Z.eqb_eq. tauto.
Qed.

Variable key : T -> Z.

Lemma visible_found l a k r :
  get_object_or_404 key
    (order_by leb (filter flt (filter (fun r => own r =? a) l))) k = Ok r ->
  In r l /\ own r = a /\ key r = k.
Proof.
  intros H. apply get_object_or_404_ok in H. destruct H as [H Hk].
  apply visible_In in H. tauto.
Qed.

Lemma visible_not_found l a row :
  NoDup (map key l) -> In row l -> own row <> a ->
  get_object_or_404 key
    (order_by leb (filter flt (filter (fun r => own r =? a) l))) (key row)
  = Raise Http404.
Proof.
  intros Hnd Hin Hown. apply get_object_or_404_missing.
  intros r Hr E. apply visible_In in Hr. destruct Hr as (Hr & Ha & _).
  apply Hown. rewrite <- Ha. f_equal. symmetry.
  now apply (pk_unique key l).
Qed.

Lemma save_pk_keeps_other_owner l a b instance row :
  NoDup (map key l) -> In instance l -> own instance = a ->
  key row = key instance -> own row = a -> a <> b ->
  filter (fun r => own r =? b) (save_pk key l row)
  = filter (fun r => own r =? b) l.
Proof.
  intros Hnd Hin Ha Hk Hrow Hab. unfold save_pk.
  apply filter_map_unchanged.
  - intros r Hr Hb. apply Z.eqb_eq in Hb.
    destruct (key r =? key row) eqn:E; [| reflexivity].
    apply Z.eqb_eq in E. exfalso. apply Hab.
    assert (r = instance) by (apply (pk_unique key l); congruence).
    congruence.
  - intros r Hr Hb. destruct (key r =? key row); [| exact Hb].
    apply Z.eqb_neq. congruence.
Qed.

Lemma delete_pk_keeps_other_owner l a b instance :
  NoDup (map key l) -> In instance l -> own instance = a -> a <> b ->
  filter (fun r => own r =? b) (delete_pk key l (key instance))
  = filter (fun r => own r =? b) l.
Proof.
  intros Hnd Hin Ha Hab. unfold delete_pk.
  apply filter_filter_unchanged.
  intros r Hr Hb. apply Z.eqb_eq in Hb.
  apply negb_true_iff, Z.eqb_neq. intros E. apply Hab.
  assert (r = instance) by (now apply (pk_unique key l)).
  congruence.
Qed.
End OwnedRows.

Lemma insert_sorted_ext {Row : Type} (leb leb' : Row -> Row -> bool) x l :
  (forall y, In y l -> leb x y = leb' x y) ->
  insert_sorted leb x l = insert_sorted leb' x l.
Proof.
  induction l as [| y l IH]; simpl; intros H; [reflexivity |].
  rewrite <- (H y (or_introl eq_refl)).
  destruct (leb x y); [reflexivity |]. f_equal. apply IH. auto.
Qed.

Lemma order_by_ext {Row : Type} (leb leb' : Row -> Row -> bool) l :
  (forall a b, In a l -> In b l -> leb a b = leb' a b) ->
  order_by leb l = order_by leb' l.
Proof.
  induction l as [| x l IH]; simpl; intros H; [reflexivity |].
  rewrite IH by auto. apply insert_sorted_ext.
  intros y Hy. apply order_by_In in Hy. auto.
Qed.

Lemma compare_rows_ext {Row : Type}
    (k k' : string -> Row -> OrderingFilter.key) ordering a b :
  (forall f, k f a = k' f a) -> (forall f, k f b = k' f b) ->
  OrderingFilter.compare_rows k ordering a b
  = OrderingFilter.compare_rows k' ordering a b.
Proof.
  intros Ha Hb. induction ordering as [| t rest IH]; simpl; [reflexivity |].
  now rewrite Ha, Hb, IH.
Qed.

(** The query set a viewset works on is the same when the search fields
    and the sort keys of its rows are. *)
Lemma filter_queryset_ext {Row : Type} (flt flt' : Row -> bool)
    (k k' : string -> Row -> OrderingFilter.key) ordering l :
  (forall r, In r l -> flt r = flt' r) ->
  (forall r f, In r l -> k f r = k' f r) ->
  order_by (OrderingFilter.leb k ordering) (filter flt l)
  = order_by (OrderingFilter.leb k' ordering) (filter flt' l).
Proof.
  intros Hf Hk. rewrite (filter_ext_in flt flt' l Hf).
  apply order_by_ext. intros a b Ha Hb.
  apply filter_In in Ha, Hb. unfold OrderingFilter.leb.
  rewrite (compare_rows_ext k k'); [reflexivity | |]; intros f; apply Hk; tauto.
Qed.

(** The category a row of [a] points to is the same on two well-formed
    databases that hold the same categories of [a]. *)
Lemma category_detail_agree db db2 a k :
  well_formed db -> well_formed db2 ->
  CategoryViewSet.get_queryset db2 a = CategoryViewSet.get_queryset db a ->
  (exists c, In c (categories db) /\ Category.id c = k /\ Category.user c = a) ->
  category_detail db2 (Some k) = category_detail db (Some k).
Proof.
  intros Hwf Hwf2 Hq (c & Hin & Hk & Hu). subst k. simpl.
  rewrite (get_pk_In Category.id (categories db) c (wf_category_pk Hwf) Hin).
  assert (Hin2 : In c (categories db2)).
  { assert (H : In c (CategoryViewSet.get_queryset db a)).
    { unfold CategoryViewSet.get_queryset. apply filter_In.
      split; [exact Hin | now apply Z.eqb_eq]. }
    rewrite <- Hq in H. unfold CategoryViewSet.get_queryset in H.
    apply filter_In in H. tauto. }
  now rewrite (get_pk_In Category.id (categories db2) c
                 (wf_category_pk Hwf2) Hin2).
Qed.

Lemma rows_of_eq u db db' :
  rows_of u db' = rows_of u db <->
  CategoryViewSet.get_queryset db' u = CategoryViewSet.get_queryset db u
  /\ TransactionViewSet.get_queryset db' u = TransactionViewSet.get_queryset db u
  /\ BudgetViewSet.get_queryset db' u = BudgetViewSet.get_queryset db u.
Proof.
  unfold rows_of. split.
  - intros H. injection H as H1 H2 H3. auto.
  - intros (-> & -> & ->). reflexivity.
Qed.

Lemma category_update_db db u q k partial d db' row :
  CategoryViewSet.update db u q k partial d = Ok (db', row) ->
  exists instance,
    CategoryViewSet.get_object db u q k = Ok instance
    /\ Category.id row = Category.id instance
    /\ Category.user row = Category.user instance
    /\ db' = Build_DB (save_pk Category.id (categories db) row)
                      (transactions db) (budgets db)
                      (category_seq db) (transaction_seq db) (budget_seq db).
Proof.
  unfold CategoryViewSet.update. intros H.
  apply bind_ok in H. destruct H as (instance & Hget & H).
  apply bind_ok in H. destruct H as (vd & Hv & H).
  apply category_run_validation_ok in Hv.
  unfold CategorySerializer.update in H. rewrite Hv in H. simpl in H.
  match type of H with
  | (if ?c then _ else _) = _ => destruct c; [discriminate |]
  end.
  injection H as <- <-. exists instance. simpl. auto.
Qed.

Lemma category_destroy_db db u q k db' :
  CategoryViewSet.destroy db u q k = Ok db' ->
  exists instance,
    CategoryViewSet.get_object db u q k = Ok instance
    /\ db' = delete_category db (Category.id instance).
Proof.
  unfold CategoryViewSet.destroy. intros H.
  apply bind_ok in H. destruct H as (instance & Hget & H).
  injection H as <-. eauto.
Qed.

Lemma category_isolates db a b :
  a <> b -> well_formed db -> isolates category_endpoint db a b.
Proof.
  intros Hab Hwf. unfold isolates. simpl. repeat apply conj.
  - intros q r H. unfold CategoryViewSet.listed, CategoryViewSet.filter_queryset,
      CategoryViewSet.get_queryset in H.
    apply visible_In in H. tauto.
  - intros q page_size page p r H Hr. unfold CategoryViewSet.list in H.
    apply (list_In _ _ _ _ _ _ H) in Hr. rewrite map_id in Hr.
    unfold CategoryViewSet.filter_queryset, CategoryViewSet.get_queryset in Hr.
    apply visible_In in Hr. tauto.
  - intros q k r H. apply category_get_object_In in H. tauto.
  - intros row Hin Hb q partial body.
    assert (H404 : CategoryViewSet.get_object db a q (Category.id row)
                   = Raise Http404).
    { unfold CategoryViewSet.get_object, CategoryViewSet.filter_queryset,
        CategoryViewSet.get_queryset.
      apply visible_not_found;
        [exact (wf_category_pk Hwf) | exact Hin | congruence]. }
    unfold CategoryViewSet.retrieve, CategoryViewSet.update,
      CategoryViewSet.destroy. rewrite H404. auto.
  - intros q k partial body db' row H. apply category_update_db in H.
    destruct H as (instance & Hget & Hid & Hu & ->).
    apply category_get_object_In in Hget. destruct Hget as (Hin & _ & Ha).
    apply rows_of_eq. split; [| split; reflexivity].
    unfold CategoryViewSet.get_queryset. simpl.
    eapply save_pk_keeps_other_owner;
      [exact (wf_category_pk Hwf) | exact Hin | exact Ha | exact Hid
      | congruence | exact Hab].
  - intros q k db' H. apply category_destroy_db in H.
    destruct H as (instance & Hget & ->).
    apply category_get_object_In in Hget. destruct Hget as (Hin & Hk & Ha).
    apply rows_of_eq. split; [| split].
    + unfold CategoryViewSet.get_queryset. simpl.
      eapply delete_pk_keeps_other_owner;
        [exact (wf_category_pk Hwf) | exact Hin | exact Ha | exact Hab].
    + unfold TransactionViewSet.get_queryset. simpl.
      apply filter_map_unchanged.
      * intros t Ht Hb. apply Z.eqb_eq in Hb.
        destruct (opt_eqb (Transaction.category t) (Category.id instance)) eqn:E;
          [| reflexivity].
        exfalso. destruct (Transaction.category t) as [c |] eqn:Ec;
          [| discriminate]. simpl in E. apply Z.eqb_eq in E. subst c.
        destruct (wf_transaction_category Hwf t Ht Ec) as (c & Hc & Hid & Hu).
        assert (c = instance)
          by (apply (pk_unique Category.id (categories db));
              [exact (wf_category_pk Hwf) | | |]; assumption).
        apply Hab. congruence.
      * intros t Ht Hb.
        destruct (opt_eqb (Transaction.category t) (Category.id instance));
          exact Hb.
    + unfold BudgetViewSet.get_queryset. simpl.
      apply filter_filter_unchanged.
      intros bu Hbu Hb. apply Z.eqb_eq in Hb.
      apply negb_true_iff, Z.eqb_neq. intros E.
      destruct (wf_budget_category Hwf bu Hbu) as (c & Hc & Hid & Hu).
      assert (c = instance)
        by (apply (pk_unique Category.id (categories db));
            [exact (wf_category_pk Hwf) | | | congruence]; assumption).
      apply Hab. congruence.
  - intros db2 Hwf2 Hrows q k. apply rows_of_eq in Hrows.
    destruct Hrows as (Hc & _ & _).
    unfold CategoryViewSet.listed, CategoryViewSet.list,
      CategoryViewSet.retrieve, CategoryViewSet.get_object. rewrite Hc.
    split; [reflexivity | split; [intros; reflexivity | reflexivity]].
Qed.

Lemma transaction_update_db db u q k partial d db' row :
  TransactionViewSet.update db u q k partial d = Ok (db', row) ->
  exists instance,
    TransactionViewSet.get_object db u q k = Ok instance
    /\ Transaction.id row = Transaction.id instance
    /\ Transaction.user row = Transaction.user instance
    /\ Transaction.category row
       = match value_of (TransactionSerializer.category_result db u partial d) with
         | Some c => option_map Category.id c
         | None => Transaction.category instance
         end
    /\ db' = Build_DB (categories db)
                      (save_pk Transaction.id (transactions db) row)
                      (budgets db)
                      (category_seq db) (transaction_seq db) (budget_seq db).
Proof.
  unfold TransactionViewSet.update. intros H.
  apply bind_ok in H. destruct H as (instance & Hget & H).
  apply bind_ok in H. destruct H as (vd & Hv & H).
  apply transaction_run_validation_ok in Hv. destruct Hv as [_ ->].
  unfold TransactionSerializer.update, TransactionSerializer.model_update in H.
  simpl in H. injection H as <- <-. exists instance. simpl. auto.
Qed.

Lemma transaction_destroy_db db u q k db' :
  TransactionViewSet.destroy db u q k = Ok db' ->
  exists instance,
    TransactionViewSet.get_object db u q k = Ok instance
    /\ db' = delete_transaction db (Transaction.id instance).
Proof.
  unfold TransactionViewSet.destroy. intros H.
  apply bind_ok in H. destruct H as (instance & Hget & H).
  injection H as <-. eauto.
Qed.

Lemma transaction_representation_agree db db2 a t :
  well_formed db -> well_formed db2 ->
  CategoryViewSet.get_queryset db2 a = CategoryViewSet.get_queryset db a ->
  In t (transactions db) -> Transaction.user t = a ->
  transaction_to_representation db2 t = transaction_to_representation db t.
Proof.
  intros Hwf Hwf2 Hq Hin Hu. unfold transaction_to_representation. f_equal.
  destruct (Transaction.category t) as [k |] eqn:E; [| reflexivity].
  apply (category_detail_agree db db2 a k Hwf Hwf2 Hq).
  destruct (wf_transaction_category Hwf t Hin E) as (c & Hc & Hid & Hcu).
  exists c. repeat split; congruence.
Qed.

Lemma transaction_category_name_agree db db2 a t :
  well_formed db -> well_formed db2 ->
  CategoryViewSet.get_queryset db2 a = CategoryViewSet.get_queryset db a ->
  In t (transactions db) -> Transaction.user t = a ->
  TransactionViewSet.category_name db2 t = TransactionViewSet.category_name db t.
Proof.
  intros Hwf Hwf2 Hq Hin Hu. unfold TransactionViewSet.category_name. f_equal.
  destruct (Transaction.category t) as [k |] eqn:E; [| reflexivity].
  apply (category_detail_agree db db2 a k Hwf Hwf2 Hq).
  destruct (wf_transaction_category Hwf t Hin E) as (c & Hc & Hid & Hcu).
  exists c. repeat split; congruence.
Qed.

Lemma transaction_filter_queryset_agree db db2 a q :
  well_formed db -> well_formed db2 ->
  CategoryViewSet.get_queryset db2 a = CategoryViewSet.get_queryset db a ->
  TransactionViewSet.filter_queryset db2 q (TransactionViewSet.get_queryset db a)
  = TransactionViewSet.filter_queryset db q (TransactionViewSet.get_queryset db a).
Proof.
  intros Hwf Hwf2 Hq. unfold TransactionViewSet.filter_queryset.
  assert (Hname : forall t,
             In t (TransactionViewSet.get_queryset db a) ->
             TransactionViewSet.category_name db2 t
             = TransactionViewSet.category_name db t).
  { intros t Ht. unfold TransactionViewSet.get_queryset in Ht.
    apply filter_In in Ht. destruct Ht as [Ht Hu]. apply Z.eqb_eq in Hu.
    now apply (transaction_category_name_agree db db2 a). }
  apply filter_queryset_ext.
  - intros t Ht. unfold TransactionViewSet.passes,
      TransactionViewSet.search_fields. now rewrite (Hname t Ht).
  - intros t f Ht. unfold TransactionViewSet.sort_key.
    now rewrite (Hname t Ht).
Qed.

Lemma transaction_isolates db a b :
  a <> b -> well_formed db -> isolates transaction_endpoint db a b.
Proof.
  intros Hab Hwf. unfold isolates. simpl. repeat apply conj.
  - intros q r H. unfold TransactionViewSet.listed in H.
    apply in_map_iff in H. destruct H as (t & <- & H). simpl.
    unfold TransactionViewSet.filter_queryset,
      TransactionViewSet.get_queryset in H.
    apply visible_In in H. tauto.
  - intros q page_size page p r H Hr. unfold TransactionViewSet.list in H.
    apply (list_In _ _ _ _ _ _ H) in Hr.
    apply in_map_iff in Hr. destruct Hr as (t & <- & Hr). simpl.
    unfold TransactionViewSet.filter_queryset,
      TransactionViewSet.get_queryset in Hr.
    apply visible_In in Hr. tauto.
  - intros q k r H. unfold TransactionViewSet.retrieve in H.
    apply bind_ok in H. destruct H as (instance & Hget & H).
    injection H as <-. simpl.
    apply transaction_get_object_In in Hget. tauto.
  - intros row Hin Hb q partial body.
    assert (H404 : TransactionViewSet.get_object db a q (Transaction.id row)
                   = Raise Http404).
    { unfold TransactionViewSet.get_object, TransactionViewSet.filter_queryset,
        TransactionViewSet.get_queryset.
      apply visible_not_found;
        [exact (wf_transaction_pk Hwf) | exact Hin | congruence]. }
    unfold TransactionViewSet.retrieve, TransactionViewSet.update,
      TransactionViewSet.destroy. rewrite H404. auto.
  - intros q k partial body db' row H. apply transaction_update_db in H.
    destruct H as (instance & Hget & Hid & Hu & _ & ->).
    apply transaction_get_object_In in Hget. destruct Hget as (Hin & _ & Ha).
    apply rows_of_eq. split; [reflexivity | split; [| reflexivity]].
    unfold TransactionViewSet.get_queryset. simpl.
    eapply save_pk_keeps_other_owner;
      [exact (wf_transaction_pk Hwf) | exact Hin | exact Ha | exact Hid
      | congruence | exact Hab].
  - intros q k db' H. apply transaction_destroy_db in H.
    destruct H as (instance & Hget & ->).
    apply transaction_get_object_In in Hget. destruct Hget as (Hin & Hk & Ha).
    apply rows_of_eq. split; [reflexivity | split; [| reflexivity]].
    unfold TransactionViewSet.get_queryset. simpl.
    eapply delete_pk_keeps_other_owner;
      [exact (wf_transaction_pk Hwf) | exact Hin | exact Ha | exact Hab].
  - intros db2 Hwf2 Hrows q k. apply rows_of_eq in Hrows.
    destruct Hrows as (Hc & Ht & _).
    assert (Hrepr : forall t,
               In t (TransactionViewSet.filter_queryset db q
                       (TransactionViewSet.get_queryset db a)) ->
               transaction_to_representation db2 t
               = transaction_to_representation db t).
    { intros t H. unfold TransactionViewSet.filter_queryset,
        TransactionViewSet.get_queryset in H.
      apply visible_In in H. destruct H as (Hin & Hu & _).
      now apply (transaction_representation_agree db db2 a). }
    pose proof (transaction_filter_queryset_agree db db2 a q Hwf Hwf2 Hc)
      as Hqs.
    split; [| split].
    + unfold TransactionViewSet.listed. rewrite Ht, Hqs. now apply map_ext_in.
    + intros page_size page. unfold TransactionViewSet.list.
      rewrite Ht, Hqs. now apply list_ext.
    + unfold TransactionViewSet.retrieve, TransactionViewSet.get_object.
      rewrite Ht, Hqs.
      destruct (get_object_or_404 Transaction.id
                  (TransactionViewSet.filter_queryset db q
                     (TransactionViewSet.get_queryset db a)) k)
        as [instance | e] eqn:E; simpl; [| reflexivity].
      apply get_object_or_404_ok in E. destruct E as [E _].
      now rewrite (Hrepr instance E).
Qed.

Lemma budget_update_db db u cy q k partial d db' row :
  BudgetViewSet.update db u cy q k partial d = Ok (db', row) ->
  exists instance,
    BudgetViewSet.get_object db u q k = Ok instance
    /\ Budget.id row = Budget.id instance
    /\ Budget.user row = Budget.user instance
    /\ Budget.category row
       = or_else (option_map Category.id
                    (value_of (BudgetSerializer.category_result db u partial d)))
                 (Budget.category instance)
    /\ db' = Build_DB (categories db) (transactions db)
                      (save_pk Budget.id (budgets db) row)
                      (category_seq db) (transaction_seq db) (budget_seq db).
Proof.
  unfold BudgetViewSet.update. intros H.
  apply bind_ok in H. destruct H as (instance & Hget & H).
  apply bind_ok in H. destruct H as (vd & Hv & H).
  apply budget_run_validation_ok in Hv. destruct Hv as [-> _].
  unfold BudgetSerializer.update, BudgetSerializer.model_update in H.
  simpl in H.
  match type of H with
  | (if ?c then _ else _) = _ => destruct c; [discriminate |]
  end.
  injection H as <- <-. exists instance. simpl. auto.
Qed.

Lemma budget_destroy_db db u q k db' :
  BudgetViewSet.destroy db u q k = Ok db' ->
  exists instance,
    BudgetViewSet.get_object db u q k = Ok instance
    /\ db' = delete_budget db (Budget.id instance).
Proof.
  unfold BudgetViewSet.destroy. intros H.
  apply bind_ok in H. destruct H as (instance & Hget & H).
  injection H as <-. eauto.
Qed.

Lemma budget_representation_agree db db2 a bu :
  well_formed db -> well_formed db2 ->
  CategoryViewSet.get_queryset db2 a = CategoryViewSet.get_queryset db a ->
  In bu (budgets db) -> Budget.user bu = a ->
  budget_to_representation db2 bu = budget_to_representation db bu.
Proof.
  intros Hwf Hwf2 Hq Hin Hu. unfold budget_to_representation. f_equal.
  apply (category_detail_agree db db2 a _ Hwf Hwf2 Hq).
  destruct (wf_budget_category Hwf bu Hin) as (c & Hc & Hid & Hcu).
  exists c. repeat split; congruence.
Qed.

Lemma budget_category_name_agree db db2 a bu :
  well_formed db -> well_formed db2 ->
  CategoryViewSet.get_queryset db2 a = CategoryViewSet.get_queryset db a ->
  In bu (budgets db) -> Budget.user bu = a ->
  BudgetViewSet.category_name db2 bu = BudgetViewSet.category_name db bu.
Proof.
  intros Hwf Hwf2 Hq Hin Hu. unfold BudgetViewSet.category_name. f_equal.
  apply (category_detail_agree db db2 a _ Hwf Hwf2 Hq).
  destruct (wf_budget_category Hwf bu Hin) as (c & Hc & Hid & Hcu).
  exists c. repeat split; congruence.
Qed.

Lemma budget_filter_queryset_agree db db2 a q :
  well_formed db -> well_formed db2 ->
  CategoryViewSet.get_queryset db2 a = CategoryViewSet.get_queryset db a ->
  BudgetViewSet.filter_queryset db2 q (BudgetViewSet.get_queryset db a)
  = BudgetViewSet.filter_queryset db q (BudgetViewSet.get_queryset db a).
Proof.
  intros Hwf Hwf2 Hq. unfold BudgetViewSet.filter_queryset.
  assert (Hname : forall bu,
             In bu (BudgetViewSet.get_queryset db a) ->
             BudgetViewSet.category_name db2 bu
             = BudgetViewSet.category_name db bu).
  { intros bu Hbu. unfold BudgetViewSet.get_queryset in Hbu.
    apply filter_In in Hbu. destruct Hbu as [Hbu Hu]. apply Z.eqb_eq in Hu.
    now apply (budget_category_name_agree db db2 a). }
  apply filter_queryset_ext.
  - intros bu Hbu. unfold BudgetViewSet.passes, BudgetViewSet.search_fields.
    now rewrite (Hname bu Hbu).
  - intros bu f Hbu. unfold BudgetViewSet.sort_key.
    now rewrite (Hname bu Hbu).
Qed.

Lemma budget_isolates cy db a b :
  a <> b -> well_formed db -> isolates (budget_endpoint cy) db a b.
Proof.
  intros Hab Hwf. unfold isolates. simpl. repeat apply conj.
  - intros q r H. unfold BudgetViewSet.listed in H.
    apply in_map_iff in H. destruct H as (t & <- & H). simpl.
    unfold BudgetViewSet.filter_queryset, BudgetViewSet.get_queryset in H.
    apply visible_In in H. tauto.
  - intros q page_size page p r H Hr. unfold BudgetViewSet.list in H.
    apply (list_In _ _ _ _ _ _ H) in Hr.
    apply in_map_iff in Hr. destruct Hr as (t & <- & Hr). simpl.
    unfold BudgetViewSet.filter_queryset, BudgetViewSet.get_queryset in Hr.
    apply visible_In in Hr. tauto.
  - intros q k r H. unfold BudgetViewSet.retrieve in H.
    apply bind_ok in H. destruct H as (instance & Hget & H).
    injection H as <-. simpl.
    apply budget_get_object_In in Hget. tauto.
  - intros row Hin Hb q partial body.
    assert (H404 : BudgetViewSet.get_object db a q (Budget.id row)
                   = Raise Http404).
    { unfold BudgetViewSet.get_object, BudgetViewSet.filter_queryset,
        BudgetViewSet.get_queryset.
      apply visible_not_found;
        [exact (wf_budget_pk Hwf) | exact Hin | congruence]. }
    unfold BudgetViewSet.retrieve, BudgetViewSet.update,
      BudgetViewSet.destroy. rewrite H404. auto.
  - intros q k partial body db' row H. apply budget_update_db in H.
    destruct H as (instance & Hget & Hid & Hu & _ & ->).
    apply budget_get_object_In in Hget. destruct Hget as (Hin & _ & Ha).
    apply rows_of_eq. split; [reflexivity | split; [reflexivity |]].
    unfold BudgetViewSet.get_queryset. simpl.
    eapply save_pk_keeps_other_owner;
      [exact (wf_budget_pk Hwf) | exact Hin | exact Ha | exact Hid
      | congruence | exact Hab].
  - intros q k db' H. apply budget_destroy_db in H.
    destruct H as (instance & Hget & ->).
    apply budget_get_object_In in Hget. destruct Hget as (Hin & Hk & Ha).
    apply rows_of_eq. split; [reflexivity | split; [reflexivity |]].
    unfold BudgetViewSet.get_queryset. simpl.
    eapply delete_pk_keeps_other_owner;
      [exact (wf_budget_pk Hwf) | exact Hin | exact Ha | exact Hab].
  - intros db2 Hwf2 Hrows q k. apply rows_of_eq in Hrows.
    destruct Hrows as (Hc & _ & Hbq).
    assert (Hrepr : forall bu,
               In bu (BudgetViewSet.filter_queryset db q
                        (BudgetViewSet.get_queryset db a)) ->
               budget_to_representation db2 bu
               = budget_to_representation db bu).
    { intros bu H. unfold BudgetViewSet.filter_queryset,
        BudgetViewSet.get_queryset in H.
      apply visible_In in H. destruct H as (Hin & Hu & _).
      now apply (budget_representation_agree db db2 a). }
    pose proof (budget_filter_queryset_agree db db2 a q Hwf Hwf2 Hc) as Hqs.
    split; [| split].
    + unfold BudgetViewSet.listed. rewrite Hbq, Hqs. now apply map_ext_in.
    + intros page_size page. unfold BudgetViewSet.list.
      rewrite Hbq, Hqs. now apply list_ext.
    + unfold BudgetViewSet.retrieve, BudgetViewSet.get_object.
      rewrite Hbq, Hqs.
      destruct (get_object_or_404 Budget.id
                  (BudgetViewSet.filter_queryset db q
                     (BudgetViewSet.get_queryset db a)) k)
        as [instance | e] eqn:E; simpl; [| reflexivity].
      apply get_object_or_404_ok in E. destruct E as [E _].
      now rewrite (Hrepr instance E).
Qed.

(** ** The writes keep the database well formed *)

Lemma empty_db_well_formed : well_formed empty_db.
Proof.
  constructor; simpl; try constructor; intros; contradiction.
Qed.

Lemma category_ref_after_save cats instance row k u :
  NoDup (map Category.id cats) -> In instance cats ->
  Category.id row = Category.id instance ->
  Category.user row = Category.user instance ->
  (exists c, In c cats /\ Category.id c = k /\ Category.user c = u) ->
  exists c, In c (save_pk Category.id cats row)
            /\ Category.id c = k /\ Category.user c = u.
Proof.
  intros Hnd Hin Hid Hu (c & Hc & Hk & Hcu).
  destruct (Z.eq_dec (Category.id c) (Category.id row)) as [E | E].
  - exists row. split; [eapply save_pk_In; eassumption |].
    assert (c = instance) by (apply (pk_unique Category.id cats); congruence).
    split; congruence.
  - exists c. split; [now apply save_pk_other | tauto].
Qed.

Lemma transaction_category_validated db u partial d c :
  TransactionSerializer.category_result db u partial d = Validated (Some c) ->
  In c (categories db) /\ Category.user c = u.
Proof.
  unfold TransactionSerializer.category_result, Drf.run_validation.
  destruct (TransactionSerializer.category d) as [| | k].
  - destruct partial; discriminate.
  - discriminate.
  - unfold TransactionSerializer.category_field, category_pk_field.
    destruct (get_pk Category.id (categories db) k) as [c' |] eqn:E;
      [| discriminate].
    simpl. destruct (Category.user c' =? u) eqn:Hu; simpl; [| discriminate].
    intros H. injection H as <-.
    apply get_pk_some in E. apply Z.eqb_eq in Hu. tauto.
Qed.

Lemma budget_category_validated db u partial d c :
  BudgetSerializer.category_result db u partial d = Validated c ->
  In c (categories db) /\ Category.user c = u.
Proof.
  unfold BudgetSerializer.category_result, Drf.run_validation.
  destruct (BudgetSerializer.category d) as [| | k].
  - destruct partial; discriminate.
  - discriminate.
  - unfold category_pk_field.
    destruct (get_pk Category.id (categories db) k) as [c' |] eqn:E;
      [| discriminate].
    simpl. unfold BudgetSerializer.validate_category.
    destruct (Category.user c' =? u) eqn:Hu; simpl; [| discriminate].
    intros H. injection H as <-.
    apply get_pk_some in E. apply Z.eqb_eq in Hu. tauto.
Qed.

Lemma value_of_some {A : Type} (r : field_result A) (a : A) :
  value_of r = Some a -> r = Validated a.
Proof. destruct r; simpl; congruence. Qed.

Lemma category_create_db db u now d db' row :
  CategoryViewSet.create db u now d = Ok (db', row) ->
  Category.id row = category_seq db
  /\ Category.user row = u
  /\ db' = Build_DB (categories db ++ [row]) (transactions db) (budgets db)
                    (category_seq db + 1) (transaction_seq db) (budget_seq db).
Proof.
  unfold CategoryViewSet.create. intros H.
  apply bind_ok in H. destruct H as (vd & _ & H).
  unfold CategorySerializer.create, CategorySerializer.model_create in H.
  simpl in H.
  match type of H with
  | (if ?c then _ else _) = _ => destruct c; [discriminate |]
  end.
  injection H as <- <-. simpl. auto.
Qed.

Lemma transaction_create_db db u now d db' row :
  TransactionViewSet.create db u now d = Ok (db', row) ->
  Transaction.id row = transaction_seq db
  /\ Transaction.user row = u
  /\ Transaction.category row
     = option_map Category.id
         (or_else (value_of (TransactionSerializer.category_result db u false d))
                  None)
  /\ db' = Build_DB (categories db) (transactions db ++ [row]) (budgets db)
                    (category_seq db) (transaction_seq db + 1) (budget_seq db).
Proof.
  unfold TransactionViewSet.create. intros H.
  apply bind_ok in H. destruct H as (vd & Hv & H).
  apply transaction_run_validation_ok in Hv. destruct Hv as [_ ->].
  unfold TransactionSerializer.create, TransactionSerializer.model_create in H.
  simpl in H.
  destruct (value_of (TransactionSerializer.amount_result false d));
    [| discriminate].
  destruct (value_of (TransactionSerializer.date_result false d));
    [| discriminate].
  injection H as <- <-. simpl. auto.
Qed.

Lemma budget_create_db db u cy now d db' row :
  BudgetViewSet.create db u cy now d = Ok (db', row) ->
  Budget.id row = budget_seq db
  /\ Budget.user row = u
  /\ (exists c, BudgetSerializer.category_result db u false d = Validated c
                /\ Budget.category row = Category.id c)
  /\ db' = Build_DB (categories db) (transactions db) (budgets db ++ [row])
                    (category_seq db) (transaction_seq db) (budget_seq db + 1).
Proof.
  unfold BudgetViewSet.create. intros H.
  apply bind_ok in H. destruct H as (vd & Hv & H).
  apply budget_run_validation_ok in Hv. destruct Hv as [-> _].
  unfold BudgetSerializer.create, BudgetSerializer.model_create in H.
  simpl in H.
  destruct (value_of (BudgetSerializer.category_result db u false d))
    as [c |] eqn:Ec; [| discriminate].
  destruct (value_of (BudgetSerializer.amount_result false d));
    [| discriminate].
  destruct (value_of (BudgetSerializer.month_result false d));
    [| discriminate].
  destruct (value_of (BudgetSerializer.year_result cy false d));
    [| discriminate].
  match type of H with
  | (if ?c then _ else _) = _ => destruct c; [discriminate |]
  end.
  injection H as <- <-. simpl. repeat split.
  exists c. split; [now apply value_of_some | reflexivity].
Qed.

Lemma category_create_well_formed db u now d db' row :
  well_formed db ->
  CategoryViewSet.create db u now d = Ok (db', row) -> well_formed db'.
Proof.
  intros Hwf H. apply category_create_db in H. destruct H as (Hid & _ & ->).
  destruct Hwf as [C1 C2 C3 S1 S2 S3 R1 R2].
  constructor; simpl; try assumption.
  - apply NoDup_map_app_fresh; [exact C1 |].
    intros r Hr. apply S1 in Hr. lia.
  - intros c Hc. apply in_app_or in Hc. destruct Hc as [Hc | [<- | []]].
    + apply S1 in Hc. lia.
    + lia.
  - intros t k Ht Hk. destruct (R1 t k Ht Hk) as (c & Hc & Hrest).
    exists c. split; [apply in_or_app; now left | exact Hrest].
  - intros b Hb. destruct (R2 b Hb) as (c & Hc & Hrest).
    exists c. split; [apply in_or_app; now left | exact Hrest].
Qed.

Lemma category_update_well_formed db u q k partial d db' row :
  well_formed db ->
  CategoryViewSet.update db u q k partial d = Ok (db', row) -> well_formed db'.
Proof.
  intros Hwf H. apply category_update_db in H.
  destruct H as (instance & Hget & Hid & Hu & ->).
  apply category_get_object_In in Hget. destruct Hget as (Hin & _ & _).
  destruct Hwf as [C1 C2 C3 S1 S2 S3 R1 R2].
  constructor; simpl; try assumption.
  - now rewrite save_pk_keys.
  - intros c Hc. apply save_pk_inv in Hc. destruct Hc as [-> | [Hc _]].
    + rewrite Hid. now apply S1.
    + now apply S1.
  - intros t k' Ht Hk.
    apply (category_ref_after_save (categories db) instance row); auto.
  - intros b Hb.
    apply (category_ref_after_save (categories db) instance row); auto.
Qed.

Lemma category_destroy_well_formed db u q k db' :
  well_formed db ->
  CategoryViewSet.destroy db u q k = Ok db' -> well_formed db'.
Proof.
  intros Hwf H. apply category_destroy_db in H.
  destruct H as (instance & _ & ->).
  destruct Hwf as [C1 C2 C3 S1 S2 S3 R1 R2].
  set (k0 := Category.id instance).
  assert (Hids : map Transaction.id
                   (map (fun t => if opt_eqb (Transaction.category t) k0
                                  then Transaction.set_category None t else t)
                        (transactions db))
                 = map Transaction.id (transactions db)).
  { rewrite map_map. apply map_ext. intros t.
    now destruct (opt_eqb (Transaction.category t) k0). }
  constructor; unfold delete_category; simpl; fold k0.
  - now apply NoDup_map_filter.
  - now rewrite Hids.
  - now apply NoDup_map_filter.
  - intros c Hc. apply delete_pk_In in Hc. apply S1. tauto.
  - intros t Ht. apply in_map_iff in Ht. destruct Ht as (t0 & <- & Ht0).
    destruct (opt_eqb (Transaction.category t0) k0); simpl; now apply S2.
  - intros b Hb. apply filter_In in Hb. apply S3. tauto.
  - intros t k' Ht Hk. apply in_map_iff in Ht. destruct Ht as (t0 & <- & Ht0).
    destruct (opt_eqb (Transaction.category t0) k0) eqn:E;
      simpl in Hk; [discriminate |].
    destruct (R1 t0 k' Ht0 Hk) as (c & Hc & Hck & Hcu).
    exists c. split; [| tauto]. apply delete_pk_In. split; [exact Hc |].
    intros E'. rewrite Hk in E. simpl in E. apply Z.eqb_neq in E. congruence.
  - intros b Hb. apply filter_In in Hb. destruct Hb as [Hb Hne].
    apply negb_true_iff, Z.eqb_neq in Hne.
    destruct (R2 b Hb) as (c & Hc & Hck & Hcu).
    exists c. split; [| tauto]. apply delete_pk_In. split; [exact Hc |].
    congruence.
Qed.

Lemma transaction_create_well_formed db u now d db' row :
  well_formed db ->
  TransactionViewSet.create db u now d = Ok (db', row) -> well_formed db'.
Proof.
  intros Hwf H. apply transaction_create_db in H.
  destruct H as (Hid & Hu & Hcat & ->).
  destruct Hwf as [C1 C2 C3 S1 S2 S3 R1 R2].
  constructor; simpl; try assumption.
  - apply NoDup_map_app_fresh; [exact C2 |].
    intros r Hr. apply S2 in Hr. lia.
  - intros t Ht. apply in_app_or in Ht. destruct Ht as [Ht | [<- | []]].
    + apply S2 in Ht. lia.
    + lia.
  - intros t k Ht Hk. apply in_app_or in Ht. destruct Ht as [Ht | [<- | []]].
    + now apply R1.
    + rewrite Hcat in Hk.
      destruct (value_of (TransactionSerializer.category_result db u false d))
        as [[c |] |] eqn:E; simpl in Hk; try discriminate.
      apply value_of_some, transaction_category_validated in E.
      exists c. repeat split; [tauto | congruence | ].
      destruct E as [_ E]. congruence.
Qed.

Lemma transaction_update_well_formed db u q k partial d db' row :
  well_formed db ->
  TransactionViewSet.update db u q k partial d = Ok (db', row) -> well_formed db'.
Proof.
  intros Hwf H. apply transaction_update_db in H.
  destruct H as (instance & Hget & Hid & Hu & Hcat & ->).
  apply transaction_get_object_In in Hget. destruct Hget as (Hin & _ & Ha).
  destruct Hwf as [C1 C2 C3 S1 S2 S3 R1 R2].
  constructor; simpl; try assumption.
  - now rewrite save_pk_keys.
  - intros t Ht. apply save_pk_inv in Ht. destruct Ht as [-> | [Ht _]].
    + rewrite Hid. now apply S2.
    + now apply S2.
  - intros t k' Ht Hk. apply save_pk_inv in Ht. destruct Ht as [-> | [Ht _]].
    + rewrite Hcat in Hk.
      destruct (value_of (TransactionSerializer.category_result db u partial d))
        as [[c |] |] eqn:E; simpl in Hk; try discriminate.
      * apply value_of_some, transaction_category_validated in E.
        exists c. repeat split; [tauto | congruence | ].
        destruct E as [_ E]. congruence.
      * destruct (R1 instance k' Hin Hk) as (c & Hc & Hck & Hcu).
        exists c. repeat split; congruence.
    + now apply R1.
Qed.

Lemma transaction_destroy_well_formed db u q k db' :
  well_formed db ->
  TransactionViewSet.destroy db u q k = Ok db' -> well_formed db'.
Proof.
  intros Hwf H. apply transaction_destroy_db in H.
  destruct H as (instance & _ & ->).
  destruct Hwf as [C1 C2 C3 S1 S2 S3 R1 R2].
  constructor; unfold delete_transaction; simpl; try assumption.
  - now apply NoDup_map_filter.
  - intros t Ht. apply delete_pk_In in Ht. apply S2. tauto.
  - intros t k' Ht Hk. apply delete_pk_In in Ht. apply (R1 t k'); tauto.
Qed.

Lemma budget_create_well_formed db u cy now d db' row :
  well_formed db ->
  BudgetViewSet.create db u cy now d = Ok (db', row) -> well_formed db'.
Proof.
  intros Hwf H. apply budget_create_db in H.
  destruct H as (Hid & Hu & (c & Hc & Hcat) & ->).
  destruct Hwf as [C1 C2 C3 S1 S2 S3 R1 R2].
  constructor; simpl; try assumption.
  - apply NoDup_map_app_fresh; [exact C3 |].
    intros r Hr. apply S3 in Hr. lia.
  - intros b Hb. apply in_app_or in Hb. destruct Hb as [Hb | [<- | []]].
    + apply S3 in Hb. lia.
    + lia.
  - intros b Hb. apply in_app_or in Hb. destruct Hb as [Hb | [<- | []]].
    + now apply R2.
    + apply budget_category_validated in Hc.
      exists c. repeat split; [tauto | congruence |].
      destruct Hc as [_ Hc]. congruence.
Qed.

Lemma budget_update_well_formed db u cy q k partial d db' row :
  well_formed db ->
  BudgetViewSet.update db u cy q k partial d = Ok (db', row) -> well_formed db'.
Proof.
  intros Hwf H. apply budget_update_db in H.
  destruct H as (instance & Hget & Hid & Hu & Hcat & ->).
  apply budget_get_object_In in Hget. destruct Hget as (Hin & _ & Ha).
  destruct Hwf as [C1 C2 C3 S1 S2 S3 R1 R2].
  constructor; simpl; try assumption.
  - now rewrite save_pk_keys.
  - intros b Hb. apply save_pk_inv in Hb. destruct Hb as [-> | [Hb _]].
    + rewrite Hid. now apply S3.
    + now apply S3.
  - intros b Hb. apply save_pk_inv in Hb. destruct Hb as [-> | [Hb _]].
    + rewrite Hcat.
      destruct (value_of (BudgetSerializer.category_result db u partial d))
        as [c |] eqn:E; simpl.
      * apply value_of_some, budget_category_validated in E.
        exists c. repeat split; [tauto |]. destruct E as [_ E]. congruence.
      * destruct (R2 instance Hin) as (c & Hc & Hck & Hcu).
        exists c. repeat split; congruence.
    + now apply R2.
Qed.

Lemma budget_destroy_well_formed db u q k db' :
  well_formed db ->
  BudgetViewSet.destroy db u q k = Ok db' -> well_formed db'.
Proof.
  intros Hwf H. apply budget_destroy_db in H.
  destruct H as (instance & _ & ->).
  destruct Hwf as [C1 C2 C3 S1 S2 S3 R1 R2].
  constructor; unfold delete_budget; simpl; try assumption.
  - now apply NoDup_map_filter.
  - intros b Hb. apply delete_pk_In in Hb. apply S3. tauto.
  - intros b Hb. apply delete_pk_In in Hb. apply R2. tauto.
Qed.

Lemma write_step_well_formed db db' :
  well_formed db -> write_step db db' -> well_formed db'.
Proof.
  intros Hwf [u now d row H | u q k partial d row H | u q k H
             | u now d row H | u q k partial d row H | u q k H
             | u cy now d row H | u cy q k partial d row H | u q k H].
  - eapply category_create_well_formed; eassumption.
  - eapply category_update_well_formed; eassumption.
  - eapply category_destroy_well_formed; eassumption.
  - eapply transaction_create_well_formed; eassumption.
  - eapply transaction_update_well_formed; eassumption.
  - eapply transaction_destroy_well_formed; eassumption.
  - eapply budget_create_well_formed; eassumption.
  - eapply budget_update_well_formed; eassumption.
  - eapply budget_destroy_well_formed; eassumption.
Qed.

(** Every database the endpoints can produce is well formed. *)
Lemma reachable_well_formed db : reachable db -> well_formed db.
Proof.
  induction 1 as [| db db' _ IH Hstep].
  - exact empty_db_well_formed.
  - exact (write_step_well_formed db db' IH Hstep).
Qed.

Lemma sample_db_well_formed : well_formed Sample.db.
Proof.
  constructor; simpl.
  - repeat constructor; simpl; intuition discriminate.
  - repeat constructor; simpl; intuition discriminate.
  - repeat constructor; simpl; intuition discriminate.
  - intros c [<- | [<- | [<- | []]]]; simpl; lia.
  - intros t [<- | [<- | [<- | []]]]; simpl; lia.
  - intros b [<- | [<- | [<- | []]]]; simpl; lia.
  - intros t k [<- | [<- | [<- | []]]]; simpl; intros E;
      try discriminate; injection E as <-.
    + exists Sample.groceries. simpl. tauto.
    + exists Sample.rent. simpl. tauto.
  - intros b [<- | [<- | [<- | []]]]; simpl.
    + exists Sample.groceries. simpl. tauto.
    + exists Sample.groceries. simpl. tauto.
    + exists Sample.rent. simpl. tauto.
Qed.

(** C1: on a well-formed database, and so on every database the
    endpoints can produce, for two distinct users [a] and [b] and each of
    the category, transaction and budget endpoints: what [a] lists (on
    any page, and in the whole query set the pages are cut from) or
    retrieves is owned by [a]; retrieve, update and delete by [a] on the
    id of a row of [b] answer not-found; a successful update or delete by
    [a] leaves every row of [b] in every table as it was; and what [a]
    lists or retrieves is the same on any other well-formed database that
    holds the same rows of [a]. *)
Theorem user_isolation :
  forall (db : DB) (a b : user_id),
    a <> b -> well_formed db ->
    isolates category_endpoint db a b
    /\ isolates transaction_endpoint db a b
    /\ (forall current_year, isolates (budget_endpoint current_year) db a b).
Proof.
  intros db a b Hab Hwf. split; [| split].
  - now apply category_isolates.
  - now apply transaction_isolates.
  - intros cy. now apply budget_isolates.
Qed.

Lemma user_isolation_witness :
  isolates category_endpoint Sample.db Sample.alice Sample.bob
  /\ isolates transaction_endpoint Sample.db Sample.alice Sample.bob
  /\ (forall current_year,
         isolates (budget_endpoint current_year) Sample.db Sample.alice Sample.bob).
Proof.
  apply (user_isolation Sample.db Sample.alice Sample.bob).
  - discriminate.
  - exact sample_db_well_formed.
Defined.

Example bob_budget_not_found_for_alice :
  BudgetViewSet.retrieve Sample.db Sample.alice BudgetViewSet.no_filter 3
  = Raise Http404
  /\ BudgetViewSet.destroy Sample.db Sample.alice BudgetViewSet.no_filter 3
     = Raise Http404
  /\ is_ok (BudgetViewSet.retrieve Sample.db Sample.bob BudgetViewSet.no_filter 3)
     = true.
Proof. repeat split; vm_compute; reflexivity. Qed.

(** ** Tokens *)

Lemma token_get_ok db u t :
  TokenManager.get db u = Ok t -> TokenManager.of_user db u = [t].
Proof.
  unfold TokenManager.get.
  destruct (TokenManager.of_user db u) as [| t0 [| t1 l]]; try discriminate.
  intros H. now injection H as <-.
Qed.

Lemma token_get_does_not_exist db u :
  TokenManager.get db u = Raise DoesNotExist -> TokenManager.of_user db u = [].
Proof.
  unfold TokenManager.get.
  destruct (TokenManager.of_user db u) as [| t0 [| t1 l]]; try discriminate.
  reflexivity.
Qed.

Lemma token_create_ok db u key now db' t :
  TokenManager.create db u key now = Ok (db', t) ->
  t = Token.Build key u now
  /\ db' = Build_AuthDB (users db) (tokens db ++ [t]) (user_seq db)
  /\ TokenManager.of_user db u = []
  /\ unused_key db key.
Proof.
  unfold TokenManager.create.
  destruct (existsb _ (tokens db)) eqn:E; [discriminate |].
  intros H. injection H as <- <-. repeat split.
  - unfold TokenManager.of_user.
    destruct (filter (fun t => Token.user t =? u) (tokens db)) as [| t l] eqn:F;
      [reflexivity |].
    assert (Hin : In t (filter (fun t => Token.user t =? u) (tokens db)))
      by (rewrite F; now left).
    apply filter_In in Hin. destruct Hin as [Hin Hu].
    assert (Hex : existsb (fun t => String.eqb (Token.key t) key
                                    || (Token.user t =? u)) (tokens db) = true).
    { apply existsb_exists. exists t. split; [exact Hin |].
      rewrite Hu. apply orb_true_r. }
    congruence.
  - intros Hin. apply in_map_iff in Hin. destruct Hin as (t & Hk & Hin).
    assert (Hex : existsb (fun t => String.eqb (Token.key t) key
                                    || (Token.user t =? u)) (tokens db) = true).
    { apply existsb_exists. exists t. split; [exact Hin |].
      rewrite Hk, String.eqb_refl. reflexivity. }
    congruence.
Qed.

Lemma of_user_app db ts u :
  TokenManager.of_user (Build_AuthDB (users db) (tokens db ++ ts) (user_seq db)) u
  = TokenManager.of_user db u ++ filter (fun t => Token.user t =? u) ts.
Proof. unfold TokenManager.of_user. simpl. apply filter_app. Qed.

Lemma filter_comm {A : Type} (f g : A -> bool) l :
  filter f (filter g l) = filter g (filter f l).
Proof.
  induction l as [| x l IH]; simpl; [reflexivity |].
  destruct (g x) eqn:G, (f x) eqn:F; simpl; rewrite ?G, ?F, IH; reflexivity.
Qed.

Lemma of_user_delete db t u :
  TokenManager.of_user (TokenManager.delete db t) u
  = filter (fun r => negb (String.eqb (Token.key r) (Token.key t)))
           (TokenManager.of_user db u).
Proof.
  unfold TokenManager.of_user, TokenManager.delete. simpl.
  apply filter_comm.
Qed.

Lemma filter_length_le {A : Type} (f : A -> bool) l :
  (List.length (filter f l) <= List.length l)%nat.
Proof.
  induction l as [| x l IH]; simpl; [lia |]. destruct (f x); simpl; lia.
Qed.

Lemma token_delete_invariant db t :
  one_token_per_user db -> one_token_per_user (TokenManager.delete db t).
Proof.
  intros H u. rewrite of_user_delete.
  eapply Nat.le_trans; [apply filter_length_le | apply H].
Qed.

Lemma token_create_invariant db u key now db' t :
  one_token_per_user db ->
  TokenManager.create db u key now = Ok (db', t) -> one_token_per_user db'.
Proof.
  intros H Hc. apply token_create_ok in Hc. destruct Hc as (-> & -> & He & _).
  intros u'. rewrite of_user_app. rewrite length_app. simpl.
  destruct (u =? u') eqn:E; simpl.
  - apply Z.eqb_eq in E. subst u'. rewrite He. simpl. lia.
  - specialize (H u'). lia.
Qed.

Lemma token_get_or_create_ok db u key now db' t :
  TokenManager.get_or_create db u key now = Ok (db', t) ->
  (TokenManager.of_user db u = [t] /\ db' = db)
  \/ (TokenManager.of_user db u = []
      /\ TokenManager.create db u key now = Ok (db', t)).
Proof.
  unfold TokenManager.get_or_create.
  destruct (TokenManager.get db u) as [t0 | e] eqn:G.
  - intros H. injection H as <- <-. left. split; [| reflexivity].
    now apply token_get_ok.
  - destruct e; try discriminate. intros H. right.
    split; [now apply token_get_does_not_exist | exact H].
Qed.

Lemma token_get_or_create_invariant db u key now db' t :
  one_token_per_user db ->
  TokenManager.get_or_create db u key now = Ok (db', t) ->
  one_token_per_user db'.
Proof.
  intros H Hg. apply token_get_or_create_ok in Hg.
  destruct Hg as [[_ ->] | [_ Hc]]; [exact H |].
  eapply token_create_invariant; eassumption.
Qed.

(** [get_or_create] adds no token for a user who has one. *)
Lemma token_get_or_create_keeps db x key now db' t u :
  TokenManager.get_or_create db x key now = Ok (db', t) ->
  TokenManager.of_user db u <> [] ->
  TokenManager.of_user db' u = TokenManager.of_user db u.
Proof.
  intros Hg Hu. apply token_get_or_create_ok in Hg.
  destruct Hg as [[_ ->] | [He Hc]]; [reflexivity |].
  apply token_create_ok in Hc. destruct Hc as (-> & -> & _ & _).
  rewrite of_user_app. simpl.
  destruct (x =? u) eqn:E; [| apply app_nil_r].
  apply Z.eqb_eq in E. subst x. contradiction.
Qed.

Lemma same_tokens_invariant db db' :
  tokens db' = tokens db -> one_token_per_user db -> one_token_per_user db'.
Proof.
  intros E H u. unfold TokenManager.of_user. rewrite E. apply H.
Qed.

Lemma same_tokens_of_user db db' u :
  tokens db' = tokens db ->
  TokenManager.of_user db' u = TokenManager.of_user db u.
Proof. intros E. unfold TokenManager.of_user. now rewrite E. Qed.

(** ** The views keep one token per user *)

Lemma Forall_last {A : Type} (P : A -> Prop) l d :
  Forall P l -> P d -> P (last l d).
Proof.
  induction l as [| x [| y l] IH]; intros Hl Hd; simpl.
  - exact Hd.
  - now inversion Hl.
  - apply IH; [now inversion Hl | exact Hd].
Qed.

Section Views.
Context {S : AuthSettings}.

Lemma registration_save_tokens db d :
  tokens (fst (UserRegistrationSerializer.save db d)) = tokens db.
Proof. reflexivity. Qed.

Lemma registration_invariant db d key now :
  one_token_per_user db ->
  Forall one_token_per_user (fst (UserRegistrationView.post db d key now)).
Proof.
  intros H. unfold UserRegistrationView.post.
  destruct (UserRegistrationSerializer.is_valid db d) as [vd | e];
    [| constructor].
  destruct (UserRegistrationSerializer.save db vd) as [db1 user] eqn:Es.
  assert (H1 : one_token_per_user db1).
  { apply (same_tokens_invariant db); [| exact H].
    change db1 with (fst (db1, user)). rewrite <- Es. reflexivity. }
  destruct (TokenManager.get_or_create db1 (User.id user) key now)
    as [[db2 token] | e] eqn:G; simpl.
  - apply Forall_cons; [exact H1 |]. apply Forall_cons; [| apply Forall_nil].
    eapply token_get_or_create_invariant; eassumption.
  - apply Forall_cons; [exact H1 | apply Forall_nil].
Qed.

Lemma login_invariant db d key now :
  one_token_per_user db ->
  Forall one_token_per_user (fst (UserLoginView.post db d key now)).
Proof.
  intros H. unfold UserLoginView.post.
  destruct (UserLoginSerializer.is_valid db d) as [user | e];
    [| constructor].
  destruct (TokenManager.get_or_create db (User.id user) key now)
    as [[db1 token] | e] eqn:G; simpl; [| constructor].
  apply Forall_cons; [| apply Forall_nil].
  eapply token_get_or_create_invariant; eassumption.
Qed.

Lemma logout_invariant db user :
  one_token_per_user db ->
  Forall one_token_per_user (fst (UserLogoutView.post db user)).
Proof.
  intros H. unfold UserLogoutView.post.
  destruct (TokenManager.get db (User.id user)) as [token | e]; simpl.
  - apply Forall_cons; [| apply Forall_nil].
    now apply token_delete_invariant.
  - destruct e; apply Forall_nil.
Qed.

Lemma password_change_invariant db user d key now :
  one_token_per_user db ->
  Forall one_token_per_user (fst (PasswordChangeView.post db user d key now)).
Proof.
  intros H. unfold PasswordChangeView.post.
  destruct (PasswordChangeSerializer.is_valid user d) as [vd | e];
    [| constructor].
  set (db1 := PasswordChangeSerializer.save db user vd).
  assert (H1 : one_token_per_user db1)
    by (apply (same_tokens_invariant db); [reflexivity | exact H]).
  destruct (TokenManager.get db1 (User.id user)) as [old | e]; simpl;
    [| apply Forall_cons; [exact H1 | apply Forall_nil]].
  assert (H2 : one_token_per_user (TokenManager.delete db1 old))
    by now apply token_delete_invariant.
  destruct (TokenManager.create (TokenManager.delete db1 old) (User.id user)
              key now) as [[db3 new_token] | e] eqn:C; simpl.
  - apply Forall_cons; [exact H1 |]. apply Forall_cons; [exact H2 |].
    apply Forall_cons; [| apply Forall_nil].
    eapply token_create_invariant; eassumption.
  - apply Forall_cons; [exact H1 |].
    apply Forall_cons; [exact H2 | apply Forall_nil].
Qed.

Lemma handle_invariant db r :
  one_token_per_user db -> Forall one_token_per_user (fst (handle db r)).
Proof.
  intros H. destruct r as [d key now | d key now | user | user d key now];
    simpl.
  - now apply registration_invariant.
  - now apply login_invariant.
  - now apply logout_invariant.
  - now apply password_change_invariant.
Qed.

(** From a state with one token per user at most, every state the
    requests write has one token per user at most. *)
Lemma visited_invariant rs :
  forall db, one_token_per_user db ->
             Forall one_token_per_user (visited db rs).
Proof.
  induction rs as [| r rs IH]; intros db H; simpl; [constructor |].
  pose proof (handle_invariant db r H) as Hr.
  apply Forall_app. split; [exact Hr |].
  apply IH. unfold final. now apply Forall_last.
Qed.

Lemma registration_keeps_tokens db d key now u db' :
  TokenManager.of_user db u <> [] ->
  In db' (fst (UserRegistrationView.post db d key now)) ->
  TokenManager.of_user db' u = TokenManager.of_user db u.
Proof.
  intros Hu. unfold UserRegistrationView.post.
  destruct (UserRegistrationSerializer.is_valid db d) as [vd | e];
    [| intros []].
  destruct (UserRegistrationSerializer.save db vd) as [db1 user] eqn:Es.
  assert (E1 : forall v, TokenManager.of_user db1 v = TokenManager.of_user db v).
  { intros v. apply same_tokens_of_user.
    change db1 with (fst (db1, user)). rewrite <- Es. reflexivity. }
  destruct (TokenManager.get_or_create db1 (User.id user) key now)
    as [[db2 token] | e] eqn:G; simpl.
  - intros [<- | [<- | []]]; [apply E1 |].
    rewrite <- E1. eapply token_get_or_create_keeps; [exact G |].
    now rewrite E1.
  - intros [<- | []]. apply E1.
Qed.

Lemma login_keeps_tokens db d key now u db' :
  TokenManager.of_user db u <> [] ->
  In db' (fst (UserLoginView.post db d key now)) ->
  TokenManager.of_user db' u = TokenManager.of_user db u.
Proof.
  intros Hu. unfold UserLoginView.post.
  destruct (UserLoginSerializer.is_valid db d) as [user | e];
    [| intros []].
  destruct (TokenManager.get_or_create db (User.id user) key now)
    as [[db1 token] | e] eqn:G; simpl; [| intros []].
  intros [<- | []]. eapply token_get_or_create_keeps; eassumption.
Qed.
End Views.

(** ** Password change *)

Lemma find_is_none {A : Type} (f : A -> bool) l :
  (forall x, In x l -> f x = false) -> find f l = None.
Proof.
  intros H. destruct (find f l) as [x |] eqn:E; [| reflexivity].
  apply find_some in E. destruct E as [Hin E]. rewrite (H x Hin) in E.
  discriminate.
Qed.

Lemma get_pk_save_pk {T : Type} (key : T -> Z) l row r :
  In r l -> key r = key row -> get_pk key (save_pk key l row) (key row) = Some row.
Proof.
  unfold get_pk, save_pk. induction l as [| x l IH]; simpl; [intros [] |].
  intros [-> | Hin] E.
  - rewrite E, Z.eqb_refl. simpl. now rewrite Z.eqb_refl.
  - destruct (key x =? key row) eqn:Ex; simpl.
    + now rewrite Z.eqb_refl.
    + rewrite Ex. now apply IH.
Qed.

Section PasswordChange.
Context {S : AuthSettings}.

Lemma password_change_valid user d :
  check_password (PasswordChangeSerializer.old_password d) (User.password user)
  = true ->
  validate_password (PasswordChangeSerializer.new_password d) = true ->
  PasswordChangeSerializer.is_valid user d = Ok d.
Proof.
  intros H1 H2. unfold PasswordChangeSerializer.is_valid,
    PasswordChangeSerializer.errors. now rewrite H1, H2.
Qed.

Lemma password_change_invalid user d :
  check_password (PasswordChangeSerializer.old_password d) (User.password user)
  = false
  \/ validate_password (PasswordChangeSerializer.new_password d) = false ->
  exists errs,
    errs <> []
    /\ PasswordChangeSerializer.is_valid user d = Raise (ValidationError errs).
Proof.
  intros H. unfold PasswordChangeSerializer.is_valid.
  destruct (PasswordChangeSerializer.errors user d) as [| e errs] eqn:E.
  - exfalso. unfold PasswordChangeSerializer.errors in E.
    destruct H as [H | H]; rewrite H in E; simpl in E.
    + discriminate.
    + destruct (negb (check_password _ _)); discriminate.
  - exists (e :: errs). split; [discriminate | reflexivity].
Qed.

Lemma password_change_is_valid_ok user d vd :
  PasswordChangeSerializer.is_valid user d = Ok vd ->
  vd = d
  /\ check_password (PasswordChangeSerializer.old_password d)
                    (User.password user) = true
  /\ validate_password (PasswordChangeSerializer.new_password d) = true.
Proof.
  unfold PasswordChangeSerializer.is_valid, PasswordChangeSerializer.errors.
  destruct (check_password _ _); simpl; [| discriminate].
  destruct (validate_password _); simpl; [| discriminate].
  intros H. injection H as <-. auto.
Qed.

(** The shape of a successful password change. *)
Lemma password_change_success db user d key now states msg tok errs :
  PasswordChangeView.post db user d key now
  = (states, Response 200 msg (Some tok) errs) ->
  exists old,
    let db1 := PasswordChangeSerializer.save db user d in
    let db2 := TokenManager.delete db1 old in
    let new_token := Token.Build key (User.id user) now in
    let db3 := Build_AuthDB (users db1) (tokens db2 ++ [new_token])
                            (user_seq db1) in
    PasswordChangeSerializer.is_valid user d = Ok d
    /\ TokenManager.of_user db (User.id user) = [old]
    /\ states = [db1; db2; db3]
    /\ tok = key
    /\ unused_key db2 key.
Proof.
  unfold PasswordChangeView.post.
  destruct (PasswordChangeSerializer.is_valid user d) as [vd | e] eqn:V;
    [| intros H; discriminate].
  apply password_change_is_valid_ok in V. destruct V as (-> & V1 & V2).
  destruct (TokenManager.get (PasswordChangeSerializer.save db user d)
              (User.id user)) as [old | e] eqn:G; [| intros H; discriminate].
  destruct (TokenManager.create
              (TokenManager.delete (PasswordChangeSerializer.save db user d) old)
              (User.id user) key now) as [[db3 new_token] | e] eqn:C;
    [| intros H; discriminate].
  intros H. injection H as <- _ <-.
  apply token_get_ok in G. apply token_create_ok in C.
  destruct C as (-> & -> & _ & Hfresh).
  exists old. simpl. repeat split; try assumption; try reflexivity.
Qed.

Lemma password_change_final_tokens db user d key now old :
  TokenManager.of_user db (User.id user) = [old] ->
  let db1 := PasswordChangeSerializer.save db user d in
  let db2 := TokenManager.delete db1 old in
  let new_token := Token.Build key (User.id user) now in
  let db3 := Build_AuthDB (users db1) (tokens db2 ++ [new_token])
                          (user_seq db1) in
  TokenManager.of_user db2 (User.id user) = []
  /\ TokenManager.of_user db3 (User.id user) = [new_token].
Proof.
  intros Hold db1 db2 new_token db3.
  assert (E2 : TokenManager.of_user db2 (User.id user) = []).
  { unfold db2. rewrite of_user_delete.
    replace (TokenManager.of_user db1 (User.id user)) with [old]
      by (symmetry; exact Hold).
    simpl. now rewrite String.eqb_refl. }
  split; [exact E2 |].
  change db3 with (Build_AuthDB (users db2) (tokens db2 ++ [new_token])
                                (user_seq db2)).
  rewrite of_user_app, E2. simpl. now rewrite Z.eqb_refl.
Qed.
End PasswordChange.

Lemma empty_auth_db_invariant : one_token_per_user empty_auth_db.
Proof. intros u. simpl. lia. Qed.

(** C3: starting from the empty identity store, every state written
    while any sequence of Register, Login, ChangePassword and Logout
    requests is served has at most one token per user (from any state
    with that property, too); Register and Login leave the tokens of a
    user who has one as they are in every state they write; and a
    successful ChangePassword starts from the single token of the user
    and ends with exactly one token of the user, the new one. *)
Theorem one_live_token_per_user :
  forall (S : AuthSettings),
    (forall rs,
        Forall one_token_per_user (empty_auth_db :: visited empty_auth_db rs))
    /\ (forall db rs,
           one_token_per_user db -> Forall one_token_per_user (visited db rs))
    /\ (forall db d key now u db',
           TokenManager.of_user db u <> [] ->
           In db' (fst (UserRegistrationView.post db d key now)) ->
           TokenManager.of_user db' u = TokenManager.of_user db u)
    /\ (forall db d key now u db',
           TokenManager.of_user db u <> [] ->
           In db' (fst (UserLoginView.post db d key now)) ->
           TokenManager.of_user db' u = TokenManager.of_user db u)
    /\ (forall db user d key now states msg tok errs,
           PasswordChangeView.post db user d key now
           = (states, Response 200 msg (Some tok) errs) ->
           exists old,
             TokenManager.of_user db (User.id user) = [old]
             /\ TokenManager.of_user
                  (final db (states, Response 200 msg (Some tok) errs))
                  (User.id user)
                = [Token.Build key (User.id user) now]).
Proof.
  intros S. repeat apply conj.
  - intros rs. apply Forall_cons; [exact empty_auth_db_invariant |].
    apply visited_invariant. exact empty_auth_db_invariant.
  - intros db rs H. now apply visited_invariant.
  - intros db d key now u db'. apply registration_keeps_tokens.
  - intros db d key now u db'. apply login_keeps_tokens.
  - intros db user d key now states msg tok errs H.
    apply password_change_success in H.
    destruct H as (old & _ & Hold & -> & -> & _).
    exists old. split; [exact Hold |].
    unfold final. simpl fst. simpl last.
    now apply password_change_final_tokens.
Qed.

Lemma one_live_token_per_user_witness :
  Forall one_token_per_user
    (@visited AuthSample.settings empty_auth_db
       [Register (UserRegistrationSerializer.Data "bob" "bob@example.org"
                    "long password" "Bob" "B") "key-1" 1;
        Login (UserLoginSerializer.Data "bob" "long password") "key-2" 2;
        ChangePassword (User.Build 1 "bob" "bob@example.org" "sha:long password"
                          "Bob" "B" true)
          (PasswordChangeSerializer.Data "long password" "longer password")
          "key-3" 3])
  /\ tokens
       (@serve AuthSample.settings empty_auth_db
          [Register (UserRegistrationSerializer.Data "bob" "bob@example.org"
                       "long password" "Bob" "B") "key-1" 1;
           Login (UserLoginSerializer.Data "bob" "long password") "key-2" 2;
           ChangePassword (User.Build 1 "bob" "bob@example.org"
                             "sha:long password" "Bob" "B" true)
             (PasswordChangeSerializer.Data "long password" "longer password")
             "key-3" 3])
     = [Token.Build "key-3" 1 3].
Proof.
  split; [| reflexivity].
  destruct (one_live_token_per_user AuthSample.settings) as (_ & H & _).
  apply H. exact empty_auth_db_invariant.
Defined.

(** C7, as stated, fails: the key of the new token is whatever
    [generate_key] draws, and the view does not compare it with the key
    of the token it has just deleted.  When the draw repeats the old key,
    the change succeeds, the token returned has the key of the old one,
    and the old key authenticates as before. *)
Lemma password_change_same_key_counterexample :
  TokenManager.get AuthSample.db (User.id AuthSample.alice)
  = Ok (Token.Build "key-1" 1 50)
  /\ snd (@PasswordChangeView.post AuthSample.settings AuthSample.db
            AuthSample.alice
            (PasswordChangeSerializer.Data "correct horse" "battery staple")
            "key-1" 60)
     = Response 200 "Password changed successfully" (Some "key-1") []
  /\ TokenManager.authenticate
       (@final AuthSample.db
          (@PasswordChangeView.post AuthSample.settings AuthSample.db
             AuthSample.alice
             (PasswordChangeSerializer.Data "correct horse" "battery staple")
             "key-1" 60))
       "key-1"
     = Some 1.
Proof. split; [reflexivity | split; reflexivity]. Qed.

(** C7 (amended): a successful password change (the old password then
    verifies) deletes the token the user had, creates a token with the
    key drawn and returns that key, and stores the new password; the
    tokens are then those of before without the old one, followed by the
    new one.  When the key drawn differs from the old key, the old token
    is gone, the returned key differs from the old key and the old key no
    longer authenticates.  When the old password is wrong or the new one
    fails the policy, the view answers with the validation errors and
    writes nothing, so the stored password and the token stay. *)
Theorem password_change_rotates_token :
  forall (S : AuthSettings) (db : AuthDB) (user : User.t)
         (d : PasswordChangeSerializer.data) (key : string) (now : Z),
    (forall states msg tok errs,
        PasswordChangeView.post db user d key now
        = (states, Response 200 msg (Some tok) errs) ->
        let db' := final db (states, Response 200 msg (Some tok) errs) in
        check_password (PasswordChangeSerializer.old_password d)
                       (User.password user) = true
        /\ exists old,
             TokenManager.get db (User.id user) = Ok old
             /\ tokens db'
                = filter (fun r => negb (String.eqb (Token.key r) (Token.key old)))
                         (tokens db)
                  ++ [Token.Build key (User.id user) now]
             /\ TokenManager.get db' (User.id user)
                = Ok (Token.Build key (User.id user) now)
             /\ tok = key
             /\ (forall row,
                    In row (users db) -> User.id row = User.id user ->
                    stored_password db' (User.id user)
                    = Some (make_password
                              (PasswordChangeSerializer.new_password d)))
             /\ (key <> Token.key old ->
                 ~ In old (tokens db')
                 /\ tok <> Token.key old
                 /\ TokenManager.authenticate db' (Token.key old) = None))
    /\ (check_password (PasswordChangeSerializer.old_password d)
                       (User.password user) = false
        \/ validate_password (PasswordChangeSerializer.new_password d) = false ->
        exists errs,
          errs <> []
          /\ PasswordChangeView.post db user d key now
             = ([], Response 400 "Validation failed" None errs)
          /\ final db (PasswordChangeView.post db user d key now) = db).
Proof.
  intros S db user d key now. split.
  - intros states msg tok errs H db'.
    apply password_change_success in H.
    destruct H as (old & Hvalid & Hold & Hst & -> & _).
    apply password_change_is_valid_ok in Hvalid.
    destruct Hvalid as (_ & Hcheck & _). split; [exact Hcheck |].
    subst states.
    assert (Hnew : TokenManager.of_user db' (User.id user)
                   = [Token.Build key (User.id user) now])
      by exact (proj2 (password_change_final_tokens db user d key now old Hold)).
    exists old. split; [| split; [| split; [| split; [| split]]]].
    + unfold TokenManager.get. now rewrite Hold.
    + reflexivity.
    + unfold TokenManager.get. now rewrite Hnew.
    + reflexivity.
    + intros row Hrow Hid.
      pose proof (get_pk_save_pk User.id (users db)
                    (User.set_password
                       (make_password (PasswordChangeSerializer.new_password d))
                       user)
                    row Hrow Hid) as G.
      unfold stored_password.
      change (get_pk User.id (users db') (User.id user))
        with (get_pk User.id
                (save_pk User.id (users db)
                   (User.set_password
                      (make_password (PasswordChangeSerializer.new_password d))
                      user))
                (User.id (User.set_password
                            (make_password
                               (PasswordChangeSerializer.new_password d))
                            user))).
      rewrite G. reflexivity.
    + intros Hne.
      assert (Hkeys : forall x, In x (tokens db') ->
                                String.eqb (Token.key x) (Token.key old) = false).
      { intros x Hx. unfold db', final in Hx. simpl in Hx.
        apply in_app_or in Hx. destruct Hx as [Hx | [<- | []]].
        - apply filter_In in Hx. destruct Hx as [_ Hx].
          now apply negb_true_iff in Hx.
        - simpl. now apply String.eqb_neq. }
      split; [| split].
      * intros Hx. apply Hkeys in Hx. rewrite String.eqb_refl in Hx.
        discriminate.
      * exact Hne.
      * unfold TokenManager.authenticate. now rewrite (find_is_none _ _ Hkeys).
  - intros H. apply password_change_invalid in H. destruct H as (errs & Hne & H).
    exists errs. unfold PasswordChangeView.post. rewrite H. simpl. auto.
Qed.

Lemma password_change_rotates_token_witness :
  (exists states msg errs,
      @PasswordChangeView.post AuthSample.settings AuthSample.db
        AuthSample.alice
        (PasswordChangeSerializer.Data "correct horse" "battery staple")
        "key-2" 60 = (states, Response 200 msg (Some "key-2") errs)
      /\ "key-2" <> "key-1"
      /\ TokenManager.authenticate (last states AuthSample.db) "key-1" = None)
  /\ @final AuthSample.db
       (@PasswordChangeView.post AuthSample.settings AuthSample.db
          AuthSample.alice
          (PasswordChangeSerializer.Data "wrong horse" "battery staple")
          "key-2" 60) = AuthSample.db.
Proof.
  destruct (password_change_rotates_token AuthSample.settings AuthSample.db
              AuthSample.alice
              (PasswordChangeSerializer.Data "correct horse" "battery staple")
              "key-2" 60) as [Hok _].
  destruct (password_change_rotates_token AuthSample.settings AuthSample.db
              AuthSample.alice
              (PasswordChangeSerializer.Data "wrong horse" "battery staple")
              "key-2" 60) as [_ Hbad].
  split.
  - do 3 eexists. split; [vm_compute; reflexivity |].
    destruct (Hok _ _ _ _ eq_refl)
      as (_ & old & Hget & _ & _ & _ & _ & Hrot).
    vm_compute in Hget. injection Hget as <-.
    destruct Hrot as (_ & Hne & Hauth); [discriminate |].
    split; [exact Hne | exact Hauth].
  - destruct Hbad as (errs & _ & _ & Hfinal); [left; reflexivity |].
    exact Hfinal.
Defined.

(** * Further properties of the code *)

(** ** Trimmed strings *)

Lemma lstrip_head s :
  Py.lstrip s = EmptyString
  \/ exists c r, Py.lstrip s = String c r /\ Py.isspace c = false.
Proof.
  induction s as [| c s IH]; simpl; [now left |].
  destruct (Py.isspace c) eqn:E; [exact IH |]. right. eauto.
Qed.

Lemma rstrip_idempotent s : Py.rstrip (Py.rstrip s) = Py.rstrip s.
Proof.
  induction s as [| c s IH]; simpl; [reflexivity |].
  destruct (Py.rstrip s) as [| c' r] eqn:E.
  - destruct (Py.isspace c) eqn:Hc; simpl; [reflexivity |]. now rewrite Hc.
  - simpl in *. now rewrite IH.
Qed.

Lemma rstrip_keeps_head c s :
  Py.isspace c = false -> exists r, Py.rstrip (String c s) = String c r.
Proof.
  intros Hc. simpl. destruct (Py.rstrip s); [rewrite Hc |]; eauto.
Qed.

Lemma strip_idempotent s : Py.strip (Py.strip s) = Py.strip s.
Proof.
  unfold Py.strip.
  assert (H : Py.lstrip (Py.rstrip (Py.lstrip s)) = Py.rstrip (Py.lstrip s)).
  { destruct (lstrip_head s) as [E | (c & r & E & Hc)]; rewrite E.
    - reflexivity.
    - destruct (rstrip_keeps_head c r Hc) as (r' & ->). simpl. now rewrite Hc. }
  rewrite H. apply rstrip_idempotent.
Qed.

Lemma strip_trimmed s : trimmed (Py.strip s).
Proof. apply strip_idempotent. Qed.

(** ** What an accepted field holds *)

Lemma char_field_validated n s v :
  char_field n s = Validated v ->
  v = Py.strip s /\ Py.len v <= n.
Proof.
  unfold char_field.
  destruct (String.eqb (Py.strip s) ""); [discriminate |].
  destruct (n <? Py.len (Py.strip s)) eqn:E; [discriminate |].
  destruct (has_null (Py.strip s)); [discriminate |].
  intros H. injection H as <-. apply Z.ltb_ge in E. auto.
Qed.

Lemma decimal_field_validated a v :
  decimal_field a = Validated v -> v = a /\ 1 < a < 10 ^ 10.
Proof.
  unfold decimal_field.
  destruct (10 ^ 10 <=? Z.abs a) eqn:E1; [discriminate |].
  destruct (a <=? 1) eqn:E2; [discriminate |].
  intros H. injection H as <-.
  apply Z.leb_gt in E1, E2. split; [reflexivity | lia].
Qed.

Lemma integer_field_validated lo hi n v :
  integer_field lo hi n = Validated v -> v = n /\ lo <= n <= hi.
Proof.
  unfold integer_field.
  destruct (hi <? n) eqn:E1; [discriminate |].
  destruct (n <? lo) eqn:E2; [discriminate |].
  intros H. injection H as <-.
  apply Z.ltb_ge in E1, E2. split; [reflexivity | lia].
Qed.

(** On a field that takes no null, an accepted value comes from a given
    entry. *)
Lemma run_validation_validated {A B : Type} partial required
    (f : A -> field_result B) (data : input A) v :
  Drf.run_validation partial required None f data = Validated v ->
  exists a, data = Given a /\ f a = Validated v.
Proof.
  destruct data as [| | a]; simpl.
  - destruct partial; [discriminate |]. destruct required; discriminate.
  - discriminate.
  - eauto.
Qed.

Lemma and_then_validated {A B : Type} (r : field_result A)
    (g : A -> field_result B) v :
  and_then r g = Validated v -> exists a, r = Validated a /\ g a = Validated v.
Proof. destruct r; simpl; try discriminate. eauto. Qed.

Lemma transaction_amount_validated partial d a :
  TransactionSerializer.amount_result partial d = Validated a -> 0 < a.
Proof.
  unfold TransactionSerializer.amount_result. intros H.
  apply and_then_validated in H. destruct H as (x & H & Hv).
  apply run_validation_validated in H. destruct H as (y & _ & H).
  apply decimal_field_validated in H. destruct H as [-> H].
  unfold TransactionSerializer.validate_amount in Hv.
  destruct (y <=? 0); [discriminate |]. injection Hv as <-. lia.
Qed.

Lemma transaction_description_validated partial d s :
  TransactionSerializer.description_result partial d = Validated s ->
  trimmed s /\ 2 <= Py.len s <= 255.
Proof.
  unfold TransactionSerializer.description_result. intros H.
  apply and_then_validated in H. destruct H as (x & H & Hv).
  apply run_validation_validated in H. destruct H as (y & _ & H).
  apply char_field_validated in H. destruct H as [-> Hlen].
  unfold TransactionSerializer.validate_description in Hv.
  rewrite strip_idempotent in Hv.
  destruct (Py.len (Py.strip y) <? 2) eqn:E; [discriminate |].
  injection Hv as <-. apply Z.ltb_ge in E.
  split; [apply strip_trimmed | lia].
Qed.

Lemma category_name_validated partial d s :
  category_name_result partial d = Validated s ->
  trimmed s /\ 2 <= Py.len s <= 100.
Proof.
  unfold category_name_result. intros H.
  apply and_then_validated in H. destruct H as (x & H & Hv).
  apply run_validation_validated in H. destruct H as (y & _ & H).
  apply char_field_validated in H. destruct H as [-> Hlen].
  unfold CategorySerializer.validate_name in Hv.
  rewrite strip_idempotent in Hv.
  destruct (Py.len (Py.strip y) <? 2) eqn:E; [discriminate |].
  injection Hv as <-. apply Z.ltb_ge in E.
  split; [apply strip_trimmed | lia].
Qed.

Lemma budget_amount_validated partial d a :
  BudgetSerializer.amount_result partial d = Validated a -> 0 < a.
Proof.
  unfold BudgetSerializer.amount_result. intros H.
  apply and_then_validated in H. destruct H as (x & H & Hv).
  apply run_validation_validated in H. destruct H as (y & _ & H).
  apply decimal_field_validated in H. destruct H as [-> H].
  unfold BudgetSerializer.validate_amount in Hv.
  destruct (y <=? 0); [discriminate |]. injection Hv as <-. lia.
Qed.

Lemma budget_month_validated partial d m :
  BudgetSerializer.month_result partial d = Validated m -> 1 <= m <= 12.
Proof.
  unfold BudgetSerializer.month_result. intros H.
  apply and_then_validated in H. destruct H as (x & H & Hv).
  apply run_validation_validated in H. destruct H as (y & _ & H).
  apply integer_field_validated in H. destruct H as [-> H].
  unfold BudgetSerializer.validate_month in Hv.
  destruct ((y <? 1) || (12 <? y)); [discriminate |]. now injection Hv as <-.
Qed.

Lemma budget_year_validated cy partial d y :
  BudgetSerializer.year_result cy partial d = Validated y ->
  2000 <= y <= 2100 /\ cy - 5 <= y <= cy + 5.
Proof.
  unfold BudgetSerializer.year_result. intros H.
  apply and_then_validated in H. destruct H as (x & H & Hv).
  apply run_validation_validated in H. destruct H as (z & _ & H).
  apply integer_field_validated in H. destruct H as [-> H].
  unfold BudgetSerializer.validate_year in Hv.
  destruct (z <? cy - 5) eqn:E1; [discriminate |].
  destruct (cy + 5 <? z) eqn:E2; [discriminate |].
  injection Hv as <-. apply Z.ltb_ge in E1, E2. lia.
Qed.

(** ** The row a write stores *)

Lemma category_run_validation_value partial d vd :
  CategorySerializer.run_validation partial d = Ok vd ->
  vd = CategorySerializer.ValidatedData
         (value_of (category_name_result partial d)) None
  /\ forall msg, category_name_result partial d <> Invalid msg.
Proof.
  unfold CategorySerializer.run_validation.
  fold (category_name_result partial d).
  destruct (category_name_result partial d); simpl; intros H;
    try discriminate; injection H as <-; split; try reflexivity;
    intros msg'; discriminate.
Qed.

Lemma category_name_not_skipped d :
  category_name_result false d <> SkipField.
Proof.
  unfold category_name_result, Drf.run_validation.
  destruct (CategorySerializer.name d) as [| | s]; simpl; try discriminate.
  unfold char_field.
  repeat match goal with
         | |- context [if ?c then _ else _] => destruct c; simpl
         end; try discriminate.
  unfold CategorySerializer.validate_name.
  destruct (Py.len (Py.strip (Py.strip s)) <? 2); discriminate.
Qed.

Lemma category_create_row db u now d db' row :
  CategoryViewSet.create db u now d = Ok (db', row) ->
  exists s,
    category_name_result false d = Validated s
    /\ row = Category.Build (category_seq db) s u now
    /\ category_conflict (categories db) (category_seq db) row = false
    /\ db' = Build_DB (categories db ++ [row]) (transactions db) (budgets db)
                      (category_seq db + 1) (transaction_seq db) (budget_seq db).
Proof.
  unfold CategoryViewSet.create. intros H.
  apply bind_ok in H. destruct H as (vd & Hv & H).
  apply category_run_validation_value in Hv. destruct Hv as [-> Hne].
  unfold CategorySerializer.create, CategorySerializer.model_create in H.
  simpl in H.
  destruct (category_name_result false d) as [| s | msg] eqn:E.
  - exfalso. now apply (category_name_not_skipped d).
  - simpl in H.
    match type of H with
    | (if ?c then _ else _) = _ => destruct c eqn:Hc; [discriminate |]
    end.
    injection H as <- <-. exists s. auto.
  - exfalso. now apply (Hne msg).
Qed.

Lemma category_update_row db u q k partial d db' row :
  CategoryViewSet.update db u q k partial d = Ok (db', row) ->
  exists instance,
    CategoryViewSet.get_object db u q k = Ok instance
    /\ row = Category.Build (Category.id instance)
               (or_else (value_of (category_name_result partial d))
                        (Category.name instance))
               (Category.user instance) (Category.created_at instance)
    /\ category_conflict (categories db) (Category.id instance) row = false
    /\ db' = Build_DB (save_pk Category.id (categories db) row)
                      (transactions db) (budgets db)
                      (category_seq db) (transaction_seq db) (budget_seq db).
Proof.
  unfold CategoryViewSet.update. intros H.
  apply bind_ok in H. destruct H as (instance & Hget & H).
  apply bind_ok in H. destruct H as (vd & Hv & H).
  apply category_run_validation_value in Hv. destruct Hv as [-> _].
  unfold CategorySerializer.update in H. simpl in H.
  match type of H with
  | (if ?c then _ else _) = _ => destruct c eqn:Hc; [discriminate |]
  end.
  injection H as <- <-. exists instance. auto.
Qed.

Lemma field_errors_nil_transaction db u partial d :
  TransactionSerializer.field_errors db u partial d = [] ->
  forall msg,
    TransactionSerializer.category_result db u partial d <> Invalid msg
    /\ TransactionSerializer.amount_result partial d <> Invalid msg
    /\ TransactionSerializer.description_result partial d <> Invalid msg
    /\ TransactionSerializer.date_result partial d <> Invalid msg
    /\ TransactionSerializer.type_result partial d <> Invalid msg.
Proof.
  unfold TransactionSerializer.field_errors. intros H msg.
  repeat (apply app_eq_nil in H; destruct H as [?H H]).
  repeat split; intros E;
    match goal with
    | Hx : errors_of _ ?r = [], Ex : ?r = Invalid _ |- _ =>
        rewrite Ex in Hx; discriminate
    end.
Qed.

Lemma transaction_description_not_skipped d :
  TransactionSerializer.description_result false d <> SkipField.
Proof.
  unfold TransactionSerializer.description_result, Drf.run_validation.
  destruct (TransactionSerializer.description d) as [| | s]; simpl;
    try discriminate.
  unfold char_field.
  repeat match goal with
         | |- context [if ?c then _ else _] => destruct c; simpl
         end; try discriminate.
  unfold TransactionSerializer.validate_description.
  destruct (Py.len (Py.strip (Py.strip s)) <? 2); discriminate.
Qed.

Lemma transaction_create_row db u now d db' row :
  TransactionViewSet.create db u now d = Ok (db', row) ->
  exists a s dt,
    TransactionSerializer.amount_result false d = Validated a
    /\ TransactionSerializer.description_result false d = Validated s
    /\ TransactionSerializer.date_result false d = Validated dt
    /\ row = Transaction.Build (transaction_seq db) u
               (option_map Category.id
                  (or_else (value_of (TransactionSerializer.category_result
                                        db u false d)) None))
               a s dt
               (or_else (value_of (TransactionSerializer.type_result false d))
                        Transaction.default_transaction_type)
               now
    /\ db' = Build_DB (categories db) (transactions db ++ [row]) (budgets db)
                      (category_seq db) (transaction_seq db + 1) (budget_seq db).
Proof.
  unfold TransactionViewSet.create. intros H.
  apply bind_ok in H. destruct H as (vd & Hv & H).
  apply transaction_run_validation_ok in Hv. destruct Hv as [Herr ->].
  unfold TransactionSerializer.create, TransactionSerializer.model_create in H.
  simpl in H.
  destruct (value_of (TransactionSerializer.amount_result false d))
    as [a |] eqn:Ea; [| discriminate].
  destruct (value_of (TransactionSerializer.date_result false d))
    as [dt |] eqn:Ed; [| discriminate].
  destruct (TransactionSerializer.description_result false d)
    as [| s | msg] eqn:Es.
  - exfalso. now apply (transaction_description_not_skipped d).
  - injection H as <- <-. exists a, s, dt.
    repeat split; try (now apply value_of_some).
  - exfalso.
    destruct (field_errors_nil_transaction db u false d Herr msg)
      as (_ & _ & Hd & _). now apply Hd.
Qed.

Lemma transaction_update_row db u q k partial d db' row :
  TransactionViewSet.update db u q k partial d = Ok (db', row) ->
  exists instance,
    TransactionViewSet.get_object db u q k = Ok instance
    /\ row = Transaction.Build (Transaction.id instance)
               (Transaction.user instance)
               (match value_of (TransactionSerializer.category_result
                                  db u partial d) with
                | Some c => option_map Category.id c
                | None => Transaction.category instance
                end)
               (or_else (value_of (TransactionSerializer.amount_result partial d))
                        (Transaction.amount instance))
               (or_else (value_of (TransactionSerializer.description_result
                                     partial d))
                        (Transaction.description instance))
               (or_else (value_of (TransactionSerializer.date_result partial d))
                        (Transaction.date instance))
               (or_else (value_of (TransactionSerializer.type_result partial d))
                        (Transaction.transaction_type instance))
               (Transaction.created_at instance)
    /\ db' = Build_DB (categories db)
                      (save_pk Transaction.id (transactions db) row)
                      (budgets db)
                      (category_seq db) (transaction_seq db) (budget_seq db).
Proof.
  unfold TransactionViewSet.update. intros H.
  apply bind_ok in H. destruct H as (instance & Hget & H).
  apply bind_ok in H. destruct H as (vd & Hv & H).
  apply transaction_run_validation_ok in Hv. destruct Hv as [_ ->].
  unfold TransactionSerializer.update, TransactionSerializer.model_update in H.
  simpl in H. injection H as <- <-. exists instance. auto.
Qed.

Lemma budget_create_row db u cy now d db' row :
  BudgetViewSet.create db u cy now d = Ok (db', row) ->
  exists c a m y,
    BudgetSerializer.category_result db u false d = Validated c
    /\ BudgetSerializer.amount_result false d = Validated a
    /\ BudgetSerializer.month_result false d = Validated m
    /\ BudgetSerializer.year_result cy false d = Validated y
    /\ row = Budget.Build (budget_seq db) u (Category.id c) a m y now
    /\ budget_conflict (budgets db) (budget_seq db) row = false
    /\ db' = Build_DB (categories db) (transactions db) (budgets db ++ [row])
                      (category_seq db) (transaction_seq db) (budget_seq db + 1).
Proof.
  unfold BudgetViewSet.create. intros H.
  apply bind_ok in H. destruct H as (vd & Hv & H).
  apply budget_run_validation_ok in Hv. destruct Hv as [-> _].
  unfold BudgetSerializer.create, BudgetSerializer.model_create in H.
  simpl in H.
  destruct (value_of (BudgetSerializer.category_result db u false d))
    as [c |] eqn:Ec; [| discriminate].
  destruct (value_of (BudgetSerializer.amount_result false d))
    as [a |] eqn:Ea; [| discriminate].
  destruct (value_of (BudgetSerializer.month_result false d))
    as [m |] eqn:Em; [| discriminate].
  destruct (value_of (BudgetSerializer.year_result cy false d))
    as [y |] eqn:Ey; [| discriminate].
  match type of H with
  | (if ?c then _ else _) = _ => destruct c eqn:Hc; [discriminate |]
  end.
  injection H as <- <-. exists c, a, m, y.
  repeat split; try (now apply value_of_some). exact Hc.
Qed.

Lemma budget_update_row db u cy q k partial d db' row :
  BudgetViewSet.update db u cy q k partial d = Ok (db', row) ->
  exists instance,
    BudgetViewSet.get_object db u q k = Ok instance
    /\ row = Budget.Build (Budget.id instance) (Budget.user instance)
               (or_else (option_map Category.id
                           (value_of (BudgetSerializer.category_result
                                        db u partial d)))
                        (Budget.category instance))
               (or_else (value_of (BudgetSerializer.amount_result partial d))
                        (Budget.amount instance))
               (or_else (value_of (BudgetSerializer.month_result partial d))
                        (Budget.month instance))
               (or_else (value_of (BudgetSerializer.year_result cy partial d))
                        (Budget.year instance))
               (Budget.created_at instance)
    /\ budget_conflict (budgets db) (Budget.id instance) row = false
    /\ db' = Build_DB (categories db) (transactions db)
                      (save_pk Budget.id (budgets db) row)
                      (category_seq db) (transaction_seq db) (budget_seq db).
Proof.
  unfold BudgetViewSet.update. intros H.
  apply bind_ok in H. destruct H as (instance & Hget & H).
  apply bind_ok in H. destruct H as (vd & Hv & H).
  apply budget_run_validation_ok in Hv. destruct Hv as [-> _].
  unfold BudgetSerializer.update, BudgetSerializer.model_update in H.
  simpl in H.
  match type of H with
  | (if ?c then _ else _) = _ => destruct c eqn:Hc; [discriminate |]
  end.
  injection H as <- <-. exists instance. auto.
Qed.

(** ** Stored rows are valid *)

Lemma or_else_value {A : Type} (P : A -> Prop) (r : field_result A) (old : A) :
  (forall v, r = Validated v -> P v) -> P old -> P (or_else (value_of r) old).
Proof. destruct r; simpl; auto. Qed.

Lemma valid_rows_step db db' :
  valid_rows db -> write_step db db' -> valid_rows db'.
Proof.
  intros (Hc & Ht & Hb)
         [u now d row H | u q k partial d row H | u q k H
         | u now d row H | u q k partial d row H | u q k H
         | u cy now d row H | u cy q k partial d row H | u q k H].
  - apply category_create_row in H. destruct H as (s & Hs & -> & _ & ->).
    split; [| split]; simpl; try assumption.
    intros c Hin. apply in_app_or in Hin. destruct Hin as [Hin | [<- | []]].
    + now apply Hc.
    + now apply (category_name_validated false d).
  - apply category_update_row in H.
    destruct H as (instance & Hget & -> & _ & ->).
    apply category_get_object_In in Hget. destruct Hget as (Hin & _ & _).
    split; [| split]; simpl; try assumption.
    intros c Hc'. apply save_pk_inv in Hc'. destruct Hc' as [-> | [Hc' _]].
    + unfold valid_category. simpl.
      apply (or_else_value
               (fun s => trimmed s /\ 2 <= Py.len s <= 100)).
      * apply category_name_validated.
      * now apply Hc.
    + now apply Hc.
  - apply category_destroy_db in H. destruct H as (instance & _ & ->).
    split; [| split]; unfold delete_category; simpl.
    + intros c Hin. apply delete_pk_In in Hin. apply Hc. tauto.
    + intros t Hin. apply in_map_iff in Hin. destruct Hin as (t0 & <- & Hin).
      specialize (Ht t0 Hin).
      now destruct (opt_eqb (Transaction.category t0) (Category.id instance)).
    + intros b Hin. apply filter_In in Hin. apply Hb. tauto.
  - apply transaction_create_row in H.
    destruct H as (a & s & dt & Ha & Hs & _ & -> & ->).
    split; [| split]; simpl; try assumption.
    intros t Hin. apply in_app_or in Hin. destruct Hin as [Hin | [<- | []]].
    + now apply Ht.
    + split; simpl.
      * now apply (transaction_amount_validated false d).
      * now apply (transaction_description_validated false d).
  - apply transaction_update_row in H.
    destruct H as (instance & Hget & -> & ->).
    apply transaction_get_object_In in Hget. destruct Hget as (Hin & _ & _).
    split; [| split]; simpl; try assumption.
    intros t Ht'. apply save_pk_inv in Ht'. destruct Ht' as [-> | [Ht' _]].
    + destruct (Ht instance Hin) as (Ha & Hd). split; simpl.
      * apply (or_else_value (fun a => 0 < a)); [| exact Ha].
        apply transaction_amount_validated.
      * apply (or_else_value (fun s => trimmed s /\ 2 <= Py.len s <= 255));
          [| exact Hd].
        apply transaction_description_validated.
    + now apply Ht.
  - apply transaction_destroy_db in H. destruct H as (instance & _ & ->).
    split; [| split]; unfold delete_transaction; simpl; try assumption.
    intros t Hin. apply delete_pk_In in Hin. apply Ht. tauto.
  - apply budget_create_row in H.
    destruct H as (c & a & m & y & _ & Ha & Hm & Hy & -> & _ & ->).
    split; [| split]; simpl; try assumption.
    intros b Hin. apply in_app_or in Hin. destruct Hin as [Hin | [<- | []]].
    + now apply Hb.
    + split; [| split]; simpl.
      * now apply (budget_amount_validated false d).
      * now apply (budget_month_validated false d).
      * now apply (budget_year_validated cy false d).
  - apply budget_update_row in H.
    destruct H as (instance & Hget & -> & _ & ->).
    apply budget_get_object_In in Hget. destruct Hget as (Hin & _ & _).
    split; [| split]; simpl; try assumption.
    intros b Hb'. apply save_pk_inv in Hb'. destruct Hb' as [-> | [Hb' _]].
    + destruct (Hb instance Hin) as (Ha & Hm & Hy). split; [| split]; simpl.
      * apply (or_else_value (fun a => 0 < a)); [| exact Ha].
        apply budget_amount_validated.
      * apply (or_else_value (fun m => 1 <= m <= 12)); [| exact Hm].
        apply budget_month_validated.
      * apply (or_else_value (fun y => 2000 <= y <= 2100)); [| exact Hy].
        intros v Hv. now apply (budget_year_validated cy partial d).
    + now apply Hb.
  - apply budget_destroy_db in H. destruct H as (instance & _ & ->).
    split; [| split]; unfold delete_budget; simpl; try assumption.
    intros b Hin. apply delete_pk_In in Hin. apply Hb. tauto.
Qed.

(** X1: every row of a database the endpoints produce is valid: a
    category name is trimmed and 2 to 100 characters long, a transaction
    has a positive amount and a trimmed description of 2 to 255
    characters, and a budget has a positive amount, a month from 1 to 12
    and a year from 2000 to 2100. *)
Theorem stored_rows_are_valid :
  forall db : DB, reachable db -> valid_rows db.
Proof.
  induction 1 as [| db db' _ IH Hstep].
  - split; [| split]; intros ? [].
  - exact (valid_rows_step db db' IH Hstep).
Qed.

Lemma stored_rows_are_valid_witness :
  match TransactionViewSet.create empty_db 1 10
          (TransactionSerializer.Data Omitted Omitted (Given 1250)
             (Given "  Coffee ") (Given 19850) Omitted) with
  | Ok (db', row) =>
      valid_rows db' /\ Transaction.description row = "Coffee"
  | Raise _ => False
  end.
Proof.
  destruct (TransactionViewSet.create empty_db 1 10
              (TransactionSerializer.Data Omitted Omitted (Given 1250)
                 (Given "  Coffee ") (Given 19850) Omitted))
    as [[db' row] | e] eqn:E.
  - split.
    + apply stored_rows_are_valid.
      eapply reachable_step; [apply reachable_empty |].
      eapply transaction_created. exact E.
    + vm_compute in E. now injection E as <- <-.
  - vm_compute in E. discriminate.
Defined.

(** ** The unique constraints hold *)

Lemma category_conflict_false table self row r :
  category_conflict table self row = false ->
  In r table -> Category.id r <> self ->
  Category.name r = Category.name row -> Category.user r = Category.user row ->
  False.
Proof.
  unfold category_conflict. intros H Hin Hid Hn Hu.
  assert (E : existsb (fun r => negb (Category.id r =? self)
                                && String.eqb (Category.name r) (Category.name row)
                                && (Category.user r =? Category.user row))
                      table = true).
  { apply existsb_exists. exists r. split; [exact Hin |].
    apply Z.eqb_neq in Hid. rewrite Hid, Hn, Hu, String.eqb_refl, Z.eqb_refl.
    reflexivity. }
  congruence.
Qed.

Lemma budget_conflict_false table self row r :
  budget_conflict table self row = false ->
  In r table -> Budget.id r <> self ->
  Budget.user r = Budget.user row -> Budget.category r = Budget.category row ->
  Budget.month r = Budget.month row -> Budget.year r = Budget.year row ->
  False.
Proof.
  unfold budget_conflict. intros H Hin Hid Hu Hc Hm Hy.
  assert (E : existsb (fun r => negb (Budget.id r =? self)
                                && (Budget.user r =? Budget.user row)
                                && (Budget.category r =? Budget.category row)
                                && (Budget.month r =? Budget.month row)
                                && (Budget.year r =? Budget.year row))
                      table = true).
  { apply existsb_exists. exists r. split; [exact Hin |].
    apply Z.eqb_neq in Hid. rewrite Hid, Hu, Hc, Hm, Hy, !Z.eqb_refl.
    reflexivity. }
  congruence.
Qed.

Lemma unique_constraints_step db db' :
  categories_unique db /\ budgets_unique db -> write_step db db' ->
  categories_unique db' /\ budgets_unique db'.
Proof.
  intros (Hc & Hb)
         [u now d row H | u q k partial d row H | u q k H
         | u now d row H | u q k partial d row H | u q k H
         | u cy now d row H | u cy q k partial d row H | u q k H].
  - apply category_create_row in H. destruct H as (s & _ & Hrow & Hcf & ->).
    split; [| exact Hb]. intros c1 c2 H1 H2 Hn Hu. simpl in H1, H2.
    apply in_app_or in H1, H2.
    destruct H1 as [H1 | [<- | []]], H2 as [H2 | [<- | []]].
    + now apply Hc.
    + destruct (Z.eq_dec (Category.id c1) (category_seq db)) as [E | E].
      * rewrite E, Hrow. reflexivity.
      * exfalso. exact (category_conflict_false _ _ _ c1 Hcf H1 E Hn Hu).
    + destruct (Z.eq_dec (Category.id c2) (category_seq db)) as [E | E].
      * rewrite E, Hrow. reflexivity.
      * exfalso. symmetry in Hn, Hu.
        exact (category_conflict_false _ _ _ c2 Hcf H2 E Hn Hu).
    + reflexivity.
  - apply category_update_row in H.
    destruct H as (instance & _ & Hrow & Hcf & ->).
    split; [| exact Hb]. intros c1 c2 H1 H2 Hn Hu. simpl in H1, H2.
    assert (Hid : Category.id row = Category.id instance)
      by (rewrite Hrow; reflexivity).
    apply save_pk_inv in H1, H2. rewrite Hid in H1, H2.
    destruct H1 as [-> | [H1 E1]], H2 as [-> | [H2 E2]].
    + reflexivity.
    + exfalso. symmetry in Hn, Hu.
      exact (category_conflict_false _ _ _ c2 Hcf H2 E2 Hn Hu).
    + exfalso. exact (category_conflict_false _ _ _ c1 Hcf H1 E1 Hn Hu).
    + now apply Hc.
  - apply category_destroy_db in H. destruct H as (instance & _ & ->).
    split.
    + intros c1 c2 H1 H2. unfold delete_category in H1, H2. simpl in H1, H2.
      apply delete_pk_In in H1, H2. apply Hc; tauto.
    + intros b1 b2 H1 H2. unfold delete_category in H1, H2. simpl in H1, H2.
      apply filter_In in H1, H2. apply Hb; tauto.
  - apply transaction_create_db in H. destruct H as (_ & _ & _ & ->).
    split; assumption.
  - apply transaction_update_db in H.
    destruct H as (instance & _ & _ & _ & _ & ->). split; assumption.
  - apply transaction_destroy_db in H. destruct H as (instance & _ & ->).
    split; assumption.
  - apply budget_create_row in H.
    destruct H as (c & a & m & y & _ & _ & _ & _ & Hrow & Hcf & ->).
    split; [exact Hc |]. intros b1 b2 H1 H2 Hu Hca Hm Hy. simpl in H1, H2.
    apply in_app_or in H1, H2.
    destruct H1 as [H1 | [<- | []]], H2 as [H2 | [<- | []]].
    + now apply Hb.
    + destruct (Z.eq_dec (Budget.id b1) (budget_seq db)) as [E | E].
      * rewrite E, Hrow. reflexivity.
      * exfalso. exact (budget_conflict_false _ _ _ b1 Hcf H1 E Hu Hca Hm Hy).
    + destruct (Z.eq_dec (Budget.id b2) (budget_seq db)) as [E | E].
      * rewrite E, Hrow. reflexivity.
      * exfalso. symmetry in Hu, Hca, Hm, Hy.
        exact (budget_conflict_false _ _ _ b2 Hcf H2 E Hu Hca Hm Hy).
    + reflexivity.
  - apply budget_update_row in H.
    destruct H as (instance & _ & Hrow & Hcf & ->).
    split; [exact Hc |]. intros b1 b2 H1 H2 Hu Hca Hm Hy. simpl in H1, H2.
    assert (Hid : Budget.id row = Budget.id instance)
      by (rewrite Hrow; reflexivity).
    apply save_pk_inv in H1, H2. rewrite Hid in H1, H2.
    destruct H1 as [-> | [H1 E1]], H2 as [-> | [H2 E2]].
    + reflexivity.
    + exfalso. symmetry in Hu, Hca, Hm, Hy.
      exact (budget_conflict_false _ _ _ b2 Hcf H2 E2 Hu Hca Hm Hy).
    + exfalso. exact (budget_conflict_false _ _ _ b1 Hcf H1 E1 Hu Hca Hm Hy).
    + now apply Hb.
  - apply budget_destroy_db in H. destruct H as (instance & _ & ->).
    split; [exact Hc |].
    intros b1 b2 H1 H2. unfold delete_budget in H1, H2. simpl in H1, H2.
    apply delete_pk_In in H1, H2. apply Hb; tauto.
Qed.

(** X2: in every database the endpoints produce, no two categories of a
    user share a name and no two budgets of a user share category, month
    and year: rows that agree on these have the same primary key. *)
Theorem unique_constraints_hold :
  forall db : DB, reachable db -> categories_unique db /\ budgets_unique db.
Proof.
  induction 1 as [| db db' _ IH Hstep].
  - split; intros ? ? [].
  - exact (unique_constraints_step db db' IH Hstep).
Qed.

Lemma unique_constraints_hold_witness :
  match CategoryViewSet.create empty_db 1 10
          (CategorySerializer.Data (Given "Food") Omitted) with
  | Ok (db', row) =>
      (categories_unique db' /\ budgets_unique db')
      /\ CategoryViewSet.create db' 1 11
           (CategorySerializer.Data (Given " Food ") Omitted)
         = Raise IntegrityError
  | Raise _ => False
  end.
Proof.
  destruct (CategoryViewSet.create empty_db 1 10
              (CategorySerializer.Data (Given "Food") Omitted))
    as [[db' row] | e] eqn:E.
  - split.
    + apply unique_constraints_hold.
      eapply reachable_step; [apply reachable_empty |].
      eapply category_created. exact E.
    + vm_compute in E. injection E as <- <-. vm_compute. reflexivity.
  - vm_compute in E. discriminate.
Defined.

(** ** Duplicate category names *)

(** X3: [CategorySerializer] has no uniqueness check of its own: a create
    whose (trimmed) name the caller already uses passes validation and
    ends in [IntegrityError] from the unique constraint, not in a
    validation error; the same holds for an update that renames a category
    to the name of another category of the caller. *)
Theorem category_duplicate_name_is_integrity_error :
  forall (db : DB) (u : user_id) (now : Z) (d : CategorySerializer.data)
         (s : string) (existing : Category.t),
    category_name_result false d = Validated s ->
    In existing (categories db) ->
    Category.name existing = s -> Category.user existing = u ->
    Category.id existing <> category_seq db ->
    CategoryViewSet.create db u now d = Raise IntegrityError
    /\ (forall q k instance,
           CategoryViewSet.get_object db u q k = Ok instance ->
           Category.id existing <> k ->
           CategoryViewSet.update db u q k false d = Raise IntegrityError).
Proof.
  intros db u now d s existing Hs Hin Hn Hu Hid.
  assert (Hv : forall partial,
             category_name_result partial d = Validated s ->
             CategorySerializer.run_validation partial d
             = Ok (CategorySerializer.ValidatedData (Some s) None)).
  { intros partial E. unfold CategorySerializer.run_validation.
    fold (category_name_result partial d). now rewrite E. }
  assert (Hex : forall self row,
             Category.id existing <> self ->
             Category.name row = s -> Category.user row = u ->
             category_conflict (categories db) self row = true).
  { intros self row Hself Hrn Hru. unfold category_conflict.
    apply existsb_exists. exists existing. split; [exact Hin |].
    apply Z.eqb_neq in Hself.
    rewrite Hself, Hn, Hrn, Hu, Hru, String.eqb_refl, Z.eqb_refl. reflexivity. }
  split.
  - unfold CategoryViewSet.create. rewrite (Hv false Hs). simpl.
    unfold CategorySerializer.create, CategorySerializer.model_create. simpl.
    now rewrite Hex.
  - intros q k instance Hget Hk.
    unfold CategoryViewSet.update. rewrite Hget, (Hv false Hs). simpl.
    unfold CategorySerializer.update. simpl.
    apply category_get_object_In in Hget. destruct Hget as (_ & Hik & Hiu).
    rewrite Hex; [reflexivity | simpl; congruence | reflexivity | exact Hiu].
Qed.

Lemma category_duplicate_name_is_integrity_error_witness :
  CategoryViewSet.create Sample.db Sample.alice 300
    (CategorySerializer.Data (Given " Groceries ") Omitted)
  = Raise IntegrityError.
Proof.
  apply (category_duplicate_name_is_integrity_error Sample.db Sample.alice 300
           (CategorySerializer.Data (Given " Groceries ") Omitted)
           "Groceries" Sample.groceries).
  - vm_compute. reflexivity.
  - simpl. tauto.
  - reflexivity.
  - reflexivity.
  - discriminate.
Defined.

(** ** Writing, then reading *)

Lemma visible_get {T : Type} (own : T -> user_id) (flt : T -> bool)
    (leb : T -> T -> bool) (key : T -> Z) l a r :
  NoDup (map key l) -> In r l -> own r = a -> flt r = true ->
  get_object_or_404 key
    (order_by leb (filter flt (filter (fun r => own r =? a) l))) (key r)
  = Ok r.
Proof.
  intros Hnd Hin Ha Hf. unfold get_object_or_404.
  rewrite (get_pk_In key); [reflexivity | |].
  - eapply Permutation_NoDup;
      [apply Permutation_map, order_by_perm |].
    now apply NoDup_map_filter, NoDup_map_filter.
  - apply visible_In. auto.
Qed.

Lemma visible_gone {T : Type} (own : T -> user_id) (flt : T -> bool)
    (leb : T -> T -> bool) (key : T -> Z) l a k :
  (forall r, In r l -> key r <> k) ->
  get_object_or_404 key
    (order_by leb (filter flt (filter (fun r => own r =? a) l))) k
  = Raise Http404.
Proof.
  intros H. apply get_object_or_404_missing.
  intros r Hr. apply visible_In in Hr. apply H. tauto.
Qed.

(** X4: a transaction that a create returns is stored under a fresh
    primary key after the rows that were there, and a retrieve of that
    key by the same user (under any query the row passes) answers the
    row with the id and name of the category it was given, or null. *)
Theorem transaction_create_then_retrieve :
  forall (db db' : DB) (u : user_id) (now : Z)
         (d : TransactionSerializer.data) (row : Transaction.t)
         (q : TransactionViewSet.query),
    well_formed db ->
    TransactionViewSet.create db u now d = Ok (db', row) ->
    TransactionViewSet.passes db' q row = true ->
    transactions db' = transactions db ++ [row]
    /\ categories db' = categories db /\ budgets db' = budgets db
    /\ (forall t, In t (transactions db) -> Transaction.id t <> Transaction.id row)
    /\ TransactionViewSet.retrieve db' u q (Transaction.id row)
       = Ok (Build_TransactionRepr row
               (option_map (fun c => (Category.id c, Category.name c))
                  (or_else (value_of (TransactionSerializer.category_result
                                        db u false d)) None))).
Proof.
  intros db db' u now d row q Hwf H Hq.
  pose proof (transaction_create_well_formed db u now d db' row Hwf H) as Hwf'.
  apply transaction_create_db in H. destruct H as (Hid & Hu & Hcat & ->).
  simpl. repeat apply conj; try reflexivity.
  - intros t Ht. apply (wf_transaction_seq Hwf) in Ht. lia.
  - unfold TransactionViewSet.retrieve, TransactionViewSet.get_object,
      TransactionViewSet.filter_queryset, TransactionViewSet.get_queryset.
    rewrite (visible_get Transaction.user);
      [| exact (wf_transaction_pk Hwf') | simpl; apply in_or_app; right; now left
       | exact Hu | exact Hq].
    simpl. unfold transaction_to_representation. f_equal. f_equal.
    rewrite Hcat.
    destruct (value_of (TransactionSerializer.category_result db u false d))
      as [[c |] |] eqn:E; simpl; try reflexivity.
    apply value_of_some, transaction_category_validated in E.
    destruct E as [Hc _].
    now rewrite (get_pk_In Category.id (categories db) c (wf_category_pk Hwf) Hc).
Qed.

Lemma transaction_create_then_retrieve_witness :
  match TransactionViewSet.create Sample.db Sample.alice 200
          (TransactionSerializer.Data Omitted (Given 3) (Given 1250)
             (Given "Train") (Given 19850) (Given "EX")) with
  | Ok (db', row) =>
      TransactionViewSet.retrieve db' Sample.alice TransactionViewSet.no_filter
        (Transaction.id row)
      = Ok (Build_TransactionRepr row (Some (3, "Travel")))
  | Raise _ => False
  end.
Proof.
  destruct (TransactionViewSet.create Sample.db Sample.alice 200
              (TransactionSerializer.Data Omitted (Given 3) (Given 1250)
                 (Given "Train") (Given 19850) (Given "EX")))
    as [[db' row] | e] eqn:E.
  - destruct (transaction_create_then_retrieve Sample.db db' Sample.alice 200 _
                row TransactionViewSet.no_filter sample_db_well_formed E
                eq_refl) as (_ & _ & _ & _ & H).
    exact H.
  - vm_compute in E. discriminate.
Defined.

(** X5: a budget that a create returns is stored under a fresh primary
    key after the rows that were there, and a retrieve of that key by the
    same user (under any query the row passes) answers the row with the
    id and name of its category and with a month name (never null). *)
Theorem budget_create_then_retrieve :
  forall (db db' : DB) (u : user_id) (cy now : Z)
         (d : BudgetSerializer.data) (row : Budget.t) (q : BudgetViewSet.query),
    well_formed db ->
    BudgetViewSet.create db u cy now d = Ok (db', row) ->
    BudgetViewSet.passes db' q row = true ->
    budgets db' = budgets db ++ [row]
    /\ categories db' = categories db /\ transactions db' = transactions db
    /\ (forall b, In b (budgets db) -> Budget.id b <> Budget.id row)
    /\ exists c name,
         In c (categories db) /\ Category.id c = Budget.category row
         /\ Category.user c = u
         /\ BudgetViewSet.retrieve db' u q (Budget.id row)
            = Ok (Build_BudgetRepr row (Some (Category.id c, Category.name c))
                                   (Some name)).
Proof.
  intros db db' u cy now d row q Hwf H Hq.
  pose proof (budget_create_well_formed db u cy now d db' row Hwf H) as Hwf'.
  apply budget_create_row in H.
  destruct H as (c & a & m & y & Hc & _ & Hm & _ & Hrow & _ & ->).
  apply budget_category_validated in Hc. destruct Hc as [Hc Hcu].
  apply budget_month_validated in Hm.
  simpl. repeat apply conj; try reflexivity.
  - intros b Hb. apply (wf_budget_seq Hwf) in Hb. rewrite Hrow. simpl. lia.
  - assert (Hname : exists name, BudgetSerializer.month_names m = Some name).
    { destruct (Z.eq_dec m 1) as [-> | ?]; [simpl; eauto |].
      destruct (Z.eq_dec m 2) as [-> | ?]; [simpl; eauto |].
      destruct (Z.eq_dec m 3) as [-> | ?]; [simpl; eauto |].
      destruct (Z.eq_dec m 4) as [-> | ?]; [simpl; eauto |].
      destruct (Z.eq_dec m 5) as [-> | ?]; [simpl; eauto |].
      destruct (Z.eq_dec m 6) as [-> | ?]; [simpl; eauto |].
      destruct (Z.eq_dec m 7) as [-> | ?]; [simpl; eauto |].
      destruct (Z.eq_dec m 8) as [-> | ?]; [simpl; eauto |].
      destruct (Z.eq_dec m 9) as [-> | ?]; [simpl; eauto |].
      destruct (Z.eq_dec m 10) as [-> | ?]; [simpl; eauto |].
      destruct (Z.eq_dec m 11) as [-> | ?]; [simpl; eauto |].
      destruct (Z.eq_dec m 12) as [-> | ?]; [simpl; eauto |].
      lia. }
    destruct Hname as (name & Hname).
    exists c, name. repeat split; try assumption.
    + rewrite Hrow. reflexivity.
    + unfold BudgetViewSet.retrieve, BudgetViewSet.get_object,
        BudgetViewSet.filter_queryset, BudgetViewSet.get_queryset.
      rewrite (visible_get Budget.user);
        [| exact (wf_budget_pk Hwf') | simpl; apply in_or_app; right; now left
         | rewrite Hrow; reflexivity | exact Hq].
      simpl. unfold budget_to_representation. rewrite Hrow. simpl.
      rewrite (get_pk_In Category.id (categories db) c (wf_category_pk Hwf) Hc).
      simpl. now rewrite Hname.
Qed.

Lemma budget_create_then_retrieve_witness :
  match BudgetViewSet.create Sample.db Sample.alice 2025 200
          (BudgetSerializer.Data Omitted (Given 3) (Given 5000) (Given 5)
             (Given 2025)) with
  | Ok (db', row) =>
      exists c name,
        In c (categories Sample.db) /\ Category.id c = Budget.category row
        /\ Category.user c = Sample.alice
        /\ BudgetViewSet.retrieve db' Sample.alice BudgetViewSet.no_filter
             (Budget.id row)
           = Ok (Build_BudgetRepr row (Some (Category.id c, Category.name c))
                                  (Some name))
  | Raise _ => False
  end.
Proof.
  destruct (BudgetViewSet.create Sample.db Sample.alice 2025 200
              (BudgetSerializer.Data Omitted (Given 3) (Given 5000) (Given 5)
                 (Given 2025))) as [[db' row] | e] eqn:E.
  - destruct (budget_create_then_retrieve Sample.db db' Sample.alice 2025 200 _
                row BudgetViewSet.no_filter sample_db_well_formed E eq_refl)
      as (_ & _ & _ & _ & H).
    exact H.
  - vm_compute in E. discriminate.
Defined.

(** X6: a successful transaction update rewrites the row with the given
    key and nothing else: the keys of the table and every other row stay,
    the other tables stay, the row keeps key and owner, and a retrieve of
    the key by the owner answers the new row. *)
Theorem transaction_update_then_retrieve :
  forall (db db' : DB) (u : user_id) (q : TransactionViewSet.query) (k : Z)
         (partial : bool) (d : TransactionSerializer.data) (row : Transaction.t),
    well_formed db ->
    TransactionViewSet.update db u q k partial d = Ok (db', row) ->
    Transaction.id row = k /\ Transaction.user row = u
    /\ map Transaction.id (transactions db') = map Transaction.id (transactions db)
    /\ (forall t, Transaction.id t <> k ->
                  (In t (transactions db') <-> In t (transactions db)))
    /\ categories db' = categories db /\ budgets db' = budgets db
    /\ exists detail,
         TransactionViewSet.retrieve db' u TransactionViewSet.no_filter k
         = Ok (Build_TransactionRepr row detail).
Proof.
  intros db db' u q k partial d row Hwf H.
  pose proof (transaction_update_well_formed db u q k partial d db' row Hwf H)
    as Hwf'.
  apply transaction_update_db in H.
  destruct H as (instance & Hget & Hid & Hu & _ & ->).
  apply transaction_get_object_In in Hget. destruct Hget as (Hin & Hk & Hiu).
  simpl. repeat apply conj; try reflexivity; try congruence.
  - apply save_pk_keys.
  - intros t Ht. split; intros H.
    + apply save_pk_inv in H. destruct H as [-> | [H _]]; [| exact H].
      exfalso. apply Ht. congruence.
    + apply save_pk_other; [exact H | congruence].
  - eexists. unfold TransactionViewSet.retrieve, TransactionViewSet.get_object,
      TransactionViewSet.filter_queryset, TransactionViewSet.get_queryset.
    replace k with (Transaction.id row) by congruence.
    rewrite (visible_get Transaction.user);
      [| exact (wf_transaction_pk Hwf')
       | simpl; eapply save_pk_In; [exact Hin | now symmetry]
       | congruence | reflexivity].
    simpl. unfold transaction_to_representation. reflexivity.
Qed.

Lemma transaction_update_then_retrieve_witness :
  match TransactionViewSet.update Sample.db Sample.bob
          TransactionViewSet.no_filter 2 true
          (TransactionSerializer.Data Omitted Omitted (Given 260000) Omitted
             Omitted Omitted) with
  | Ok (db', row) =>
      Transaction.amount row = 260000
      /\ exists detail,
           TransactionViewSet.retrieve db' Sample.bob
             TransactionViewSet.no_filter 2
           = Ok (Build_TransactionRepr row detail)
  | Raise _ => False
  end.
Proof.
  destruct (TransactionViewSet.update Sample.db Sample.bob
              TransactionViewSet.no_filter 2 true
              (TransactionSerializer.Data Omitted Omitted (Given 260000) Omitted
                 Omitted Omitted)) as [[db' row] | e] eqn:E.
  - destruct (transaction_update_then_retrieve Sample.db db' Sample.bob _ 2 _ _
                row sample_db_well_formed E) as (_ & _ & _ & _ & _ & _ & H).
    split; [| exact H]. vm_compute in E. now injection E as <- <-.
  - vm_compute in E. discriminate.
Defined.

(** X7: after a successful delete of a category, transaction or budget,
    a retrieve, update or delete of the same key by the same user answers
    not-found, under any query. *)
Theorem destroy_then_not_found :
  forall (db db' : DB) (u : user_id) (k : Z),
    (forall q q' partial d,
        CategoryViewSet.destroy db u q k = Ok db' ->
        CategoryViewSet.retrieve db' u q' k = Raise Http404
        /\ CategoryViewSet.update db' u q' k partial d = Raise Http404
        /\ CategoryViewSet.destroy db' u q' k = Raise Http404)
    /\ (forall q q' partial d,
           TransactionViewSet.destroy db u q k = Ok db' ->
           TransactionViewSet.retrieve db' u q' k = Raise Http404
           /\ TransactionViewSet.update db' u q' k partial d = Raise Http404
           /\ TransactionViewSet.destroy db' u q' k = Raise Http404)
    /\ (forall q q' cy partial d,
           BudgetViewSet.destroy db u q k = Ok db' ->
           BudgetViewSet.retrieve db' u q' k = Raise Http404
           /\ BudgetViewSet.update db' u cy q' k partial d = Raise Http404
           /\ BudgetViewSet.destroy db' u q' k = Raise Http404).
Proof.
  intros db db' u k. split; [| split].
  - intros q q' partial d H. apply category_destroy_db in H.
    destruct H as (instance & Hget & ->).
    apply category_get_object_In in Hget. destruct Hget as (_ & Hk & _).
    assert (G : CategoryViewSet.get_object
                  (delete_category db (Category.id instance)) u q' k
                = Raise Http404).
    { unfold CategoryViewSet.get_object, CategoryViewSet.filter_queryset,
        CategoryViewSet.get_queryset.
      apply visible_gone. intros r Hr. unfold delete_category in Hr.
      simpl in Hr. apply delete_pk_In in Hr. rewrite <- Hk. tauto. }
    unfold CategoryViewSet.retrieve, CategoryViewSet.update,
      CategoryViewSet.destroy. rewrite G. auto.
  - intros q q' partial d H. apply transaction_destroy_db in H.
    destruct H as (instance & Hget & ->).
    apply transaction_get_object_In in Hget. destruct Hget as (_ & Hk & _).
    assert (G : TransactionViewSet.get_object
                  (delete_transaction db (Transaction.id instance)) u q' k
                = Raise Http404).
    { unfold TransactionViewSet.get_object, TransactionViewSet.filter_queryset,
        TransactionViewSet.get_queryset.
      apply visible_gone. intros r Hr. unfold delete_transaction in Hr.
      simpl in Hr. apply delete_pk_In in Hr. rewrite <- Hk. tauto. }
    unfold TransactionViewSet.retrieve, TransactionViewSet.update,
      TransactionViewSet.destroy. rewrite G. auto.
  - intros q q' cy partial d H. apply budget_destroy_db in H.
    destruct H as (instance & Hget & ->).
    apply budget_get_object_In in Hget. destruct Hget as (_ & Hk & _).
    assert (G : BudgetViewSet.get_object
                  (delete_budget db (Budget.id instance)) u q' k
                = Raise Http404).
    { unfold BudgetViewSet.get_object, BudgetViewSet.filter_queryset,
        BudgetViewSet.get_queryset.
      apply visible_gone. intros r Hr. unfold delete_budget in Hr.
      simpl in Hr. apply delete_pk_In in Hr. rewrite <- Hk. tauto. }
    unfold BudgetViewSet.retrieve, BudgetViewSet.update,
      BudgetViewSet.destroy. rewrite G. auto.
Qed.

Lemma destroy_then_not_found_witness :
  match BudgetViewSet.destroy Sample.db Sample.alice BudgetViewSet.no_filter 1 with
  | Ok db' =>
      BudgetViewSet.retrieve db' Sample.alice BudgetViewSet.no_filter 1
      = Raise Http404
  | Raise _ => False
  end.
Proof.
  destruct (BudgetViewSet.destroy Sample.db Sample.alice BudgetViewSet.no_filter 1)
    as [db' | e] eqn:E.
  - destruct (destroy_then_not_found Sample.db db' Sample.alice 1)
      as (_ & _ & H).
    destruct (H BudgetViewSet.no_filter BudgetViewSet.no_filter 2025 false
                (BudgetSerializer.Data Omitted Omitted Omitted Omitted Omitted) E)
      as (Hr & _).
    exact Hr.
  - vm_compute in E. discriminate.
Defined.

(** ** The order of the transaction list *)

Lemma transaction_ordering_spec db a b :
  OrderingFilter.leb (TransactionViewSet.sort_key db) TransactionViewSet.ordering
    a b = true
  <-> Transaction.date b <= Transaction.date a.
Proof.
  unfold OrderingFilter.leb. simpl.
  destruct (Z.compare_spec (Transaction.date b) (Transaction.date a));
    split; intros; try lia; try reflexivity; discriminate.
Qed.

Lemma transaction_ordering_total db a b :
  OrderingFilter.leb (TransactionViewSet.sort_key db) TransactionViewSet.ordering
    a b = true
  \/ OrderingFilter.leb (TransactionViewSet.sort_key db)
       TransactionViewSet.ordering b a = true.
Proof. rewrite !transaction_ordering_spec. lia. Qed.

Lemma transaction_ordering_trans db a b c :
  OrderingFilter.leb (TransactionViewSet.sort_key db) TransactionViewSet.ordering
    a b = true ->
  OrderingFilter.leb (TransactionViewSet.sort_key db) TransactionViewSet.ordering
    b c = true ->
  OrderingFilter.leb (TransactionViewSet.sort_key db) TransactionViewSet.ordering
    a c = true.
Proof. rewrite !transaction_ordering_spec. lia. Qed.

(** X9: for every user, filter and search, when the request names no
    valid ordering field, the query set that the transaction list pages
    through holds exactly the user's transactions that pass the filter
    and the search, newest date first.  Every page the list answers is a
    run of consecutive rows of it, newest first, with the size of the
    whole as [count], and the pages 1 to the last, one after the other,
    are the whole of it. *)
Theorem transaction_list_newest_first :
  forall (db : DB) (u : user_id) (q : TransactionViewSet.query),
    OrderingFilter.remove_invalid_fields TransactionViewSet.ordering_fields
      (TransactionViewSet.ordering_param q) = [] ->
    StronglySorted (fun a b => Transaction.date b <= Transaction.date a)
      (map tr_row (TransactionViewSet.listed db u q))
    /\ Permutation
         (filter (fun t => (Transaction.user t =? u)
                           && TransactionViewSet.passes db q t)
                 (transactions db))
         (map tr_row (TransactionViewSet.listed db u q))
    /\ (forall page_size page p,
           TransactionViewSet.list db u q page_size page = Ok p ->
           StandardResultsSetPagination.count p
           = Z.of_nat (List.length (TransactionViewSet.listed db u q))
           /\ (exists before after,
                  TransactionViewSet.listed db u q
                  = before ++ StandardResultsSetPagination.results p ++ after)
           /\ StronglySorted
                (fun a b => Transaction.date b <= Transaction.date a)
                (map tr_row (StandardResultsSetPagination.results p)))
    /\ (forall page_size,
           exists pages,
             map (fun n =>
                    TransactionViewSet.list db u q page_size
                      (StandardResultsSetPagination.PageNumber (Z.of_nat n)))
                 (seq 1 (Z.to_nat
                           (StandardResultsSetPagination.num_pages
                              (Z.of_nat
                                 (List.length (TransactionViewSet.listed db u q)))
                              (StandardResultsSetPagination.get_page_size
                                 page_size))))
             = map Ok pages
             /\ List.concat
                  (map (@StandardResultsSetPagination.results TransactionRepr)
                       pages)
                = TransactionViewSet.listed db u q).
Proof.
  intros db u q Hord.
  assert (E : map tr_row (TransactionViewSet.listed db u q)
              = TransactionViewSet.filter_queryset db q
                  (TransactionViewSet.get_queryset db u)).
  { unfold TransactionViewSet.listed. rewrite map_map. simpl. apply map_id. }
  assert (Hsorted : StronglySorted
                      (fun a b => Transaction.date b <= Transaction.date a)
                      (TransactionViewSet.filter_queryset db q
                         (TransactionViewSet.get_queryset db u))).
  { unfold TransactionViewSet.filter_queryset, OrderingFilter.get_ordering.
    rewrite Hord.
    eapply StronglySorted_impl;
      [| apply (order_by_sorted _ (transaction_ordering_total db)
                  (transaction_ordering_trans db))].
    intros a b. apply transaction_ordering_spec. }
  split; [rewrite E; exact Hsorted |].
  split; [| split].
  - rewrite E.
    unfold TransactionViewSet.filter_queryset, TransactionViewSet.get_queryset.
    eapply perm_trans; [| apply order_by_perm].
    induction (transactions db) as [| t l IH]; simpl; [constructor |].
    destruct (Transaction.user t =? u); simpl; [| exact IH].
    destruct (TransactionViewSet.passes db q t); [now constructor | exact IH].
  - intros page_size page p H. unfold TransactionViewSet.list in H.
    split; [| split].
    + destruct (list_ok _ _ _ _ _ H) as [Hc _]. rewrite Hc.
      unfold TransactionViewSet.listed. now rewrite length_map.
    + exact (list_window _ _ _ _ _ H).
    + destruct (list_window _ _ _ _ _ H) as (before & after & Hw).
      apply (f_equal (map tr_row)) in Hw.
      fold (TransactionViewSet.listed db u q) in Hw.
      rewrite E, !map_app in Hw. rewrite Hw in Hsorted.
      now apply StronglySorted_window in Hsorted.
  - intros page_size. unfold TransactionViewSet.list, TransactionViewSet.listed.
    rewrite length_map. apply list_pages.
Qed.

Lemma transaction_list_newest_first_witness :
  map tr_row
      (shown_rows
         (TransactionViewSet.list Sample.db Sample.bob
            TransactionViewSet.no_filter None
            StandardResultsSetPagination.PageAbsent))
  = [Sample.flat; Sample.salary]
  /\ StronglySorted (fun a b => Transaction.date b <= Transaction.date a)
       (map tr_row
          (TransactionViewSet.listed Sample.db Sample.bob
             TransactionViewSet.no_filter)).
Proof.
  split; [reflexivity |].
  exact (proj1 (transaction_list_newest_first Sample.db Sample.bob
                  TransactionViewSet.no_filter eq_refl)).
Defined.

(** ** Repeating an update *)

Lemma save_pk_idempotent {T : Type} (key : T -> Z) l row :
  save_pk key (save_pk key l row) row = save_pk key l row.
Proof.
  unfold save_pk. rewrite map_map. apply map_ext. intros r.
  destruct (key r =? key row) eqn:E; [now rewrite Z.eqb_refl | now rewrite E].
Qed.

Lemma or_else_or_else {A : Type} (o : option A) (x : A) :
  or_else o (or_else o x) = or_else o x.
Proof. now destruct o. Qed.

Lemma transaction_validation_same_categories db db1 u partial d :
  categories db1 = categories db ->
  TransactionSerializer.run_validation db1 u partial d
  = TransactionSerializer.run_validation db u partial d.
Proof.
  intros E. unfold TransactionSerializer.run_validation,
    TransactionSerializer.field_errors, TransactionSerializer.category_result.
  assert (F : forall k, TransactionSerializer.category_field db1 k
                        = TransactionSerializer.category_field db k).
  { intros k. unfold TransactionSerializer.category_field, category_pk_field.
    now rewrite E. }
  assert (G : forall x,
             Drf.run_validation partial false (Some None)
               (TransactionSerializer.category_field db1) x
             = Drf.run_validation partial false (Some None)
                 (TransactionSerializer.category_field db) x).
  { intros [| | k]; simpl; [reflexivity | reflexivity | apply F]. }
  now rewrite G.
Qed.

(** X10: repeating a successful transaction update with the same body
    (under a query the updated row still passes) changes nothing more: it
    succeeds again and returns the same row and the same database. *)
Theorem transaction_update_idempotent :
  forall (db db1 : DB) (u : user_id) (q : TransactionViewSet.query) (k : Z)
         (partial : bool) (d : TransactionSerializer.data) (row : Transaction.t),
    well_formed db ->
    TransactionViewSet.update db u q k partial d = Ok (db1, row) ->
    TransactionViewSet.passes db1 q row = true ->
    TransactionViewSet.update db1 u q k partial d = Ok (db1, row).
Proof.
  intros db db1 u q k partial d row Hwf H Hq.
  pose proof (transaction_update_well_formed db u q k partial d db1 row Hwf H)
    as Hwf1.
  pose proof H as H0. apply transaction_update_row in H.
  destruct H as (instance & Hget & Hrow & Hdb).
  apply transaction_get_object_In in Hget. destruct Hget as (Hin & Hk & Hiu).
  assert (Hid : Transaction.id row = k) by (rewrite Hrow; exact Hk).
  assert (Hu : Transaction.user row = u) by (rewrite Hrow; exact Hiu).
  assert (Hget1 : TransactionViewSet.get_object db1 u q k = Ok row).
  { unfold TransactionViewSet.get_object, TransactionViewSet.filter_queryset,
      TransactionViewSet.get_queryset. rewrite <- Hid.
    apply (visible_get Transaction.user);
      [exact (wf_transaction_pk Hwf1) | | exact Hu | exact Hq].
    rewrite Hdb. simpl. eapply save_pk_In; [exact Hin | congruence]. }
  unfold TransactionViewSet.update in *. rewrite Hget1. simpl.
  rewrite (transaction_validation_same_categories db db1)
    by (rewrite Hdb; reflexivity).
  apply bind_ok in H0. destruct H0 as (instance' & _ & H0).
  apply bind_ok in H0. destruct H0 as (vd & Hv & _). rewrite Hv. simpl.
  apply transaction_run_validation_ok in Hv. destruct Hv as [_ ->].
  unfold TransactionSerializer.update, TransactionSerializer.model_update.
  simpl.
  assert (Hsame :
            Transaction.Build (Transaction.id row) (Transaction.user row)
              (match value_of (TransactionSerializer.category_result
                                 db u partial d) with
               | Some c => option_map Category.id c
               | None => Transaction.category row
               end)
              (or_else (value_of (TransactionSerializer.amount_result partial d))
                       (Transaction.amount row))
              (or_else (value_of (TransactionSerializer.description_result
                                    partial d))
                       (Transaction.description row))
              (or_else (value_of (TransactionSerializer.date_result partial d))
                       (Transaction.date row))
              (or_else (value_of (TransactionSerializer.type_result partial d))
                       (Transaction.transaction_type row))
              (Transaction.created_at row)
            = row).
  { rewrite Hrow. simpl. rewrite !or_else_or_else.
    now destruct (value_of (TransactionSerializer.category_result db u partial d)). }
  rewrite Hsame. f_equal. f_equal. rewrite Hdb. simpl.
  now rewrite save_pk_idempotent.
Qed.

Lemma transaction_update_idempotent_witness :
  match TransactionViewSet.update Sample.db Sample.alice
          TransactionViewSet.no_filter 1 false
          (TransactionSerializer.Data Omitted (Given 3) (Given 4600)
             (Given "Weekly shop") (Given 19844) (Given "EX")) with
  | Ok (db1, row) =>
      TransactionViewSet.update db1 Sample.alice TransactionViewSet.no_filter 1
        false
        (TransactionSerializer.Data Omitted (Given 3) (Given 4600)
           (Given "Weekly shop") (Given 19844) (Given "EX"))
      = Ok (db1, row)
  | Raise _ => False
  end.
Proof.
  destruct (TransactionViewSet.update Sample.db Sample.alice
              TransactionViewSet.no_filter 1 false
              (TransactionSerializer.Data Omitted (Given 3) (Given 4600)
                 (Given "Weekly shop") (Given 19844) (Given "EX")))
    as [[db1 row] | e] eqn:E.
  - exact (transaction_update_idempotent Sample.db db1 Sample.alice _ 1 _ _ row
             sample_db_well_formed E eq_refl).
  - vm_compute in E. discriminate.
Defined.

Lemma filter_others_save_pk {T : Type} (key : T -> Z) l row :
  filter (fun b => negb (key b =? key row)) (save_pk key l row)
  = filter (fun b => negb (key b =? key row)) l.
Proof.
  unfold save_pk. apply filter_map_unchanged.
  - intros r _ H. apply negb_true_iff in H. now rewrite H.
  - intros r _ H. apply negb_false_iff in H. rewrite H.
    now rewrite Z.eqb_refl.
Qed.

Lemma existsb_map_same {T : Type} (f : T -> bool) (g : T -> T) l :
  (forall r, f (g r) = f r) -> existsb f (map g l) = existsb f l.
Proof.
  intros H. induction l as [| x l IH]; simpl; [reflexivity |].
  now rewrite H, IH.
Qed.

Lemma budget_conflict_after_save l row row' :
  budget_conflict (save_pk Budget.id l row) (Budget.id row) row'
  = budget_conflict l (Budget.id row) row'.
Proof.
  unfold budget_conflict, save_pk. apply existsb_map_same. intros r.
  destruct (Budget.id r =? Budget.id row) eqn:E; [| now rewrite E].
  now rewrite Z.eqb_refl.
Qed.

Lemma budget_to_internal_value_same_categories db db1 u cy partial d :
  categories db1 = categories db ->
  BudgetSerializer.to_internal_value db1 u cy partial d
  = BudgetSerializer.to_internal_value db u cy partial d.
Proof.
  intros E. unfold BudgetSerializer.to_internal_value,
    BudgetSerializer.field_errors, BudgetSerializer.category_result.
  assert (F : forall x,
             Drf.run_validation partial true None (category_pk_field db1) x
             = Drf.run_validation partial true None (category_pk_field db) x).
  { intros [| | k]; simpl; try reflexivity.
    unfold category_pk_field. now rewrite E. }
  now rewrite F.
Qed.

Lemma budget_validate_after_save db u instance row vd :
  Budget.id row = Budget.id instance ->
  BudgetSerializer.validate
    (Build_DB (categories db) (transactions db)
              (save_pk Budget.id (budgets db) row)
              (category_seq db) (transaction_seq db) (budget_seq db))
    u (Some row) vd
  = BudgetSerializer.validate db u (Some instance) vd.
Proof.
  intros Hid. unfold BudgetSerializer.validate, BudgetSerializer.duplicates.
  simpl.
  destruct (BudgetSerializer.validated_month vd) as [m |]; [| reflexivity].
  destruct (BudgetSerializer.validated_year vd) as [y |]; [| reflexivity].
  destruct (BudgetSerializer.validated_category vd) as [c |]; [| reflexivity].
  destruct (Py.truthy m && Py.truthy y); [| reflexivity].
  rewrite (filter_comm _ _ (save_pk Budget.id (budgets db) row)).
  rewrite (filter_comm _ _ (budgets db)).
  rewrite filter_others_save_pk. now rewrite Hid.
Qed.

(** X11: repeating a successful budget update with the same body (under
    a query the updated row still passes) changes nothing more: the
    uniqueness check leaves the budget itself out, so the update succeeds
    again and returns the same row and the same database. *)
Theorem budget_update_idempotent :
  forall (db db1 : DB) (u : user_id) (cy : Z) (q : BudgetViewSet.query) (k : Z)
         (partial : bool) (d : BudgetSerializer.data) (row : Budget.t),
    well_formed db ->
    BudgetViewSet.update db u cy q k partial d = Ok (db1, row) ->
    BudgetViewSet.passes db1 q row = true ->
    BudgetViewSet.update db1 u cy q k partial d = Ok (db1, row).
Proof.
  intros db db1 u cy q k partial d row Hwf H Hq.
  pose proof (budget_update_well_formed db u cy q k partial d db1 row Hwf H)
    as Hwf1.
  pose proof H as H0. apply budget_update_row in H.
  destruct H as (instance & Hget & Hrow & Hcf & Hdb).
  pose proof Hget as Hget0.
  apply budget_get_object_In in Hget. destruct Hget as (Hin & Hk & Hiu).
  assert (Hid : Budget.id row = Budget.id instance) by (rewrite Hrow; reflexivity).
  assert (Hu : Budget.user row = u) by (rewrite Hrow; exact Hiu).
  assert (Hget1 : BudgetViewSet.get_object db1 u q k = Ok row).
  { unfold BudgetViewSet.get_object, BudgetViewSet.filter_queryset,
      BudgetViewSet.get_queryset. rewrite <- Hk, <- Hid.
    apply (visible_get Budget.user);
      [exact (wf_budget_pk Hwf1) | | exact Hu | exact Hq].
    rewrite Hdb. simpl. eapply save_pk_In; [exact Hin | now symmetry]. }
  unfold BudgetViewSet.update in *. rewrite Hget1. rewrite Hget0 in H0.
  simpl in *.
  apply bind_ok in H0. destruct H0 as (vd & Hv & _).
  assert (Hv1 : BudgetSerializer.run_validation db1 u cy (Some row) partial d
                = Ok vd).
  { unfold BudgetSerializer.run_validation in *.
    rewrite (budget_to_internal_value_same_categories db db1)
      by (rewrite Hdb; reflexivity).
    destruct (BudgetSerializer.to_internal_value db u cy partial d)
      as [vd0 |]; [| discriminate].
    simpl in *. rewrite Hdb.
    now rewrite (budget_validate_after_save db u instance row vd0 Hid). }
  rewrite Hv1. simpl.
  apply budget_run_validation_ok in Hv. destruct Hv as [-> _].
  unfold BudgetSerializer.update, BudgetSerializer.model_update. simpl.
  assert (Hsame :
            Budget.Build (Budget.id row) (Budget.user row)
              (or_else (option_map Category.id
                          (value_of (BudgetSerializer.category_result
                                       db u partial d)))
                       (Budget.category row))
              (or_else (value_of (BudgetSerializer.amount_result partial d))
                       (Budget.amount row))
              (or_else (value_of (BudgetSerializer.month_result partial d))
                       (Budget.month row))
              (or_else (value_of (BudgetSerializer.year_result cy partial d))
                       (Budget.year row))
              (Budget.created_at row)
            = row).
  { rewrite Hrow. simpl. now rewrite !or_else_or_else. }
  rewrite Hsame, Hdb. simpl.
  rewrite budget_conflict_after_save, Hid, Hcf.
  now rewrite save_pk_idempotent.
Qed.

Lemma budget_update_idempotent_witness :
  match BudgetViewSet.update Sample.db Sample.alice 2025 BudgetViewSet.no_filter
          1 false
          (BudgetSerializer.Data Omitted (Given 1) (Given 77700) (Given 3)
             (Given 2025)) with
  | Ok (db1, row) =>
      BudgetViewSet.update db1 Sample.alice 2025 BudgetViewSet.no_filter 1 false
        (BudgetSerializer.Data Omitted (Given 1) (Given 77700) (Given 3)
           (Given 2025))
      = Ok (db1, row)
  | Raise _ => False
  end.
Proof.
  destruct (BudgetViewSet.update Sample.db Sample.alice 2025
              BudgetViewSet.no_filter 1 false
              (BudgetSerializer.Data Omitted (Given 1) (Given 77700) (Given 3)
                 (Given 2025))) as [[db1 row] | e] eqn:E.
  - exact (budget_update_idempotent Sample.db db1 Sample.alice 2025 _ 1 _ _ row
             sample_db_well_formed E eq_refl).
  - vm_compute in E. discriminate.
Defined.

(** ** An empty partial update *)

Lemma save_pk_same {T : Type} (key : T -> Z) l r :
  NoDup (map key l) -> In r l -> save_pk key l r = l.
Proof.
  intros Hnd Hin. unfold save_pk. rewrite <- (map_id l) at 2.
  apply map_ext_in. intros x Hx.
  destruct (key x =? key r) eqn:E; [| reflexivity].
  apply Z.eqb_eq in E. symmetry. now apply (pk_unique key l).
Qed.

Lemma category_no_conflict_with_itself db c :
  categories_unique db -> In c (categories db) ->
  category_conflict (categories db) (Category.id c) c = false.
Proof.
  intros Hu Hin. unfold category_conflict.
  destruct (existsb _ (categories db)) eqn:E; [| reflexivity].
  apply existsb_exists in E. destruct E as (r & Hr & E).
  rewrite !andb_true_iff, negb_true_iff, Z.eqb_neq, Z.eqb_eq in E.
  destruct E as ((Hne & Hn) & Hus). apply String.eqb_eq in Hn.
  exfalso. apply Hne. now apply Hu.
Qed.

Lemma budget_no_conflict_with_itself db b :
  budgets_unique db -> In b (budgets db) ->
  budget_conflict (budgets db) (Budget.id b) b = false.
Proof.
  intros Hu Hin. unfold budget_conflict.
  destruct (existsb _ (budgets db)) eqn:E; [| reflexivity].
  apply existsb_exists in E. destruct E as (r & Hr & E).
  rewrite !andb_true_iff, negb_true_iff, Z.eqb_neq, !Z.eqb_eq in E.
  destruct E as ((((Hne & H1) & H2) & H3) & H4).
  exfalso. apply Hne. now apply Hu.
Qed.

(** X12: a partial update with an empty body (whatever its [user] entry)
    validates nothing and changes nothing: it answers the row as it is
    and leaves the database as it is, for categories, transactions and
    budgets. *)
Theorem empty_partial_update_changes_nothing :
  forall (db : DB) (u : user_id) (k : Z) (o : input user_id),
    well_formed db -> categories_unique db -> budgets_unique db ->
    (forall q instance,
        CategoryViewSet.get_object db u q k = Ok instance ->
        CategoryViewSet.update db u q k true (CategorySerializer.Data Omitted o)
        = Ok (db, instance))
    /\ (forall q instance,
           TransactionViewSet.get_object db u q k = Ok instance ->
           TransactionViewSet.update db u q k true
             (TransactionSerializer.Data o Omitted Omitted Omitted Omitted Omitted)
           = Ok (db, instance))
    /\ (forall cy q instance,
           BudgetViewSet.get_object db u q k = Ok instance ->
           BudgetViewSet.update db u cy q k true
             (BudgetSerializer.Data o Omitted Omitted Omitted Omitted)
           = Ok (db, instance)).
Proof.
  intros db u k o Hwf Hcu Hbu. split; [| split].
  - intros q instance Hget. unfold CategoryViewSet.update. rewrite Hget.
    apply category_get_object_In in Hget. destruct Hget as (Hin & _ & _).
    pose proof (category_no_conflict_with_itself db _ Hcu Hin) as Hcf.
    pose proof (save_pk_same Category.id _ _ (wf_category_pk Hwf) Hin) as Hs.
    destruct instance as [i n us cr]. simpl in Hcf.
    simpl. unfold CategorySerializer.update. simpl.
    rewrite Hcf, Hs. now destruct db.
  - intros q instance Hget. unfold TransactionViewSet.update. rewrite Hget.
    apply transaction_get_object_In in Hget. destruct Hget as (Hin & _ & _).
    pose proof (save_pk_same Transaction.id _ _ (wf_transaction_pk Hwf) Hin)
      as Hs.
    destruct instance as [i us c a s dt ty cr].
    simpl. unfold TransactionSerializer.update,
      TransactionSerializer.model_update. simpl.
    rewrite Hs. now destruct db.
  - intros cy q instance Hget. unfold BudgetViewSet.update. rewrite Hget.
    apply budget_get_object_In in Hget. destruct Hget as (Hin & _ & _).
    pose proof (budget_no_conflict_with_itself db _ Hbu Hin) as Hcf.
    pose proof (save_pk_same Budget.id _ _ (wf_budget_pk Hwf) Hin) as Hs.
    destruct instance as [i us c a m y cr]. simpl in Hcf.
    simpl. unfold BudgetSerializer.update, BudgetSerializer.model_update.
    simpl. rewrite Hcf, Hs. now destruct db.
Qed.

Lemma sample_db_unique :
  categories_unique Sample.db /\ budgets_unique Sample.db.
Proof.
  split.
  - intros c1 c2 [<- | [<- | [<- | []]]] [<- | [<- | [<- | []]]];
      simpl; intros; try reflexivity; discriminate.
  - intros c1 c2 [<- | [<- | [<- | []]]] [<- | [<- | [<- | []]]];
      simpl; intros; try reflexivity; discriminate.
Qed.

Lemma empty_partial_update_changes_nothing_witness :
  BudgetViewSet.update Sample.db Sample.alice 2025 BudgetViewSet.no_filter 1 true
    (BudgetSerializer.Data (Given Sample.bob) Omitted Omitted Omitted Omitted)
  = Ok (Sample.db, Sample.food_march).
Proof.
  destruct (empty_partial_update_changes_nothing Sample.db Sample.alice 1
              (Given Sample.bob) sample_db_well_formed
              (proj1 sample_db_unique) (proj2 sample_db_unique))
    as (_ & _ & H).
  apply H. reflexivity.
Defined.

(** ** Required fields and partial updates *)

Lemma partial_field_invalid {A B C : Type} required (allow_null : option B)
    (f : A -> field_result B) (g : B -> field_result C) data msg :
  and_then (Drf.run_validation true required allow_null f data) g = Invalid msg ->
  data <> Omitted.
Proof. intros H E. rewrite E in H. discriminate. Qed.

(** X13: a transaction create is refused under ["amount"],
    ["description"] or ["date"] when the body leaves that key out, a
    budget create under ["category"], ["amount"], ["month"] or ["year"],
    and a category create under ["name"]; a partial transaction update
    reports validation errors only under keys the body holds. *)
Theorem required_fields_and_partial_validation :
  forall (db : DB) (u : user_id) (now cy : Z),
    (forall d,
        (TransactionSerializer.amount d = Omitted ->
         validation_error_on "amount" (TransactionViewSet.create db u now d))
        /\ (TransactionSerializer.description d = Omitted ->
            validation_error_on "description"
              (TransactionViewSet.create db u now d))
        /\ (TransactionSerializer.date d = Omitted ->
            validation_error_on "date" (TransactionViewSet.create db u now d)))
    /\ (forall d,
           (BudgetSerializer.category d = Omitted ->
            validation_error_on "category" (BudgetViewSet.create db u cy now d))
           /\ (BudgetSerializer.amount d = Omitted ->
               validation_error_on "amount" (BudgetViewSet.create db u cy now d))
           /\ (BudgetSerializer.month d = Omitted ->
               validation_error_on "month" (BudgetViewSet.create db u cy now d))
           /\ (BudgetSerializer.year d = Omitted ->
               validation_error_on "year" (BudgetViewSet.create db u cy now d)))
    /\ (forall d,
           CategorySerializer.name d = Omitted ->
           validation_error_on "name" (CategoryViewSet.create db u now d))
    /\ (forall q k d key,
           validation_error_on key (TransactionViewSet.update db u q k true d) ->
           (key = "category" /\ TransactionSerializer.category d <> Omitted)
           \/ (key = "amount" /\ TransactionSerializer.amount d <> Omitted)
           \/ (key = "description"
               /\ TransactionSerializer.description d <> Omitted)
           \/ (key = "date" /\ TransactionSerializer.date d <> Omitted)
           \/ (key = "transaction_type"
               /\ TransactionSerializer.transaction_type d <> Omitted)).
Proof.
  intros db u now cy. split; [| split; [| split]].
  - intros d. repeat split; intros E;
      apply transaction_create_rejects, transaction_field_error_reported;
      unfold TransactionSerializer.field_errors,
        TransactionSerializer.amount_result,
        TransactionSerializer.description_result,
        TransactionSerializer.date_result;
      rewrite E; rewrite !map_app, !in_app_iff; simpl; tauto.
  - intros d. repeat split; intros E;
      apply budget_create_rejects, budget_field_error_reported;
      unfold BudgetSerializer.field_errors, BudgetSerializer.category_result,
        BudgetSerializer.amount_result, BudgetSerializer.month_result,
        BudgetSerializer.year_result;
      rewrite E; rewrite !map_app, !in_app_iff; simpl; tauto.
  - intros d E. unfold CategoryViewSet.create.
    apply validation_error_on_bind.
    unfold CategorySerializer.run_validation. rewrite E. simpl.
    eexists. split; [reflexivity |]. simpl. now left.
  - intros q k d key H.
    apply transaction_update_rejected_by_validation,
      transaction_run_validation_keys, transaction_key_cases in H.
    destruct H as [[-> (msg & H)] | [[-> (msg & H)] | [[-> (msg & H)]
                  | [[-> (msg & H)] | [-> (msg & H)]]]]].
    + left. split; [reflexivity |].
      exact (partial_field_invalid _ _ _ _ _ _ H).
    + right. left. split; [reflexivity |].
      exact (partial_field_invalid _ _ _ _ _ _ H).
    + right. right. left. split; [reflexivity |].
      exact (partial_field_invalid _ _ _ _ _ _ H).
    + right. right. right. left. split; [reflexivity |].
      unfold TransactionSerializer.date_result in H.
      intros E. rewrite E in H. discriminate.
    + right. right. right. right. split; [reflexivity |].
      unfold TransactionSerializer.type_result in H.
      intros E. rewrite E in H. discriminate.
Qed.

Lemma required_fields_and_partial_validation_witness :
  validation_error_on "date"
    (TransactionViewSet.create Sample.db Sample.alice 200
       (TransactionSerializer.Data Omitted Omitted (Given 1250) (Given "Coffee")
          Omitted Omitted))
  /\ validation_error_on "year"
       (BudgetViewSet.create Sample.db Sample.alice 2025 200
          (BudgetSerializer.Data Omitted (Given 1) (Given 5000) (Given 5) Omitted)).
Proof.
  destruct (required_fields_and_partial_validation Sample.db Sample.alice 200 2025)
    as (Ht & Hb & _).
  split.
  - apply Ht. reflexivity.
  - apply Hb. reflexivity.
Defined.

(** ** Logging out and logging in *)

Lemma NoDup_map_inj {A B : Type} (f : A -> B) l x y :
  NoDup (map f l) -> In x l -> In y l -> f x = f y -> x = y.
Proof.
  induction l as [| a l IH]; simpl; [tauto |].
  intros Hnd Hx Hy E. inversion Hnd as [| ? ? Ha Hl]; subst.
  destruct Hx as [-> | Hx], Hy as [-> | Hy]; auto.
  - exfalso. apply Ha. rewrite E. now apply in_map.
  - exfalso. apply Ha. rewrite <- E. now apply in_map.
Qed.

Lemma token_delete_own db u t :
  TokenManager.of_user db u = [t] ->
  TokenManager.of_user (TokenManager.delete db t) u = [].
Proof.
  intros H. rewrite of_user_delete, H. simpl. now rewrite String.eqb_refl.
Qed.

Lemma token_delete_authenticate db t :
  TokenManager.authenticate (TokenManager.delete db t) (Token.key t) = None.
Proof.
  unfold TokenManager.authenticate, TokenManager.delete. simpl.
  rewrite find_is_none; [reflexivity |].
  intros x Hx. apply filter_In in Hx. destruct Hx as [_ Hx].
  now apply negb_true_iff in Hx.
Qed.

Lemma token_delete_others db u t v :
  NoDup (map Token.key (tokens db)) ->
  TokenManager.of_user db u = [t] -> v <> u ->
  TokenManager.of_user (TokenManager.delete db t) v = TokenManager.of_user db v.
Proof.
  intros Hnd Ht Hv.
  assert (Hin : In t (TokenManager.of_user db u)) by (rewrite Ht; now left).
  apply filter_In in Hin. destruct Hin as [Hin Hu]. apply Z.eqb_eq in Hu.
  unfold TokenManager.of_user, TokenManager.delete. simpl.
  apply filter_filter_unchanged.
  intros r Hr Hrv. apply Z.eqb_eq in Hrv. apply negb_true_iff.
  destruct (String.eqb (Token.key r) (Token.key t)) eqn:E; [| reflexivity].
  apply String.eqb_eq in E.
  assert (r = t) by (eapply NoDup_map_inj; eassumption).
  subst r. congruence.
Qed.

(** X14: a logout of a user who has a token answers 200 and deletes that
    token: the user has no token afterwards, the key authenticates
    nobody, the users and (keys being unique) the tokens of the other
    users are as before; the view then answers a further logout of that
    user with 400 "Token not found" and writes nothing. *)
Theorem logout_deletes_the_token :
  forall (db : AuthDB) (request_user : User.t) (t : Token.t),
    TokenManager.get db (User.id request_user) = Ok t ->
    UserLogoutView.post db request_user
    = ([TokenManager.delete db t], Response 200 "Logout successful" None [])
    /\ TokenManager.of_user (final db (UserLogoutView.post db request_user))
                            (User.id request_user) = []
    /\ TokenManager.authenticate (final db (UserLogoutView.post db request_user))
                                 (Token.key t) = None
    /\ users (final db (UserLogoutView.post db request_user)) = users db
    /\ (NoDup (map Token.key (tokens db)) ->
        forall v, v <> User.id request_user ->
          TokenManager.of_user (final db (UserLogoutView.post db request_user)) v
          = TokenManager.of_user db v)
    /\ UserLogoutView.post (final db (UserLogoutView.post db request_user))
                           request_user
       = ([], Response 400 "Token not found" None []).
Proof.
  intros db request_user t Hget.
  assert (Hpost : UserLogoutView.post db request_user
                  = ([TokenManager.delete db t],
                     Response 200 "Logout successful" None [])).
  { unfold UserLogoutView.post. now rewrite Hget. }
  rewrite Hpost. unfold final. simpl.
  apply token_get_ok in Hget.
  pose proof (token_delete_own db _ t Hget) as Hgone.
  split; [reflexivity |]. split; [exact Hgone |].
  split; [apply token_delete_authenticate |].
  split; [reflexivity |].
  split.
  - intros Hnd v Hv. now apply token_delete_others with (u := User.id request_user).
  - unfold UserLogoutView.post, TokenManager.get. now rewrite Hgone.
Qed.

Lemma logout_deletes_the_token_witness :
  TokenManager.get AuthSample.db (User.id AuthSample.alice)
  = Ok (Token.Build "key-1" 1 50)
  /\ TokenManager.authenticate AuthSample.db "key-1" = Some 1
  /\ TokenManager.authenticate
       (final AuthSample.db (UserLogoutView.post AuthSample.db AuthSample.alice))
       "key-1" = None.
Proof.
  split; [reflexivity |]. split; [reflexivity |].
  destruct (logout_deletes_the_token AuthSample.db AuthSample.alice
              (Token.Build "key-1" 1 50) eq_refl) as (_ & _ & H & _).
  exact H.
Defined.

Lemma token_create_succeeds db u key now :
  TokenManager.of_user db u = [] -> unused_key db key ->
  TokenManager.create db u key now
  = Ok (Build_AuthDB (users db) (tokens db ++ [Token.Build key u now])
                     (user_seq db),
        Token.Build key u now).
Proof.
  intros Hu Hk. unfold TokenManager.create.
  destruct (existsb _ (tokens db)) eqn:E; [| reflexivity].
  exfalso. apply existsb_exists in E. destruct E as (t & Hin & E).
  apply orb_true_iff in E. destruct E as [E | E].
  - apply String.eqb_eq in E. apply Hk. rewrite <- E. now apply in_map.
  - assert (Ht : In t (TokenManager.of_user db u)).
    { apply filter_In. split; assumption. }
    rewrite Hu in Ht. destruct Ht.
Qed.

Lemma token_create_used_key db u key now :
  In key (map Token.key (tokens db)) ->
  TokenManager.create db u key now = Raise IntegrityError.
Proof.
  intros Hk. unfold TokenManager.create.
  destruct (existsb _ (tokens db)) eqn:E; [reflexivity |].
  exfalso. apply in_map_iff in Hk. destruct Hk as (t & Ek & Hin).
  assert (H : existsb (fun t0 => String.eqb (Token.key t0) key
                                 || (Token.user t0 =? u)) (tokens db) = true).
  { apply existsb_exists. exists t. split; [exact Hin |].
    rewrite Ek, String.eqb_refl. reflexivity. }
  congruence.
Qed.

(** X15: a login with valid credentials never replaces a token: a user
    who has one is answered with its key and nothing is written, whatever
    key was drawn; a user who has none gets a token with the drawn key,
    and every later login is answered with that same key.  When the
    drawn key is already that of a stored token the insert fails with an
    integrity error that the view does not handle. *)
Theorem login_returns_the_standing_token :
  forall (S : AuthSettings) (db : AuthDB) (d : UserLoginSerializer.data)
         (user : User.t),
    UserLoginSerializer.is_valid db d = Ok user ->
    (forall t key now,
        TokenManager.of_user db (User.id user) = [t] ->
        UserLoginView.post db d key now
        = ([db], Response 200 "Login successful" (Some (Token.key t)) []))
    /\ (forall key now,
           TokenManager.of_user db (User.id user) = [] ->
           unused_key db key ->
           UserLoginView.post db d key now
           = ([Build_AuthDB (users db)
                 (tokens db ++ [Token.Build key (User.id user) now])
                 (user_seq db)],
              Response 200 "Login successful" (Some key) [])
           /\ forall key' now',
               UserLoginView.post
                 (Build_AuthDB (users db)
                    (tokens db ++ [Token.Build key (User.id user) now])
                    (user_seq db)) d key' now'
               = ([Build_AuthDB (users db)
                     (tokens db ++ [Token.Build key (User.id user) now])
                     (user_seq db)],
                  Response 200 "Login successful" (Some key) []))
    /\ (forall key now,
           TokenManager.of_user db (User.id user) = [] ->
           In key (map Token.key (tokens db)) ->
           UserLoginView.post db d key now = ([], Unhandled IntegrityError)).
Proof.
  intros S db d user Hv. split; [| split].
  - intros t key now Ht. unfold UserLoginView.post. rewrite Hv.
    unfold TokenManager.get_or_create, TokenManager.get. now rewrite Ht.
  - intros key now Hnone Hk. split.
    + unfold UserLoginView.post. rewrite Hv.
      unfold TokenManager.get_or_create, TokenManager.get. rewrite Hnone.
      now rewrite token_create_succeeds.
    + intros key' now'. unfold UserLoginView.post.
      change (UserLoginSerializer.is_valid
                (Build_AuthDB (users db)
                   (tokens db ++ [Token.Build key (User.id user) now])
                   (user_seq db)) d)
        with (UserLoginSerializer.is_valid db d).
      rewrite Hv.
      unfold TokenManager.get_or_create, TokenManager.get.
      rewrite of_user_app, Hnone. simpl. now rewrite Z.eqb_refl.
  - intros key now Hnone Hk. unfold UserLoginView.post. rewrite Hv.
    unfold TokenManager.get_or_create, TokenManager.get. rewrite Hnone.
    now rewrite token_create_used_key.
Qed.

Lemma login_returns_the_standing_token_witness :
  @UserLoginSerializer.is_valid AuthSample.settings AuthSample.db
    (UserLoginSerializer.Data "alice@example.org" "correct horse")
  = Ok AuthSample.alice
  /\ @UserLoginView.post AuthSample.settings AuthSample.db
       (UserLoginSerializer.Data "alice@example.org" "correct horse") "key-9" 70
     = ([AuthSample.db], Response 200 "Login successful" (Some "key-1") []).
Proof.
  split; [reflexivity |].
  destruct (login_returns_the_standing_token AuthSample.settings AuthSample.db
              (UserLoginSerializer.Data "alice@example.org" "correct horse")
              AuthSample.alice eq_refl) as (H & _).
  exact (H (Token.Build "key-1" 1 50) "key-9" 70 eq_refl).
Defined.

(** ** The [create_tokens] command *)

Lemma create_for_spec draw clock us :
  forall db c out,
    NoDup (map User.id us) ->
    (forall u, In u us -> TokenManager.of_user db (User.id u) = []) ->
    (forall i, (c <= i < c + List.length us)%nat -> unused_key db (draw i)) ->
    (forall i j, (c <= i < c + List.length us)%nat ->
                 (c <= j < c + List.length us)%nat ->
                 draw i = draw j -> i = j) ->
    exists db',
      CreateTokensCommand.create_for db us draw clock c out
      = (db', Ok ((c + List.length us)%nat,
                  out ++ map (fun u => CreateTokensCommand.CreatedTokenFor
                                         (User.username u)) us))
      /\ users db' = users db
      /\ (forall v, ~ In v (map User.id us) ->
                    TokenManager.of_user db' v = TokenManager.of_user db v)
      /\ (forall u, In u us ->
                    exists t, TokenManager.of_user db' (User.id u) = [t])
      /\ List.length (tokens db')
         = (List.length (tokens db) + List.length us)%nat.
Proof.
  induction us as [| u us IH]; intros db c out Hnd Hno Hfresh Hinj.
  - exists db. simpl. rewrite !Nat.add_0_r, app_nil_r.
    split; [reflexivity |]. split; [reflexivity |]. split; [reflexivity |].
    split; [intros ? [] | reflexivity].
  - simpl CreateTokensCommand.create_for.
    rewrite (token_create_succeeds db (User.id u) (draw c) (clock c));
      [| apply Hno; now left | apply Hfresh; simpl; lia].
    set (t := Token.Build (draw c) (User.id u) (clock c)).
    set (db1 := Build_AuthDB (users db) (tokens db ++ [t]) (user_seq db)).
    inversion Hnd as [| ? ? Hu Hnd']; subst.
    assert (Hdb1 : forall v, v <> User.id u ->
                     TokenManager.of_user db1 v = TokenManager.of_user db v).
    { intros v Hv. unfold db1. rewrite of_user_app. simpl.
      destruct (User.id u =? v) eqn:E; [| apply app_nil_r].
      apply Z.eqb_eq in E. congruence. }
    destruct (IH db1 (S c)
                (out ++ [CreateTokensCommand.CreatedTokenFor (User.username u)]))
      as (db' & Hrun & Husers & Hother & Hthese & Hlen).
    + exact Hnd'.
    + intros u' Hu'. rewrite Hdb1; [apply Hno; now right |].
      intros E. apply Hu. rewrite <- E. now apply in_map.
    + intros i Hi. unfold unused_key, db1. simpl.
      rewrite map_app, in_app_iff. simpl. intros [H | [H | []]].
      * apply (Hfresh i); [simpl; lia | exact H].
      * apply Hinj in H; simpl; lia.
    + intros i j Hi Hj. apply Hinj; simpl; lia.
    + exists db'. split; [| split; [| split; [| split]]].
      * rewrite Hrun. simpl. rewrite <- app_assoc. simpl.
        now rewrite Nat.add_succ_r.
      * exact Husers.
      * intros v Hv. simpl in Hv. rewrite Hother by tauto.
        apply Hdb1. intros E. apply Hv. now left.
      * intros u0 [<- | Hu0]; [| now apply Hthese].
        exists t. rewrite Hother by exact Hu. unfold db1.
        rewrite of_user_app, (Hno u (or_introl eq_refl)). simpl.
        now rewrite Z.eqb_refl.
      * rewrite Hlen. unfold db1. simpl. rewrite length_app. simpl. lia.
Qed.

Lemma users_without_tokens_In db u :
  In u (CreateTokensCommand.users_without_tokens db)
  <-> In u (users db) /\ TokenManager.of_user db (User.id u) = [].
Proof.
  unfold CreateTokensCommand.users_without_tokens. rewrite filter_In.
  destruct (TokenManager.of_user db (User.id u)); split; intros [H1 H2];
    split; try assumption; try reflexivity; discriminate.
Qed.

(** X16: when the user ids are unique, no user has more than one token
    and the keys drawn are new and pairwise different, the command ends
    normally, reports one line per user that had no token and then the
    total, gives every user exactly one token, keeps the tokens that
    existed, creates as many tokens as users had none, and a second run
    creates nothing and reports that all users already have tokens. *)
Theorem create_tokens_gives_every_user_a_token :
  forall (db : AuthDB) (draw : nat -> string) (clock : nat -> Z),
    NoDup (map User.id (users db)) ->
    one_token_per_user db ->
    (forall i, (i < List.length (CreateTokensCommand.users_without_tokens db))%nat ->
               unused_key db (draw i)) ->
    (forall i j,
        (i < List.length (CreateTokensCommand.users_without_tokens db))%nat ->
        (j < List.length (CreateTokensCommand.users_without_tokens db))%nat ->
        draw i = draw j -> i = j) ->
    exists db',
      CreateTokensCommand.handle db draw clock
      = (db',
         Ok (map (fun u => CreateTokensCommand.CreatedTokenFor (User.username u))
                 (CreateTokensCommand.users_without_tokens db)
             ++ [match CreateTokensCommand.users_without_tokens db with
                 | [] => CreateTokensCommand.AllUsersHaveTokens
                 | _ :: _ =>
                     CreateTokensCommand.CreatedTokens
                       (List.length (CreateTokensCommand.users_without_tokens db))
                 end]))
      /\ users db' = users db
      /\ (forall u, In u (users db) ->
                    exists t, TokenManager.of_user db' (User.id u) = [t])
      /\ (forall v, TokenManager.of_user db v <> [] ->
                    TokenManager.of_user db' v = TokenManager.of_user db v)
      /\ one_token_per_user db'
      /\ List.length (tokens db')
         = (List.length (tokens db)
            + List.length (CreateTokensCommand.users_without_tokens db))%nat
      /\ forall draw' clock',
          CreateTokensCommand.handle db' draw' clock'
          = (db', Ok [CreateTokensCommand.AllUsersHaveTokens]).
Proof.
  intros db draw clock Hnd Hone Hfresh Hinj.
  destruct (create_for_spec draw clock
              (CreateTokensCommand.users_without_tokens db) db 0%nat [])
    as (db' & Hrun & Husers & Hother & Hthese & Hlen).
  - unfold CreateTokensCommand.users_without_tokens.
    now apply NoDup_map_filter.
  - intros u Hu. now apply users_without_tokens_In in Hu.
  - intros i Hi. apply Hfresh. lia.
  - intros i j Hi Hj. apply Hinj; lia.
  - assert (Hkept : forall v, TokenManager.of_user db v <> [] ->
                      TokenManager.of_user db' v = TokenManager.of_user db v).
    { intros v Hv. apply Hother. intros Hin. apply in_map_iff in Hin.
      destruct Hin as (u & <- & Hu). apply users_without_tokens_In in Hu.
      now apply Hv. }
    assert (Hall : forall u, In u (users db) ->
                     exists t, TokenManager.of_user db' (User.id u) = [t]).
    { intros u Hu.
      destruct (TokenManager.of_user db (User.id u)) as [| t l] eqn:E.
      - apply Hthese. apply users_without_tokens_In. now split.
      - exists t. rewrite Hkept by (rewrite E; discriminate).
        specialize (Hone (User.id u)). rewrite E in *. simpl in Hone.
        destruct l; [reflexivity | simpl in Hone; lia]. }
    exists db'. split; [| split; [| split; [| split; [| split; [| split]]]]].
    + unfold CreateTokensCommand.handle. rewrite Hrun. simpl.
      destruct (CreateTokensCommand.users_without_tokens db); reflexivity.
    + exact Husers.
    + exact Hall.
    + exact Hkept.
    + intros v.
      destruct (in_dec Z.eq_dec v
                  (map User.id (CreateTokensCommand.users_without_tokens db)))
        as [Hin | Hout].
      * apply in_map_iff in Hin. destruct Hin as (u & <- & Hu).
        destruct (Hthese u Hu) as (t & ->). simpl. lia.
      * rewrite Hother by exact Hout. apply Hone.
    + exact Hlen.
    + intros draw' clock'. unfold CreateTokensCommand.handle.
      assert (E : CreateTokensCommand.users_without_tokens db' = []).
      { destruct (CreateTokensCommand.users_without_tokens db') as [| u l] eqn:E;
          [reflexivity |].
        assert (Hu : In u (CreateTokensCommand.users_without_tokens db'))
          by (rewrite E; now left).
        apply users_without_tokens_In in Hu. destruct Hu as [Hu Hnone].
        rewrite Husers in Hu. destruct (Hall u Hu) as (t & Ht).
        rewrite Ht in Hnone. discriminate. }
      rewrite E. reflexivity.
Qed.

Lemma create_tokens_gives_every_user_a_token_witness :
  NoDup (map User.id (users CommandSample.db))
  /\ one_token_per_user CommandSample.db
  /\ exists db',
      CreateTokensCommand.handle CommandSample.db CommandSample.draw
                                 CommandSample.clock
      = (db', Ok [CreateTokensCommand.CreatedTokenFor "bob";
                   CreateTokensCommand.CreatedTokenFor "carol";
                   CreateTokensCommand.CreatedTokens 2])
      /\ List.length (tokens db') = 3%nat.
Proof.
  assert (Hnd : NoDup (map User.id (users CommandSample.db))).
  { simpl. repeat constructor; simpl; intuition discriminate. }
  assert (Hone : one_token_per_user CommandSample.db).
  { intros u.
    exact (filter_length_le (fun t => Token.user t =? u)
                            (tokens CommandSample.db)). }
  split; [exact Hnd |]. split; [exact Hone |].
  destruct (create_tokens_gives_every_user_a_token CommandSample.db
              CommandSample.draw CommandSample.clock Hnd Hone)
    as (db' & Hrun & _ & _ & _ & _ & Hlen & _).
  - intros i Hi. change (i < 2)%nat in Hi. unfold unused_key. simpl.
    destruct i as [| [| i]]; simpl; [| | lia]; intuition discriminate.
  - intros i j Hi Hj. change (i < 2)%nat in Hi. change (j < 2)%nat in Hj.
    destruct i as [| [| i]], j as [| [| j]]; simpl; try lia;
      intros; try reflexivity; discriminate.
  - exists db'. split; [exact Hrun | exact Hlen].
Defined.

(** ** Pages of a list *)

(** X17: a page of a list holds at most [page_size] rows, 10 unless the
    request asks otherwise and never more than 100; it is a run of
    consecutive rows of the list, and it is not empty unless the list is.
    The first and the last page always exist, also of an empty list; a
    page number below 1 or beyond the last page, or one that is not an
    integer, is answered with 404. *)
Theorem page_is_a_bounded_window :
  forall (A : Type) (param : option Z) (queryset : list A),
    (forall page rows,
        StandardResultsSetPagination.paginate_queryset param page queryset
        = Ok rows ->
        Z.of_nat (List.length rows)
        <= StandardResultsSetPagination.get_page_size param <= 100
        /\ (param = None -> (List.length rows <= 10)%nat)
        /\ (exists before after, queryset = before ++ rows ++ after)
        /\ (queryset <> [] -> rows <> []))
    /\ (exists rows,
           StandardResultsSetPagination.paginate_queryset param
             StandardResultsSetPagination.PageAbsent queryset = Ok rows)
    /\ (exists rows,
           StandardResultsSetPagination.paginate_queryset param
             StandardResultsSetPagination.PageLast queryset = Ok rows)
    /\ (forall n,
           n < 1
           \/ StandardResultsSetPagination.num_pages
                (Z.of_nat (List.length queryset))
                (StandardResultsSetPagination.get_page_size param) < n ->
           StandardResultsSetPagination.paginate_queryset param
             (StandardResultsSetPagination.PageNumber n) queryset
           = Raise Http404)
    /\ StandardResultsSetPagination.paginate_queryset param
         StandardResultsSetPagination.PageNotAnInteger queryset
       = Raise Http404.
Proof.
  intros A param queryset.
  pose proof (get_page_size_bounds param) as Hper.
  pose proof (num_pages_bounds (Z.of_nat (List.length queryset))
                (StandardResultsSetPagination.get_page_size param)
                ltac:(lia) ltac:(lia)) as (HN1 & HN2 & HN3).
  split; [| split; [| split; [| split]]].
  - intros page rows H. apply paginate_as_number in H. destruct H as (z & H).
    apply paginate_number_ok in H. destruct H as (Hz & ->).
    assert (Hlen : Z.of_nat
                     (List.length
                        (firstn (Z.to_nat (StandardResultsSetPagination.get_page_size
                                             param))
                           (skipn ((Z.to_nat z - 1)
                                   * Z.to_nat
                                       (StandardResultsSetPagination.get_page_size
                                          param)) queryset)))
                   <= StandardResultsSetPagination.get_page_size param).
    { rewrite length_firstn. lia. }
    split; [lia |]. split; [| split].
    + intros ->.
      change (StandardResultsSetPagination.get_page_size None) with 10 in *.
      lia.
    + exists (firstn ((Z.to_nat z - 1)
                      * Z.to_nat (StandardResultsSetPagination.get_page_size param))
                     queryset).
      exists (skipn (Z.to_nat (StandardResultsSetPagination.get_page_size param))
                (skipn ((Z.to_nat z - 1)
                        * Z.to_nat (StandardResultsSetPagination.get_page_size
                                      param)) queryset)).
      now rewrite !firstn_skipn.
    + intros Hne Hrows. apply (f_equal (@List.length A)) in Hrows.
      rewrite length_firstn, length_skipn in Hrows. simpl in Hrows.
      assert (Hc : 1 <= Z.of_nat (List.length queryset)).
      { destruct queryset; [congruence | simpl; lia]. }
      specialize (HN3 Hc).
      assert (Hb : Z.of_nat ((Z.to_nat z - 1)
                             * Z.to_nat (StandardResultsSetPagination.get_page_size
                                           param))
                   = (z - 1) * StandardResultsSetPagination.get_page_size param).
      { rewrite Nat2Z.inj_mul. f_equal; lia. }
      assert (Hlt : (z - 1) * StandardResultsSetPagination.get_page_size param
                    < Z.of_nat (List.length queryset)) by nia.
      rewrite <- Hb in Hlt. lia.
  - exists (firstn (Z.to_nat (StandardResultsSetPagination.get_page_size param))
                   (skipn ((1 - 1)
                           * Z.to_nat (StandardResultsSetPagination.get_page_size
                                         param)) queryset)).
    apply (paginate_page param queryset 1); [lia | simpl; lia].
  - exists (firstn (Z.to_nat (StandardResultsSetPagination.get_page_size param))
                   (skipn ((Z.to_nat (StandardResultsSetPagination.num_pages
                                        (Z.of_nat (List.length queryset))
                                        (StandardResultsSetPagination.get_page_size
                                           param)) - 1)
                           * Z.to_nat (StandardResultsSetPagination.get_page_size
                                         param)) queryset)).
    rewrite <- paginate_page by lia. rewrite Z2Nat.id by lia. reflexivity.
  - intros n Hn. unfold StandardResultsSetPagination.paginate_queryset.
    cbv beta iota zeta.
    destruct ((n <? 1)
              || (StandardResultsSetPagination.num_pages
                    (Z.of_nat (List.length queryset))
                    (StandardResultsSetPagination.get_page_size param)
                  <? n)) eqn:E; [reflexivity |].
    apply orb_false_iff in E. destruct E as [E1 E2].
    apply Z.ltb_ge in E1, E2. lia.
  - reflexivity.
Qed.

(** X18: the pages 1 to [num_pages] of a list all exist and, put one
    after the other, are the list: no row is skipped and none is shown on
    two pages. *)
Theorem pages_partition_the_list :
  forall (A : Type) (param : option Z) (queryset : list A),
    exists pages,
      map (fun n =>
             StandardResultsSetPagination.paginate_queryset param
               (StandardResultsSetPagination.PageNumber (Z.of_nat n)) queryset)
          (seq 1 (Z.to_nat (StandardResultsSetPagination.num_pages
                              (Z.of_nat (List.length queryset))
                              (StandardResultsSetPagination.get_page_size param))))
      = map Ok pages
      /\ List.concat pages = queryset.
Proof.
  intros A param queryset.
  pose proof (get_page_size_bounds param) as Hper.
  pose proof (num_pages_bounds (Z.of_nat (List.length queryset))
                (StandardResultsSetPagination.get_page_size param)
                ltac:(lia) ltac:(lia)) as (HN1 & HN2 & _).
  exists (map (fun n =>
                 firstn (Z.to_nat (StandardResultsSetPagination.get_page_size param))
                        (skipn ((n - 1)
                                * Z.to_nat
                                    (StandardResultsSetPagination.get_page_size
                                       param)) queryset))
              (seq 1 (Z.to_nat (StandardResultsSetPagination.num_pages
                                  (Z.of_nat (List.length queryset))
                                  (StandardResultsSetPagination.get_page_size
                                     param))))).
  split.
  - rewrite map_map. apply map_ext_in. intros n Hn. apply in_seq in Hn.
    apply paginate_page; lia.
  - rewrite <- seq_shift, map_map.
    rewrite (map_ext _ (fun i =>
               firstn (Z.to_nat (StandardResultsSetPagination.get_page_size param))
                      (skipn (i * Z.to_nat
                                    (StandardResultsSetPagination.get_page_size
                                       param)) queryset))).
    + apply chunks_concat.
      apply Nat2Z.inj_le. rewrite Nat2Z.inj_mul, !Z2Nat.id by lia. exact HN2.
    + intros i. do 3 f_equal. lia.
Qed.

(** ** Month names *)

Lemma month_names_defined m :
  1 <= m <= 12 -> exists name, BudgetSerializer.month_names m = Some name.
Proof.
  intros H.
  assert (C : m = 1 \/ m = 2 \/ m = 3 \/ m = 4 \/ m = 5 \/ m = 6 \/ m = 7
              \/ m = 8 \/ m = 9 \/ m = 10 \/ m = 11 \/ m = 12) by lia.
  repeat destruct C as [-> | C]; try subst m; eexists; reflexivity.
Qed.

Lemma month_names_undefined m :
  ~ 1 <= m <= 12 -> BudgetSerializer.month_names m = None.
Proof.
  intros H. destruct m as [| p | p]; try reflexivity.
  do 4 (try (destruct p as [p | p |]; try reflexivity; try (exfalso; lia))).
Qed.

Lemma admin_month_names_agree m :
  BudgetAdmin.month_names m = BudgetSerializer.month_names m.
Proof. reflexivity. Qed.

(** X19: the API's [month_name] is defined exactly for the months 1 to
    12 and different months have different names; the admin's month
    display shows the same name for these months and the number itself
    for any other value, where the API shows null. *)
Theorem month_names_cover_one_to_twelve :
  (forall m, (exists name, BudgetSerializer.month_names m = Some name)
             <-> 1 <= m <= 12)
  /\ (forall m m' name,
         BudgetSerializer.month_names m = Some name ->
         BudgetSerializer.month_names m' = Some name -> m = m')
  /\ (forall db b,
         1 <= Budget.month b <= 12 ->
         exists name,
           br_month_name (budget_to_representation db b) = Some name
           /\ BudgetAdmin.get_month_display b = inl name)
  /\ (forall db b,
         ~ 1 <= Budget.month b <= 12 ->
         br_month_name (budget_to_representation db b) = None
         /\ BudgetAdmin.get_month_display b = inr (Budget.month b)).
Proof.
  assert (Hiff : forall m, (exists name, BudgetSerializer.month_names m = Some name)
                           <-> 1 <= m <= 12).
  { intros m. split; [| apply month_names_defined].
    intros (name & H).
    destruct (Z_le_dec 1 m) as [H1 |]; [destruct (Z_le_dec m 12) as [H2 |] |];
      [lia | |]; rewrite month_names_undefined in H by lia; discriminate. }
  split; [exact Hiff |]. split; [| split].
  - intros m m' name H H'.
    assert (Hm : 1 <= m <= 12) by (apply Hiff; eauto).
    assert (Hm' : 1 <= m' <= 12) by (apply Hiff; eauto).
    assert (C : m = 1 \/ m = 2 \/ m = 3 \/ m = 4 \/ m = 5 \/ m = 6 \/ m = 7
                \/ m = 8 \/ m = 9 \/ m = 10 \/ m = 11 \/ m = 12) by lia.
    assert (C' : m' = 1 \/ m' = 2 \/ m' = 3 \/ m' = 4 \/ m' = 5 \/ m' = 6
                 \/ m' = 7 \/ m' = 8 \/ m' = 9 \/ m' = 10 \/ m' = 11
                 \/ m' = 12) by lia.
    clear Hm Hm'.
    repeat destruct C as [-> | C]; try subst m;
      simpl in H; injection H as <-;
      repeat destruct C' as [-> | C']; try subst m';
      solve [reflexivity | discriminate].
  - intros db b Hb. destruct (month_names_defined _ Hb) as (name & E).
    exists name. unfold BudgetAdmin.get_month_display.
    rewrite admin_month_names_agree. simpl. now rewrite E.
  - intros db b Hb. unfold BudgetAdmin.get_month_display.
    rewrite admin_month_names_agree. simpl.
    now rewrite (month_names_undefined _ Hb).
Qed.

(** ** Renaming a category *)

Lemma get_pk_save_pk_other {T : Type} (key : T -> Z) l row k :
  k <> key row -> get_pk key (save_pk key l row) k = get_pk key l k.
Proof.
  unfold get_pk, save_pk. intros Hk.
  induction l as [| x l IH]; simpl; [reflexivity |].
  destruct (key x =? key row) eqn:E.
  - apply Z.eqb_eq in E.
    assert (H1 : (key row =? k) = false) by (apply Z.eqb_neq; congruence).
    assert (H2 : (key x =? k) = false) by (apply Z.eqb_neq; congruence).
    rewrite H1, H2. exact IH.
  - destruct (key x =? k); [reflexivity | exact IH].
Qed.

Lemma category_detail_after_save db row instance c :
  In instance (categories db) -> Category.id row = Category.id instance ->
  category_detail
    (Build_DB (save_pk Category.id (categories db) row) (transactions db)
              (budgets db) (category_seq db) (transaction_seq db)
              (budget_seq db)) c
  = if opt_eqb c (Category.id instance)
    then Some (Category.id instance, Category.name row)
    else category_detail db c.
Proof.
  intros Hin Hid. destruct c as [k' |]; [| reflexivity].
  unfold category_detail, opt_eqb. cbn [categories].
  destruct (k' =? Category.id instance) eqn:E.
  - apply Z.eqb_eq in E. subst k'. rewrite <- Hid.
    rewrite (get_pk_save_pk Category.id _ row instance Hin (eq_sym Hid)).
    reflexivity.
  - apply Z.eqb_neq in E. rewrite get_pk_save_pk_other by congruence.
    reflexivity.
Qed.

(** X20: a successful category update writes to the category table only,
    and the new name is what the owner's transactions and budgets of that
    category show from then on: a retrieve of any of the owner's
    transactions or budgets answers the stored row with the new name in
    [category_detail] when the row refers to the category, and with the
    detail it had before otherwise. *)
Theorem category_rename_reaches_its_rows :
  forall (db db' : DB) (u : user_id) (q : CategoryViewSet.query) (k : Z)
         (partial : bool) (d : CategorySerializer.data) (row : Category.t),
    well_formed db ->
    CategoryViewSet.update db u q k partial d = Ok (db', row) ->
    transactions db' = transactions db
    /\ budgets db' = budgets db
    /\ (forall t,
           In t (transactions db) -> Transaction.user t = u ->
           TransactionViewSet.retrieve db' u TransactionViewSet.no_filter
             (Transaction.id t)
           = Ok (Build_TransactionRepr t
                   (if opt_eqb (Transaction.category t) k
                    then Some (k, Category.name row)
                    else category_detail db (Transaction.category t))))
    /\ (forall b,
           In b (budgets db) -> Budget.user b = u ->
           BudgetViewSet.retrieve db' u BudgetViewSet.no_filter (Budget.id b)
           = Ok (Build_BudgetRepr b
                   (if Budget.category b =? k
                    then Some (k, Category.name row)
                    else category_detail db (Some (Budget.category b)))
                   (BudgetSerializer.month_names (Budget.month b)))).
Proof.
  intros db db' u q k partial d row Hwf H.
  apply category_update_db in H.
  destruct H as (instance & Hget & Hid & _ & ->).
  apply category_get_object_In in Hget. destruct Hget as (Hin & Hk & _).
  subst k.
  split; [reflexivity |]. split; [reflexivity |]. split.
  - intros t Ht Hu.
    unfold TransactionViewSet.retrieve, TransactionViewSet.get_object,
      TransactionViewSet.filter_queryset, TransactionViewSet.get_queryset.
    cbn [transactions].
    rewrite (visible_get Transaction.user);
      [| exact (wf_transaction_pk Hwf) | exact Ht | exact Hu | reflexivity].
    cbn [bind]. unfold transaction_to_representation.
    now rewrite (category_detail_after_save db row instance _ Hin Hid).
  - intros b Hb Hu.
    unfold BudgetViewSet.retrieve, BudgetViewSet.get_object,
      BudgetViewSet.filter_queryset, BudgetViewSet.get_queryset.
    cbn [budgets].
    rewrite (visible_get Budget.user);
      [| exact (wf_budget_pk Hwf) | exact Hb | exact Hu | reflexivity].
    cbn [bind]. unfold budget_to_representation.
    now rewrite (category_detail_after_save db row instance _ Hin Hid).
Qed.

Lemma category_rename_reaches_its_rows_witness :
  match CategoryViewSet.update Sample.db Sample.alice CategoryViewSet.no_filter
          1 true (CategorySerializer.Data (Given "Food") Omitted) with
  | Ok (db', row) =>
      TransactionViewSet.retrieve db' Sample.alice TransactionViewSet.no_filter 1
      = Ok (Build_TransactionRepr Sample.weekly_shop (Some (1, "Food")))
      /\ BudgetViewSet.retrieve db' Sample.alice BudgetViewSet.no_filter 2
         = Ok (Build_BudgetRepr Sample.food_april (Some (1, "Food"))
                                (Some "April"))
  | Raise _ => False
  end.
Proof.
  destruct (CategoryViewSet.update Sample.db Sample.alice
              CategoryViewSet.no_filter 1 true
              (CategorySerializer.Data (Given "Food") Omitted))
    as [[db' row] | e] eqn:E.
  - destruct (category_rename_reaches_its_rows Sample.db db' Sample.alice _ 1 _ _
                row sample_db_well_formed E) as (_ & _ & Ht & Hb).
    assert (Hname : Category.name row = "Food").
    { vm_compute in E. now injection E as <- <-. }
    split.
    + pose proof (Ht Sample.weekly_shop (or_introl eq_refl) eq_refl) as H.
      rewrite Hname in H. exact H.
    + pose proof (Hb Sample.food_april (or_intror (or_introl eq_refl)) eq_refl)
        as H.
      rewrite Hname in H. exact H.
  - vm_compute in E. discriminate.
Defined.
